(** * x402 upto: verifier, settler, client builder, middleware and audit store

    A shallow embedding of the TypeScript sources of the upto payment scheme
    and the properties its specification states about them, followed by
    further properties of the code: the facilitator's routes, the course of
    a gated request, the updates of the audit store, the server scheme and
    the Permit2 approval.

    Conventions of the embedding.
    - A JavaScript string is a [string]: a sequence of 8-bit code units (the
      Latin-1 range of UTF-16 code units).
    - A [bigint] is a [Z].  A [number] that the code obtains from [parseInt],
      [Date.now] or integer arithmetic is [NaN] or an integer [Num z].  The
      code compares what [parseInt] reads only with the clock in seconds, an
      integer far below 2^53: rounding a longer integer to the nearest
      double does not move it across the clock reading, so the comparison
      of the doubles is the comparison of the integers.  For clock readings
      below 2^53 milliseconds, [Math.floor(Date.now() / 1000)] is the
      integer quotient.
    - Asynchronous code is a program tree [prog]: a return, a throw, or a call
      to the outside world (clock, signer, facilitator, handler) followed by
      a continuation on the answer.  A promise that is awaited is answered
      by [Fulfilled] or [Rejected]. *)

From Stdlib Require Import ZArith String Ascii List Lia.
From Stdlib Require DecimalString DecimalPos.
From stdpp Require Import gmap strings.

Local Open Scope string_scope.
Local Open Scope Z_scope.

(** ** JavaScript primitives used by the sources *)

Module Js.

(** Values that a [throw] or a rejected promise carries. *)
Inductive Thrown : Type :=
| SyntaxError (input : string)   (* BigInt(input) on a string that is no integer literal *)
| JsError (message : string)     (* new Error(message) *)
| NonError.                      (* a thrown value that is not an Error instance *)

(** [err instanceof Error ? err.message : fallback] *)
Definition message_or (fallback : string) (e : Thrown) : string :=
  match e with
  | SyntaxError input => "Cannot convert " ++ input ++ " to a BigInt"
  | JsError message => message
  | NonError => fallback
  end.

(** The settled state of an awaited promise. *)
Inductive Settled (A : Type) : Type :=
| Fulfilled (a : A)
| Rejected (e : Thrown).
Arguments Fulfilled {A} a.
Arguments Rejected {A} e.

(** Integer-valued numbers and NaN. *)
Inductive number : Type :=
| NaN
| Num (z : Z).

(** [a <= b] and [a > b] on numbers: every comparison with NaN is false. *)
Definition num_le (a b : number) : bool :=
  match a, b with
  | Num x, Num y => x <=? y
  | _, _ => false
  end.

Definition num_gt (a b : number) : bool :=
  match a, b with
  | Num x, Num y => y <? x
  | _, _ => false
  end.

(** White space and line terminators (StrWhiteSpaceChar) below U+0100. *)
Definition is_white_space (c : ascii) : bool :=
  let n := N_of_ascii c in
  ((n =? 9) || (n =? 10) || (n =? 11) || (n =? 12) || (n =? 13)
   || (n =? 32) || (n =? 160))%N.

Fixpoint trim_start (s : string) : string :=
  match s with
  | String c s' => if is_white_space c then trim_start s' else s
  | EmptyString => EmptyString
  end.

Fixpoint trim_end (s : string) : string :=
  match s with
  | String c s' =>
      match trim_end s' with
      | EmptyString => if is_white_space c then EmptyString else String c EmptyString
      | t => String c t
      end
  | EmptyString => EmptyString
  end.

(** The value of a digit of any radix up to 36. *)
Definition digit_value (c : ascii) : option Z :=
  let n := Z.of_N (N_of_ascii c) in
  if (48 <=? n) && (n <=? 57) then Some (n - 48)
  else if (97 <=? n) && (n <=? 122) then Some (n - 87)
  else if (65 <=? n) && (n <=? 90) then Some (n - 55)
  else None.

Definition digit_in (radix : Z) (c : ascii) : option Z :=
  match digit_value c with
  | Some d => if d <? radix then Some d else None
  | None => None
  end.

(** The longest prefix of radix digits, read as an integer; [acc] is the
    value read so far, [None] while no digit has been read. *)
Fixpoint parse_prefix (radix : Z) (s : string) (acc : option Z) : option Z :=
  match s with
  | String c s' =>
      match digit_in radix c with
      | Some d => parse_prefix radix s' (Some (radix * default 0 acc + d))
      | None => acc
      end
  | EmptyString => acc
  end.

(** A whole string of radix digits, at least one. *)
Fixpoint parse_all (radix : Z) (s : string) (acc : option Z) : option Z :=
  match s with
  | String c s' =>
      match digit_in radix c with
      | Some d => parse_all radix s' (Some (radix * default 0 acc + d))
      | None => None
      end
  | EmptyString => acc
  end.

(** [parseInt(s, radix)]; radix 0 stands for an absent radix. *)
Definition parseInt (s : string) (radix : Z) : number :=
  let inputS := trim_start s in
  let '(sign, body) :=
    match inputS with
    | String "-" r => (-1, r)
    | String "+" r => (1, r)
    | _ => (1, inputS)
    end in
  if negb (radix =? 0) && ((radix <? 2) || (36 <? radix)) then NaN
  else
    let stripPrefix := (radix =? 0) || (radix =? 16) in
    let R := if radix =? 0 then 10 else radix in
    let '(R, body) :=
      match body with
      | String "0" (String c r) =>
          if stripPrefix && (Ascii.eqb c "x" || Ascii.eqb c "X") then (16, r)
          else (R, body)
      | _ => (R, body)
      end in
    match parse_prefix R body None with
    | Some v => Num (sign * v)
    | None => NaN
    end.

(** [BigInt(s)] on a string (StringToBigInt): [None] is the SyntaxError. *)
Definition BigInt (s : string) : option Z :=
  let t := trim_end (trim_start s) in
  match t with
  | EmptyString => Some 0
  | String "0" (String c r) =>
      if Ascii.eqb c "x" || Ascii.eqb c "X" then parse_all 16 r None
      else if Ascii.eqb c "o" || Ascii.eqb c "O" then parse_all 8 r None
      else if Ascii.eqb c "b" || Ascii.eqb c "B" then parse_all 2 r None
      else parse_all 10 t None
  | String "+" r => parse_all 10 r None
  | String "-" r => Z.opp <$> parse_all 10 r None
  | _ => parse_all 10 t None
  end.

(** [n.toString()] for an integer-valued number or a bigint below 10^21. *)
Definition toString (z : Z) : string :=
  DecimalString.NilZero.string_of_int (Z.to_int z).

(** [String.prototype.toLowerCase] on Latin-1 code units. *)
Definition lower_char (c : ascii) : ascii :=
  let n := N_of_ascii c in
  if ((65 <=? n) && (n <=? 90)
      || (192 <=? n) && (n <=? 222) && negb (n =? 215))%N
  then ascii_of_N (n + 32) else c.

Fixpoint toLowerCase (s : string) : string :=
  match s with
  | String c s' => String (lower_char c) (toLowerCase s')
  | EmptyString => EmptyString
  end.

(** [s.split(sep)] for a one-character separator. *)
Fixpoint split (sep : ascii) (s : string) : list string :=
  match s with
  | EmptyString => [EmptyString]
  | String c s' =>
      if Ascii.eqb c sep then EmptyString :: split sep s'
      else match split sep s' with
           | p :: ps => String c p :: ps
           | [] => [String c EmptyString]
           end
  end.

(** Truthiness of an optional string: [undefined] and [""] are falsy. *)
Definition truthy (o : option string) : bool :=
  match o with
  | Some s => negb (String.eqb s "")
  | None => false
  end.

End Js.

(** ** Programs that call the outside world *)

Module Prog.
Import Js.

Section Programs.
(** The calls a program may make and the type of each call's answer. *)
Context {C : Type} {R : C -> Type}.

Inductive prog (A : Type) : Type :=
| Ret (a : A)
| Throw (e : Thrown)
| Vis (c : C) (k : R c -> prog A).
Arguments Ret {A} a.
Arguments Throw {A} e.
Arguments Vis {A} c k.

Fixpoint bind {A B : Type} (p : prog A) (f : A -> prog B) : prog B :=
  match p with
  | Ret a => f a
  | Throw e => Throw e
  | Vis c k => Vis c (fun r => bind (k r) f)
  end.

(** [try { p } catch (e) { h e }] *)
Fixpoint try_catch {A : Type} (p : prog A) (h : Thrown -> prog A) : prog A :=
  match p with
  | Ret a => Ret a
  | Throw e => h e
  | Vis c k => Vis c (fun r => try_catch (k r) h)
  end.

(** A call whose answer is used as it is. *)
Definition call (c : C) : prog (R c) := Vis c Ret.

(** The outcome of running a program to its end. *)
Inductive outcome (A : Type) : Type :=
| Returned (a : A)
| Threw (e : Thrown).
Arguments Returned {A} a.
Arguments Threw {A} e.

(** The outside world: a state [W] and, for each call, the answer given
    in a state and the state after the call. *)
Definition world (W : Type) : Type := forall c : C, W -> R c * W.

(** Running a program in a world: the outcome, the final state and the
    calls made, in order. *)
Fixpoint run {W A : Type} (h : world W) (p : prog A) (w : W)
  : outcome A * W * list C :=
  match p with
  | Ret a => (Returned a, w, [])
  | Throw e => (Threw e, w, [])
  | Vis c k =>
      let '(r, w1) := h c w in
      let '(o, w2, calls) := run h (k r) w1 in
      (o, w2, c :: calls)
  end.

(** The answer to a call in a state, and the state after it. *)
Definition answer {W : Type} (h : world W) (c : C) (w : W) : R c := fst (h c w).
Definition after {W : Type} (h : world W) (c : C) (w : W) : W := snd (h c w).

Definition result_of {W A : Type} (x : outcome A * W * list C) : outcome A :=
  fst (fst x).
Definition calls_of {W A : Type} (x : outcome A * W * list C) : list C :=
  snd x.
Definition state_of {W A : Type} (x : outcome A * W * list C) : W :=
  snd (fst x).
End Programs.

Arguments prog C R A : clear implicits.
Arguments world C R W : clear implicits.
Arguments Ret {C R A} a.
Arguments Throw {C R A} e.
Arguments Vis {C R A} c k.
Arguments Returned {A} a.
Arguments Threw {A} e.

Notation "'let*' x ':=' p 'in' k" := (bind p (fun x => k))
  (at level 10, x name, p at level 100, k at level 200, only parsing).

(** [await] of a promise that the outside world settles: a rejection is
    thrown at the await. *)
Definition await {C : Type} {R : C -> Type} {A : Type}
    (p : prog C R (Settled A)) : prog C R A :=
  bind p (fun r => match r with
                   | Fulfilled a => Ret a
                   | Rejected e => Throw e
                   end).

(** [BigInt(s)] inside a program: the SyntaxError is thrown. *)
Definition bigint {C R} (s : string) : prog C R Z :=
  match BigInt s with
  | Some z => Ret z
  | None => Throw (SyntaxError s)
  end.

End Prog.

(** ** constants.ts *)

Module Constants.

(** Uniswap Permit2, the canonical address on all EVM chains. *)
Definition PERMIT2_ADDRESS : string := "0x000000000022D473030F116dDEE9F6B43aC78BA3".

(** x402 upto proxy: settles metered amounts through Permit2. *)
Definition X402_UPTO_PERMIT2_PROXY_ADDRESS : string :=
  "0x4020633461b2895a48930Ff97eE8fCdE8E520002".

(** x402 exact proxy, for reference. *)
Definition X402_EXACT_PERMIT2_PROXY_ADDRESS : string :=
  "0x4020615294c913F045dc10f0a5cdEbd86c280001".

(** Known USDC addresses by CAIP-2 network id (the object's own keys). *)
Definition USDC_ADDRESSES : gmap string string :=
  <["eip155:8453" := "0x833589fCD6eDb6E08f4c7C32D4f71b54bdA02913"]>
  (<["eip155:84532" := "0x036CbD53842c5426634e7929541eC2318f3dCF7e"]> ∅).

Definition USDC_DECIMALS : Z := 6.

End Constants.

(** ** types.ts *)

Module Types.
Import Js.

Record Permit2Witness : Type := {
  to : string;
  validAfter : string;
  extra : string
}.

Record TokenPermissions : Type := {
  token : string;
  amount : string    (* MAX ceiling in smallest token units *)
}.

Record Permit2Authorization : Type := {
  from : string;
  permitted : TokenPermissions;
  spender : string;
  nonce : string;
  deadline : string;
  witness : Permit2Witness
}.

Record UptoPermit2Payload : Type := {
  signature : string;
  permit2Authorization : Permit2Authorization;
  settlementAmount : option string   (* set by the server after metering *)
}.

(** The [scheme] field has the single value "upto". *)
Record UptoPaymentRequirements : Type := {
  scheme : string;
  network : string;
  asset : string;
  maxAmount : string;
  payTo : string;
  maxTimeoutSeconds : Z
}.

Record VerifyResult : Type := {
  isValid : bool;
  invalidReason : option string;
  payer : option string
}.

Record SettleResult : Type := {
  success : bool;
  txHash : option string;
  settledAmount : option string;
  error : option string
}.

(** EIP-712 domain and message handed to the signers. *)
Record Domain : Type := {
  domain_name : string;
  chainId : number;
  verifyingContract : string
}.

(** The client passes [permitted.amount] as the string of the
    requirements, the facilitator as a bigint. *)
Inductive amount_value : Type :=
| AmountString (s : string)
| AmountBigInt (z : Z).

Record Message : Type := {
  msg_token : string;
  msg_amount : amount_value;
  msg_spender : string;
  msg_nonce : Z;
  msg_deadline : Z;
  msg_to : string;
  msg_validAfter : Z;
  msg_extra : string
}.

(** Parameters of the facilitator signer's calls; the ABI, the EIP-712
    types and the primary type are constants of the sources. *)
Record VerifyTypedDataParams : Type := {
  vt_address : string;
  vt_domain : Domain;
  vt_message : Message;
  vt_signature : string
}.

Record ReadContractParams : Type := {
  rc_address : string;
  rc_functionName : string;
  rc_args : list string
}.

Record WriteContractParams : Type := {
  wc_address : string;
  wc_functionName : string;
  wc_permit_token : string;
  wc_permit_amount : Z;
  wc_permit_nonce : Z;
  wc_permit_deadline : Z;
  wc_amount : Z;
  wc_owner : string;
  wc_witness_to : string;
  wc_witness_validAfter : Z;
  wc_witness_extra : string;
  wc_signature : string
}.

Inductive ReceiptStatus : Type := StatusSuccess | StatusReverted.

Record Receipt : Type := {
  status : ReceiptStatus;
  transactionHash : string
}.

(** What the facilitator's code asks of its environment: the clock and
    the four capabilities of [FacilitatorSigner]. *)
Inductive signer_call : Type :=
| DateNow
| VerifyTypedData (params : VerifyTypedDataParams)
| ReadContract (params : ReadContractParams)
| WriteContract (params : WriteContractParams)
| WaitForTransactionReceipt (hash : string).

(** [Date.now()] answers with milliseconds; [readContract]'s answer is
    cast to bigint by the caller. *)
Definition signer_answer (c : signer_call) : Type :=
  match c with
  | DateNow => Z
  | VerifyTypedData _ => Settled bool
  | ReadContract _ => Settled Z
  | WriteContract _ => Settled string
  | WaitForTransactionReceipt _ => Settled Receipt
  end.

End Types.

(** ** facilitator/permit2.ts *)

Module Facilitator.
Import Js Prog Constants Types.

Abbreviation M := (prog signer_call signer_answer).

(** Parse CAIP-2 network to chain id: [parseInt(network.split(":")[1], 10)];
    a missing second part is [undefined], which [parseInt] reads as the
    string "undefined". *)
Definition parseChainId (network : string) : number :=
  match split ":" network with
  | _ :: part :: _ => parseInt part 10
  | _ => parseInt "undefined" 10
  end.

Definition PERMIT2_DOMAIN (chain : number) : Domain :=
  {| domain_name := "Permit2"; chainId := chain; verifyingContract := PERMIT2_ADDRESS |}.

Definition invalid (reason : string) : VerifyResult :=
  {| isValid := false; invalidReason := Some reason; payer := None |}.

(** The PermitWitnessTransferFrom message that the signature covers. *)
Definition witness_message (auth : Permit2Authorization)
    (m_amount m_nonce m_deadline m_validAfter : Z) : Message :=
  {| msg_token := token (permitted auth);
     msg_amount := AmountBigInt m_amount;
     msg_spender := spender auth;
     msg_nonce := m_nonce;
     msg_deadline := m_deadline;
     msg_to := to (witness auth);
     msg_validAfter := m_validAfter;
     msg_extra := extra (witness auth) |}.

Definition allowance_params (auth : Permit2Authorization) : ReadContractParams :=
  {| rc_address := token (permitted auth);
     rc_functionName := "allowance";
     rc_args := [from auth; PERMIT2_ADDRESS] |}.

Definition balance_params (auth : Permit2Authorization) : ReadContractParams :=
  {| rc_address := token (permitted auth);
     rc_functionName := "balanceOf";
     rc_args := [from auth] |}.

(** Verify an upto Permit2 payload.  A [try] block answers [Some r] when
    it leaves the function with [return r] and [None] when control falls
    through to the statement after it. *)
Definition verifyUpto (payload : UptoPermit2Payload)
    (requirements : UptoPaymentRequirements) : M VerifyResult :=
  let permit2Authorization := permit2Authorization payload in
  let signature := signature payload in
  let* ms := call DateNow in
  let now := Num (ms / 1000) in
  (* Check spender *)
  if negb (String.eqb (toLowerCase (spender permit2Authorization))
                      (toLowerCase X402_UPTO_PERMIT2_PROXY_ADDRESS))
  then Ret (invalid "invalid_spender")
  (* Check recipient *)
  else if negb (String.eqb (toLowerCase (to (witness permit2Authorization)))
                           (toLowerCase (payTo requirements)))
  then Ret (invalid "invalid_recipient")
  (* Check deadline *)
  else if num_le (parseInt (deadline permit2Authorization) 0) now
  then Ret (invalid "permit2_deadline_expired")
  (* Check validAfter *)
  else if num_gt (parseInt (validAfter (witness permit2Authorization)) 0) now
  then Ret (invalid "permit2_not_yet_valid")
  else
  (* Check authorized amount covers the server's max *)
  let* authorized := bigint (amount (permitted permit2Authorization)) in
  let* required := bigint (maxAmount requirements) in
  if authorized <? required
  then Ret (invalid "insufficient_authorized_amount")
  else
  (* Verify EIP-712 signature *)
  let chain := parseChainId (network requirements) in
  let domain := PERMIT2_DOMAIN chain in
  let* m_amount := bigint (amount (permitted permit2Authorization)) in
  let* m_nonce := bigint (nonce permit2Authorization) in
  let* m_deadline := bigint (deadline permit2Authorization) in
  let* m_validAfter := bigint (validAfter (witness permit2Authorization)) in
  let message :=
    witness_message permit2Authorization m_amount m_nonce m_deadline m_validAfter in
  let* sigCheck := try_catch
    (let* isValidSig := await (call (VerifyTypedData
       {| vt_address := from permit2Authorization;
          vt_domain := domain;
          vt_message := message;
          vt_signature := signature |})) in
     if negb isValidSig
     then Ret (Some (invalid "invalid_permit2_signature"))
     else Ret None)
    (fun _ => Ret (Some (invalid "signature_verification_failed"))) in
  match sigCheck with
  | Some r => Ret r
  | None =>
  (* Check Permit2 allowance *)
  let* allowanceCheck := try_catch
    (let* allowance := await (call (ReadContract (allowance_params permit2Authorization))) in
     let* ceiling := bigint (amount (permitted permit2Authorization)) in
     if allowance <? ceiling
     then Ret (Some (invalid "permit2_allowance_required"))
     else Ret None)
    (fun _ => Ret (Some (invalid "allowance_check_failed"))) in
  match allowanceCheck with
  | Some r => Ret r
  | None =>
  (* Check token balance *)
  let* balanceCheck := try_catch
    (let* balance := await (call (ReadContract (balance_params permit2Authorization))) in
     let* ceiling := bigint (amount (permitted permit2Authorization)) in
     if balance <? ceiling
     then Ret (Some (invalid "insufficient_balance"))
     else Ret None)
    (fun _ => Ret (Some (invalid "balance_check_failed"))) in
  match balanceCheck with
  | Some r => Ret r
  | None =>
      Ret {| isValid := true; invalidReason := None;
              payer := Some (from permit2Authorization) |}
  end end end.

(** Settle an upto payment on-chain. *)
Definition settleUpto (payload : UptoPermit2Payload)
    (requirements : UptoPaymentRequirements) : M SettleResult :=
  let permit2Authorization := permit2Authorization payload in
  let signature := signature payload in
  (* Determine settlement amount: use metered amount, or fall back to max *)
  let settlementAmount :=
    default (amount (permitted permit2Authorization)) (settlementAmount payload) in
  (* Validate settlement amount doesn't exceed authorization *)
  let* settle := bigint settlementAmount in
  let* ceiling := bigint (amount (permitted permit2Authorization)) in
  if ceiling <? settle
  then Ret {| success := false; txHash := None; settledAmount := None;
               error := Some "settlement_exceeds_authorization" |}
  else
  (* Skip settlement if amount is zero *)
  let* settle := bigint settlementAmount in
  if settle =? 0
  then Ret {| success := true; txHash := None; settledAmount := Some "0";
               error := None |}
  else
  (* Re-verify before settlement *)
  let* verification := verifyUpto payload requirements in
  if negb (isValid verification)
  then Ret {| success := false; txHash := None; settledAmount := None;
               error := invalidReason verification |}
  else
  try_catch
    (let* w_amount := bigint (amount (permitted permit2Authorization)) in
     let* w_nonce := bigint (nonce permit2Authorization) in
     let* w_deadline := bigint (deadline permit2Authorization) in
     let* w_settle := bigint settlementAmount in
     let* w_validAfter := bigint (validAfter (witness permit2Authorization)) in
     let* hash := await (call (WriteContract
       {| wc_address := X402_UPTO_PERMIT2_PROXY_ADDRESS;
          wc_functionName := "settle";
          wc_permit_token := token (permitted permit2Authorization);
          wc_permit_amount := w_amount;
          wc_permit_nonce := w_nonce;
          wc_permit_deadline := w_deadline;
          wc_amount := w_settle;
          wc_owner := from permit2Authorization;
          wc_witness_to := to (witness permit2Authorization);
          wc_witness_validAfter := w_validAfter;
          wc_witness_extra := extra (witness permit2Authorization);
          wc_signature := signature |})) in
     let* receipt := await (call (WaitForTransactionReceipt hash)) in
     match status receipt with
     | StatusReverted =>
         Ret {| success := false; txHash := Some hash; settledAmount := None;
                 error := Some "transaction_reverted" |}
     | StatusSuccess =>
         Ret {| success := true; txHash := Some (transactionHash receipt);
                 settledAmount := Some settlementAmount; error := None |}
     end)
    (fun err =>
       Ret {| success := false; txHash := None; settledAmount := None;
               error := Some (message_or "settlement_failed" err) |}).

End Facilitator.


(** ** client/permit2.ts *)

Module Client.
Import Js Prog Constants Types.

Record SignTypedDataParams : Type := {
  st_domain : Domain;
  st_message : Message
}.

(** What the builder asks of its environment.  [MathRandomBelow n] is
    [Math.floor(Math.random() * n)], an integer from 0 up to [n - 1]. *)
Inductive client_call : Type :=
| ClientDateNow
| MathRandomBelow (n : Z)
| SignTypedData (params : SignTypedDataParams).

Definition client_answer (c : client_call) : Type :=
  match c with
  | ClientDateNow => Z
  | MathRandomBelow _ => Z
  | SignTypedData _ => Settled string
  end.

Abbreviation M := (prog client_call client_answer).

(** Parse CAIP-2 network id to chain id number. *)
Definition parseChainId (network : string) : M number :=
  let parts := split ":" network in
  if negb (length parts =? 2)%nat
     || negb (String.eqb (nth 0 parts "") "eip155")
  then Throw (JsError ("Unsupported network format: " ++ network
                       ++ ". Expected eip155:<chainId>"))
  else Ret (parseInt (nth 1 parts "") 10).

(** Creates a signed Permit2 payload authorizing up to [maxAmount].
    [address] is [signer.address]; [maxTimeoutSeconds] is a whole number
    of seconds, so that [deadline] is an integer.  The sums are those of
    the code, and [toString] prints what [Number.prototype.toString]
    prints, as long as the clock, the timeout and the deadline are safe
    integers (below 2^53): the theorems about the payload that is built
    carry that bound. *)
Definition createUptoPermit2Payload (address : string)
    (requirements : UptoPaymentRequirements) : M UptoPermit2Payload :=
  let* chain := parseChainId (network requirements) in
  let* ms1 := call ClientDateNow in
  let deadline := ms1 / 1000 + maxTimeoutSeconds requirements in
  let* ms2 := call ClientDateNow in
  let validAfter := ms2 / 1000 - 60 in   (* 1 min buffer *)
  let* random := call (MathRandomBelow (2 ^ 48)) in
  let nonce := toString random in
  let domain := {| domain_name := "Permit2"; chainId := chain;
                   verifyingContract := PERMIT2_ADDRESS |} in
  let* m_nonce := bigint nonce in
  let message :=
    {| msg_token := asset requirements;
       msg_amount := AmountString (maxAmount requirements);
       msg_spender := X402_UPTO_PERMIT2_PROXY_ADDRESS;
       msg_nonce := m_nonce;
       msg_deadline := deadline;
       msg_to := payTo requirements;
       msg_validAfter := validAfter;
       msg_extra := "0x" |} in
  let* signature := await (call (SignTypedData
    {| st_domain := domain; st_message := message |})) in
  Ret {| signature := signature;
         permit2Authorization :=
           {| from := address;
              permitted := {| token := asset requirements;
                              amount := maxAmount requirements |};
              spender := X402_UPTO_PERMIT2_PROXY_ADDRESS;
              nonce := nonce;
              deadline := toString deadline;
              witness := {| to := payTo requirements;
                            validAfter := toString validAfter;
                            extra := "0x" |} |};
         settlementAmount := None |}.

End Client.

(** ** server/scheme.ts *)

Module Server.
Import Js Prog Constants Types.

(** [price.replace(/[$,]/g, "")] *)
Fixpoint strip_price (price : string) : string :=
  match price with
  | String c s =>
      if Ascii.eqb c "$" || Ascii.eqb c "," then strip_price s
      else String c (strip_price s)
  | EmptyString => EmptyString
  end.

Record UptoRouteConfig : Type := {
  maxPrice : string;
  network : string;
  payTo : string;
  asset : option string;           (* Defaults to USDC for network *)
  maxTimeoutSeconds : option Z
}.

Section Pricing.
(** The double-precision part of [parseUsdcAmount]: for a cleaned price
    string [s], [Math.round(parseFloat(s) * 10 ** USDC_DECIMALS)] printed
    by [toString], and [None] when [parseFloat(s)] is NaN or negative. *)
Variable usdc_units : string -> option string.

(** Parse a dollar amount string (e.g. "$1.00") to token units. *)
Definition parseUsdcAmount (price : string) : outcome string :=
  match usdc_units (strip_price price) with
  | Some units => Returned units
  | None => Threw (JsError ("Invalid price: " ++ price))
  end.

(** Build payment requirements from route config. *)
Definition buildRequirements (config : UptoRouteConfig)
  : outcome UptoPaymentRequirements :=
  match (match asset config with
         | Some a => Some a
         | None => USDC_ADDRESSES !! network config
         end) with
  | None =>
      Threw (JsError ("No default token for network " ++ network config
                      ++ ". Provide asset explicitly."))
  | Some a =>
      if negb (truthy (Some a))
      then Threw (JsError ("No default token for network " ++ network config
                           ++ ". Provide asset explicitly."))
      else
        match parseUsdcAmount (maxPrice config) with
        | Threw e => Threw e
        | Returned units =>
            Returned {| Types.scheme := "upto";
                        Types.network := network config;
                        Types.asset := a;
                        Types.maxAmount := units;
                        Types.payTo := payTo config;
                        Types.maxTimeoutSeconds :=
                          default 300 (maxTimeoutSeconds config) |}
        end
  end.
End Pricing.

End Server.

(** ** The Hono middleware (uptoPaymentMiddleware) *)

Module Middleware.
Import Js Prog Constants Types.

Record UptoRouteDefinition : Type := {
  maxPrice : string;
  network : string;
  payTo : string;
  asset : option string;
  maxTimeoutSeconds : option Z;
  description : option string;
  mimeType : option string
}.

(** The request as the middleware reads it: method, path of the URL and
    header lookup. *)
Record Request : Type := {
  method : string;
  pathname : string;
  header : string -> option string
}.

(** JSON replies of the facilitator, as the middleware casts them. *)
Record Verification : Type := {
  v_isValid : bool;
  v_invalidReason : option string;
  v_payer : option string
}.

Record Settlement : Type := {
  s_success : bool;
  s_txHash : option string;
  s_settledAmount : option string;
  s_error : option string
}.

Record FacilitatorBody : Type := {
  fb_payload : UptoPermit2Payload;
  fb_requirements : UptoPaymentRequirements
}.

Record MeterContext : Type := {
  authorizedAmount : string;
  meter_payer : option string
}.

Record PaymentResponse : Type := {
  pr_success : bool;
  pr_txHash : option string;
  pr_settledAmount : option string;
  pr_authorizedAmount : string
}.

Inductive HeaderValue : Type :=
| Plain (value : string)
| Base64Json (value : PaymentResponse).   (* btoa(JSON.stringify(value)) *)

(** What the middleware asks of its environment: the downstream handler,
    [fetch] to the facilitator and the reading of its JSON reply, the
    route's [meter], the response headers and the console. *)
Inductive mw_call : Type :=
| Next
| Fetch (url : string) (body : FacilitatorBody)
| JsonAsVerification (response : nat)
| JsonAsSettlement (response : nat)
| Meter (routeKey : string) (ctx : MeterContext)
| SetHeader (name : string) (value : HeaderValue)
| ConsoleError (message : string).

Definition mw_answer (c : mw_call) : Type :=
  match c with
  | Next => Settled unit
  | Fetch _ _ => Settled nat
  | JsonAsVerification _ => Settled Verification
  | JsonAsSettlement _ => Settled Settlement
  | Meter _ _ => Settled string
  | SetHeader _ _ => unit
  | ConsoleError _ => unit
  end.

Abbreviation M := (prog mw_call mw_answer).

(** The body of a JSON reply of the middleware; absent keys are [None]. *)
Record JsonBody : Type := {
  error : string;
  reason : option string;
  accepts : option (list UptoPaymentRequirements);
  body_description : option string;
  body_mimeType : option string
}.

(** What the middleware returns: the downstream result for an unknown
    route, a JSON reply with its status, or nothing once the handler has
    run. *)
Inductive Reply : Type :=
| PassedThrough
| Json (body : JsonBody) (status : Z)
| Handled.

(** [c.header(name, value)] and [console.error(message)] *)
Definition setHeader (name : string) (value : HeaderValue) : M unit :=
  call (SetHeader name value).

Definition consoleError (message : string) : M unit :=
  call (ConsoleError message).

(** [...(x && { key: x })]: the key is present when [x] is truthy. *)
Definition spread_if_truthy (x : option string) : option string :=
  if truthy x then x else None.

(** The requirements that the middleware builds for a route, [maxAmount]
    being [parseUsdcAmount(routeConfig.maxPrice)]. *)
Definition requirementsFor (routeConfig : UptoRouteDefinition) (maxAmount : string)
  : UptoPaymentRequirements :=
  {| Types.scheme := "upto";
     Types.network := network routeConfig;
     Types.asset := default "0x036CbD53842c5426634e7929541eC2318f3dCF7e"
                            (asset routeConfig);
     Types.maxAmount := maxAmount;
     Types.payTo := payTo routeConfig;
     Types.maxTimeoutSeconds := default 300 (maxTimeoutSeconds routeConfig) |}.

(** [c.req.header("X-Payment") ?? c.req.header("Payment-Signature")] *)
Definition paymentHeaderOf (req : Request) : option string :=
  match header req "X-Payment" with
  | Some h => Some h
  | None => header req "Payment-Signature"
  end.

Section Codec.
(** [parseUsdcAmount] of the server scheme, and the decoding of the
    payment header ([atob] then [JSON.parse]; [None] when either
    throws). *)
Variable parseUsdcAmount : string -> outcome string.
Variable decode : string -> option UptoPermit2Payload.

Definition price (s : string) : M string :=
  match parseUsdcAmount s with
  | Returned units => Ret units
  | Threw e => Throw e
  end.

Definition uptoPaymentMiddleware (routes : gmap string UptoRouteDefinition)
    (facilitatorUrl : string) (req : Request) : M Reply :=
  (* Match route *)
  let routeKey := method req ++ " " ++ pathname req in
  match routes !! routeKey with
  | None => let* _ := await (call Next) in Ret PassedThrough
  | Some routeConfig =>
  (* Build payment requirements *)
  let* units := price (maxPrice routeConfig) in
  let requirements := requirementsFor routeConfig units in
  (* Check for payment header *)
  let paymentHeader := paymentHeaderOf req in
  if negb (truthy paymentHeader)
  then
    (* Return 402 with requirements *)
    Ret (Json {| error := "Payment Required";
                 reason := None;
                 accepts := Some [requirements];
                 body_description := spread_if_truthy (description routeConfig);
                 body_mimeType := spread_if_truthy (mimeType routeConfig) |}
              402)
  else
  (* Decode payment payload *)
  match decode (default "" paymentHeader) with
  | None =>
      Ret (Json {| error := "Invalid payment payload"; reason := None;
                   accepts := None; body_description := None;
                   body_mimeType := None |} 400)
  | Some payload =>
  (* Verify with facilitator *)
  let* fetched := try_catch
    (let* verifyResponse := await (call (Fetch (facilitatorUrl ++ "/verify")
       {| fb_payload := payload; fb_requirements := requirements |})) in
     Ret (inl verifyResponse))
    (fun _ =>
       Ret (inr (Json {| error := "Facilitator unavailable"; reason := None;
                         accepts := None; body_description := None;
                         body_mimeType := None |} 503))) in
  match fetched with
  | inr reply => Ret reply
  | inl verifyResponse =>
  let* verification := await (call (JsonAsVerification verifyResponse)) in
  if negb (v_isValid verification)
  then
    let status :=
      match v_invalidReason verification with
      | Some r => if String.eqb r "permit2_allowance_required" then 412 else 402
      | None => 402
      end in
    Ret (Json {| error := "Payment verification failed";
                 reason := v_invalidReason verification;
                 accepts := Some [requirements];
                 body_description := None;
                 body_mimeType := None |}
              status)
  else
  (* Execute the route handler *)
  let* _ := await (call Next) in
  (* Meter the actual usage *)
  let* consumedAmount := await (call (Meter routeKey
    {| authorizedAmount := amount (permitted (permit2Authorization payload));
       meter_payer := v_payer verification |})) in
  (* Set settlement amount on payload *)
  let payload :=
    {| signature := signature payload;
       permit2Authorization := permit2Authorization payload;
       settlementAmount := Some consumedAmount |} in
  (* Settle with facilitator *)
  let* _ := try_catch
    (let* settleResponse := await (call (Fetch (facilitatorUrl ++ "/settle")
       {| fb_payload := payload; fb_requirements := requirements |})) in
     let* settlement := await (call (JsonAsSettlement settleResponse)) in
     if s_success settlement
     then
       (* Add settlement info to response headers *)
       let* _ := setHeader "X-Payment-Response" (Base64Json
         {| pr_success := true;
            pr_txHash := s_txHash settlement;
            pr_settledAmount := s_settledAmount settlement;
            pr_authorizedAmount :=
              amount (permitted (permit2Authorization payload)) |}) in
       let* _ := setHeader "X-Payment-Settled"
         (Plain (default consumedAmount (s_settledAmount settlement))) in
       setHeader "X-Payment-TxHash"
         (Plain (default "" (s_txHash settlement)))
     else Ret tt)
    (fun _ =>
       (* Settlement failure shouldn't block the response; the dash of the
          message is U+2014 in the source, outside the 8-bit code units *)
       consoleError
         "Settlement failed - response already delivered to client") in
  Ret Handled
  end end end.
End Codec.

End Middleware.

(** ** The audit database (db/init.ts and the audit log) *)

Module Audit.
Import Js.

Inductive Status : Type := verified | settled | failed.

(** A row of the [payments] table. *)
Record Row : Type := {
  id : Z;
  payer : string;                    (* TEXT NOT NULL *)
  recipient : string;                (* TEXT NOT NULL *)
  token : string;                    (* TEXT NOT NULL *)
  authorized_amount : string;        (* TEXT NOT NULL *)
  settled_amount : option string;    (* TEXT *)
  nonce : string;                    (* TEXT NOT NULL UNIQUE *)
  tx_hash : option string;           (* TEXT *)
  status : Status;                   (* TEXT NOT NULL DEFAULT 'verified' *)
  network : string;                  (* TEXT NOT NULL *)
  created_at : string;               (* TEXT NOT NULL DEFAULT (datetime('now')) *)
  settled_at : option string         (* TEXT *)
}.

(** The table in insertion order and the AUTOINCREMENT counter. *)
Record Db : Type := {
  payments : list Row;
  sequence : Z
}.

(** A fresh database file after [initDb]. *)
Definition initDb : Db := {| payments := []; sequence := 0 |}.

Record PaymentRecord : Type := {
  r_payer : string;
  r_recipient : string;
  r_token : string;
  r_authorized_amount : string;
  r_settled_amount : option string;
  r_nonce : string;
  r_tx_hash : option string;
  r_status : Status;
  r_network : string
}.

Definition has_nonce (n : string) (rows : list Row) : bool :=
  existsb (fun row => String.eqb (nonce row) n) rows.

(** INSERT OR IGNORE INTO payments (...) VALUES (?, ?, ?, ?, ?, 'verified', ?):
    the row is dropped when it would break UNIQUE(nonce).  The rowid is
    drawn before the constraint is checked, so that the AUTOINCREMENT
    counter advances with every call, the ignored ones included.  [stamp]
    is datetime('now') at the time of the call. *)
Definition recordVerification (db : Db) (record : PaymentRecord) (stamp : string) : Db :=
  {| payments :=
       if has_nonce (r_nonce record) (payments db) then payments db
       else
         payments db ++
         [{| id := sequence db + 1;
             payer := r_payer record;
             recipient := r_recipient record;
             token := r_token record;
             authorized_amount := r_authorized_amount record;
             settled_amount := None;
             nonce := r_nonce record;
             tx_hash := None;
             status := verified;
             network := r_network record;
             created_at := stamp;
             settled_at := None |}];
     sequence := sequence db + 1 |}.

Definition update_where_nonce (n : string) (f : Row -> Row) (db : Db) : Db :=
  {| payments := map (fun row => if String.eqb (nonce row) n then f row else row)
                     (payments db);
     sequence := sequence db |}.

(** UPDATE payments SET settled_amount = ?, tx_hash = ?, status = 'settled',
    settled_at = datetime('now') WHERE nonce = ? *)
Definition recordSettlement (db : Db) (n settledAmount txHash stamp : string) : Db :=
  update_where_nonce n
    (fun row =>
       {| id := id row; payer := payer row; recipient := recipient row;
          token := token row; authorized_amount := authorized_amount row;
          settled_amount := Some settledAmount; nonce := nonce row;
          tx_hash := Some txHash; status := settled; network := network row;
          created_at := created_at row; settled_at := Some stamp |}) db.

(** UPDATE payments SET status = 'failed', settled_amount = ? WHERE nonce = ? *)
Definition recordFailure (db : Db) (n error : string) : Db :=
  update_where_nonce n
    (fun row =>
       {| id := id row; payer := payer row; recipient := recipient row;
          token := token row; authorized_amount := authorized_amount row;
          settled_amount := Some error; nonce := nonce row;
          tx_hash := tx_hash row; status := failed; network := network row;
          created_at := created_at row; settled_at := settled_at row |}) db.

(** The nonces of the table, one per row. *)
Definition nonces (db : Db) : list string := map nonce (payments db).

(** The rows that carry a given nonce. *)
Definition rows_with (n : string) (db : Db) : list Row :=
  filter (fun row => nonce row = n) (payments db).

(** The UNIQUE(nonce) constraint, as a property of a table. *)
Definition unique_nonces (db : Db) : Prop :=
  forall n, (length (rows_with n db) <= 1)%nat.

(** A sequence of [recordVerification] calls, each with its record and
    the time of the call. *)
Definition recordVerifications (db : Db) (calls : list (PaymentRecord * string)) : Db :=
  fold_left (fun d call => recordVerification d (fst call) (snd call)) calls db.

End Audit.


(** ** Fixtures of the repository's tests (permit2.test.ts) *)

Module Fixtures.
Import Js Prog Constants Types.

Definition requirements : UptoPaymentRequirements :=
  {| scheme := "upto";
     network := "eip155:84532";
     asset := "0x036CbD53842c5426634e7929541eC2318f3dCF7e";
     maxAmount := "1000000";
     payTo := "0x70997970C51812dc3A010C7d01b50e0d17dc79C8";
     maxTimeoutSeconds := 300 |}.

(** [makePayload] at a clock reading of [now] seconds, with the given
    deadline, validAfter, ceiling and settlement amount. *)
Definition payloadWith (deadline validAfter amount : string)
    (settlementAmount : option string) : UptoPermit2Payload :=
  {| signature := "0xvalidsignature";
     permit2Authorization :=
       {| from := "0xf39Fd6e51aad88F6F4ce6aB8827279cffFb92266";
          permitted := {| token := "0x036CbD53842c5426634e7929541eC2318f3dCF7e";
                          amount := amount |};
          spender := X402_UPTO_PERMIT2_PROXY_ADDRESS;
          nonce := "12345";
          deadline := deadline;
          witness := {| to := "0x70997970C51812dc3A010C7d01b50e0d17dc79C8";
                        validAfter := validAfter;
                        extra := "0x" |} |};
     settlementAmount := settlementAmount |}.

Definition makePayload (now : Z) (settlementAmount : option string)
  : UptoPermit2Payload :=
  payloadWith (toString (now + 600)) (toString (now - 60)) "1000000"
              settlementAmount.

(** [makeSigner]: a stateless signer that reports every signature valid,
    answers every chain read with [read] and mines every transaction;
    the clock stands at [ms] milliseconds. *)
Definition makeSigner (ms read : Z) : world signer_call signer_answer unit :=
  fun c w =>
    match c return signer_answer c * unit with
    | DateNow => (ms, w)
    | VerifyTypedData _ => (Fulfilled true, w)
    | ReadContract _ => (Fulfilled read, w)
    | WriteContract _ => (Fulfilled "0xtxhash", w)
    | WaitForTransactionReceipt _ =>
        (Fulfilled {| status := StatusSuccess; transactionHash := "0xtxhash" |}, w)
    end.

(** A signer whose every call rejects with [new Error(message)]. *)
Definition rejectingSigner (ms : Z) (message : string)
  : world signer_call signer_answer unit :=
  fun c w =>
    match c return signer_answer c * unit with
    | DateNow => (ms, w)
    | VerifyTypedData _ => (Rejected (JsError message), w)
    | ReadContract _ => (Rejected (JsError message), w)
    | WriteContract _ => (Rejected (JsError message), w)
    | WaitForTransactionReceipt _ => (Rejected (JsError message), w)
    end.

(** A signer in the style of the tests' mocks: [verifyTypedData] resolves
    to [valid]; [readContract] resolves to the values of [once], one per
    call, and to 10000000000 after them.  The state is the list of values
    still to come. *)
Definition mockSigner (ms : Z) (valid : bool) (receipt : ReceiptStatus)
  : world signer_call signer_answer (list Z) :=
  fun c once =>
    match c return signer_answer c * list Z with
    | DateNow => (ms, once)
    | VerifyTypedData _ => (Fulfilled valid, once)
    | ReadContract _ =>
        match once with
        | value :: rest => (Fulfilled value, rest)
        | [] => (Fulfilled 10000000000, [])
        end
    | WriteContract _ => (Fulfilled "0xtxhash", once)
    | WaitForTransactionReceipt _ =>
        (Fulfilled {| status := receipt; transactionHash := "0xtxhash" |}, once)
    end.

(** The clock of the examples, in seconds and in milliseconds. *)
Definition testNow : Z := 1700000000.
Definition testClock : Z := 1700000000123.

(** [verifyUpto] and [settleUpto] against the mock signer. *)
Definition verify (valid : bool) (once : list Z) (payload : UptoPermit2Payload) :=
  result_of (run (mockSigner testClock valid StatusSuccess)
                 (Facilitator.verifyUpto payload requirements) once).
Definition settle (receipt : ReceiptStatus) (payload : UptoPermit2Payload) :=
  run (mockSigner testClock true receipt) (Facilitator.settleUpto payload requirements) [].

(** [makePayload] with another spender, and with another recipient. *)
Definition withSpender (spender : string) : UptoPermit2Payload :=
  let p := makePayload testNow None in
  let a := permit2Authorization p in
  {| signature := signature p;
     permit2Authorization :=
       {| from := from a; permitted := permitted a; spender := spender;
          nonce := nonce a; deadline := deadline a; witness := witness a |};
     settlementAmount := None |}.

Definition withRecipient (recipient : string) : UptoPermit2Payload :=
  let p := makePayload testNow None in
  let a := permit2Authorization p in
  {| signature := signature p;
     permit2Authorization :=
       {| from := from a; permitted := permitted a; spender := spender a;
          nonce := nonce a; deadline := deadline a;
          witness := {| to := recipient; validAfter := validAfter (witness a);
                        extra := extra (witness a) |} |};
     settlementAmount := None |}.

(** The requirements of the tests with another ceiling and timeout. *)
Definition requirementsWith (maxAmount : string) (maxTimeoutSeconds : Z)
  : UptoPaymentRequirements :=
  {| scheme := "upto";
     network := "eip155:84532";
     asset := "0x036CbD53842c5426634e7929541eC2318f3dCF7e";
     maxAmount := maxAmount;
     payTo := "0x70997970C51812dc3A010C7d01b50e0d17dc79C8";
     maxTimeoutSeconds := maxTimeoutSeconds |}.

(** What [clientSigner 1700000000123 12345] builds for those requirements,
    given the ceiling and the deadline. *)
Definition built (amount deadline : string) : UptoPermit2Payload :=
  {| signature := "0xsigned";
     permit2Authorization :=
       {| from := "0xf39Fd6e51aad88F6F4ce6aB8827279cffFb92266";
          permitted := {| token := "0x036CbD53842c5426634e7929541eC2318f3dCF7e";
                          amount := amount |};
          spender := X402_UPTO_PERMIT2_PROXY_ADDRESS;
          nonce := "12345";
          deadline := deadline;
          witness := {| to := "0x70997970C51812dc3A010C7d01b50e0d17dc79C8";
                        validAfter := "1699999940";
                        extra := "0x" |} |};
     settlementAmount := None |}.

(** A wallet for the builder: the clock stands at [ms] milliseconds, the
    random draw is [random] and every signing request is fulfilled. *)
Definition clientSigner (ms random : Z)
  : world Client.client_call Client.client_answer unit :=
  fun c w =>
    match c return Client.client_answer c * unit with
    | Client.ClientDateNow => (ms, w)
    | Client.MathRandomBelow _ => (random, w)
    | Client.SignTypedData _ => (Fulfilled "0xsigned", w)
    end.

(** A gated route of the middleware and a request for it. *)
Definition route (network : string) : Middleware.UptoRouteDefinition :=
  {| Middleware.maxPrice := "$1.00";
     Middleware.network := network;
     Middleware.payTo := "0x70997970C51812dc3A010C7d01b50e0d17dc79C8";
     Middleware.asset := None;
     Middleware.maxTimeoutSeconds := Some 300;
     Middleware.description := None;
     Middleware.mimeType := None |}.

Definition routes (network : string) : gmap string Middleware.UptoRouteDefinition :=
  {[ "POST /v1/chat/completions" := route network ]}.

Definition request (paymentHeader : option string) : Middleware.Request :=
  {| Middleware.method := "POST";
     Middleware.pathname := "/v1/chat/completions";
     Middleware.header := fun name =>
       if String.eqb name "X-Payment" then paymentHeader else None |}.

(** The price arithmetic on the one price of the fixtures. *)
Definition usdc_units (cleaned : string) : option string :=
  if String.eqb cleaned "1.00" then Some "1000000" else None.

(** A header codec that decodes every header to the payload of the tests. *)
Definition decode (header : string) : option UptoPermit2Payload :=
  Some (makePayload 1700000000 None).

(** A facilitator that answers verification with [reason], and a handler
    and meter that succeed. *)
Definition facilitatorRejecting (reason : option string)
  : world Middleware.mw_call Middleware.mw_answer unit :=
  fun c w =>
    match c return Middleware.mw_answer c * unit with
    | Middleware.Next => (Fulfilled tt, w)
    | Middleware.Fetch _ _ => (Fulfilled 0%nat, w)
    | Middleware.JsonAsVerification _ =>
        (Fulfilled {| Middleware.v_isValid := false;
                      Middleware.v_invalidReason := reason;
                      Middleware.v_payer := None |}, w)
    | Middleware.JsonAsSettlement _ =>
        (Fulfilled {| Middleware.s_success := false;
                      Middleware.s_txHash := None;
                      Middleware.s_settledAmount := None;
                      Middleware.s_error := None |}, w)
    | Middleware.Meter _ _ => (Fulfilled "0", w)
    | Middleware.SetHeader _ _ => (tt, w)
    | Middleware.ConsoleError _ => (tt, w)
    end.

(** The audit record of the tests' payload. *)
Definition verified : Audit.PaymentRecord :=
  {| Audit.r_payer := "0xf39Fd6e51aad88F6F4ce6aB8827279cffFb92266";
     Audit.r_recipient := "0x70997970C51812dc3A010C7d01b50e0d17dc79C8";
     Audit.r_token := "0x036CbD53842c5426634e7929541eC2318f3dCF7e";
     Audit.r_authorized_amount := "1000000";
     Audit.r_settled_amount := None;
     Audit.r_nonce := "12345";
     Audit.r_tx_hash := None;
     Audit.r_status := Audit.verified;
     Audit.r_network := "eip155:84532" |}.

End Fixtures.

(** ** Notions of the specification *)

Module Spec.
Import Js Prog Constants Types Facilitator.

(** The amount that a settlement asks for: the metered amount, or the
    ceiling when the payload carries none. *)
Definition effective_amount (payload : UptoPermit2Payload) : string :=
  default (amount (permitted (permit2Authorization payload)))
          (settlementAmount payload).

Definition ceiling_of (payload : UptoPermit2Payload) : string :=
  amount (permitted (permit2Authorization payload)).

(** A nonempty string of decimal digits. *)
Definition decimal_string (s : string) : bool :=
  negb (String.eqb s "")
  && forallb (fun c => (48 <=? Z.of_N (N_of_ascii c)) && (Z.of_N (N_of_ascii c) <=? 57))
             (list_ascii_of_string s).

Definition exceeds_authorization : SettleResult :=
  {| success := false; txHash := None; settledAmount := None;
     error := Some "settlement_exceeds_authorization" |}.

Definition nothing_to_settle : SettleResult :=
  {| success := true; txHash := None; settledAmount := Some "0"; error := None |}.

(** Address comparisons are case-insensitive. *)
Definition same_address (a b : string) : bool :=
  String.eqb (toLowerCase a) (toLowerCase b).

(** A check passes ([None]) or fails with its tag. *)
Definition check (passes : bool) (tag : string) : option string :=
  if passes then None else Some tag.

(** What the verifier learns about a payload: the clock in seconds, the
    integers that its numeric strings stand for, and the answers of the
    signer. *)
Record Readings : Type := {
  now : Z;
  deadline_value : Z;
  validAfter_value : Z;
  authorized : Z;
  required : Z;
  signature_answer : Settled bool;
  allowance_answer : Settled Z;
  balance_answer : Settled Z
}.

(** Check 6: the signature recovers to [from]; a signer error fails it
    with a tag of its own. *)
Definition signature_check (answer : Settled bool) : option string :=
  match answer with
  | Fulfilled valid => check valid "invalid_permit2_signature"
  | Rejected _ => Some "signature_verification_failed"
  end.

(** Checks 7 and 8: the chain reports at least the ceiling; an RPC error
    fails the check with a tag of its own. *)
Definition chain_check (answer : Settled Z) (ceiling : Z)
    (too_low rpc_error : string) : option string :=
  match answer with
  | Fulfilled value => check (ceiling <=? value) too_low
  | Rejected _ => Some rpc_error
  end.

(** The five local checks of the verifier, in their fixed order. *)
Definition local_checks (auth : Permit2Authorization)
    (requirements : UptoPaymentRequirements) (r : Readings)
  : list (option string) :=
  [ check (same_address (spender auth) X402_UPTO_PERMIT2_PROXY_ADDRESS)
          "invalid_spender";
    check (same_address (to (witness auth)) (payTo requirements))
          "invalid_recipient";
    check (now r <? deadline_value r) "permit2_deadline_expired";
    check (validAfter_value r <=? now r) "permit2_not_yet_valid";
    check (required r <=? authorized r) "insufficient_authorized_amount" ].

(** The eight checks: the local ones, then the signature, the Permit2
    allowance and the token balance. *)
Definition ordered_checks (auth : Permit2Authorization)
    (requirements : UptoPaymentRequirements) (r : Readings)
  : list (option string) :=
  (local_checks auth requirements r ++
  [ signature_check (signature_answer r);
    chain_check (allowance_answer r) (authorized r)
                "permit2_allowance_required" "allowance_check_failed";
    chain_check (balance_answer r) (authorized r)
                "insufficient_balance" "balance_check_failed" ])%list.

(** First failure wins. *)
Fixpoint first_failure (checks : list (option string)) : option string :=
  match checks with
  | [] => None
  | Some tag :: _ => Some tag
  | None :: rest => first_failure rest
  end.

Definition verdict (auth : Permit2Authorization)
    (requirements : UptoPaymentRequirements) (r : Readings) : VerifyResult :=
  match first_failure (ordered_checks auth requirements r) with
  | Some tag => invalid tag
  | None => {| isValid := true; invalidReason := None; payer := Some (from auth) |}
  end.

Definition is_chain_read (c : signer_call) : bool :=
  match c with
  | ReadContract _ => true
  | _ => false
  end.

(** The call by which the verifier asks for the signature check, once
    the numeric strings of the payload are read. *)
Definition signature_call (payload : UptoPermit2Payload)
    (requirements : UptoPaymentRequirements)
    (m_amount m_nonce m_deadline m_validAfter : Z) : signer_call :=
  VerifyTypedData
    {| vt_address := from (permit2Authorization payload);
       vt_domain := PERMIT2_DOMAIN (parseChainId (network requirements));
       vt_message := witness_message (permit2Authorization payload)
                       m_amount m_nonce m_deadline m_validAfter;
       vt_signature := signature payload |}.

(** The integer that the decimal digits of [d] spell after the digits read
    so far, whose value is [acc]. *)
Fixpoint uint_acc (d : Decimal.uint) (acc : Z) : Z :=
  match d with
  | Decimal.Nil => acc
  | Decimal.D0 d => uint_acc d (10 * acc)
  | Decimal.D1 d => uint_acc d (10 * acc + 1)
  | Decimal.D2 d => uint_acc d (10 * acc + 2)
  | Decimal.D3 d => uint_acc d (10 * acc + 3)
  | Decimal.D4 d => uint_acc d (10 * acc + 4)
  | Decimal.D5 d => uint_acc d (10 * acc + 5)
  | Decimal.D6 d => uint_acc d (10 * acc + 6)
  | Decimal.D7 d => uint_acc d (10 * acc + 7)
  | Decimal.D8 d => uint_acc d (10 * acc + 8)
  | Decimal.D9 d => uint_acc d (10 * acc + 9)
  end.

End Spec.

(** ** Notions used by the further properties *)

Module Shape.
Import Js Prog Constants Types Facilitator.

Definition is_chain_write (c : signer_call) : bool :=
  match c with
  | WriteContract _ => true
  | _ => false
  end.

(** How the settler answers once verification has passed, given what
    [writeContract] and [waitForTransactionReceipt] answer. *)
Definition chain_outcome (settlementAmount : string)
    (written : Settled string) (mined : Settled Receipt) : SettleResult :=
  match written with
  | Rejected e =>
      {| success := false; txHash := None; settledAmount := None;
         error := Some (message_or "settlement_failed" e) |}
  | Fulfilled hash =>
      match mined with
      | Rejected e =>
          {| success := false; txHash := None; settledAmount := None;
             error := Some (message_or "settlement_failed" e) |}
      | Fulfilled receipt =>
          match status receipt with
          | StatusReverted =>
              {| success := false; txHash := Some hash; settledAmount := None;
                 error := Some "transaction_reverted" |}
          | StatusSuccess =>
              {| success := true; txHash := Some (transactionHash receipt);
                 settledAmount := Some settlementAmount; error := None |}
          end
      end
  end.

(** The [settle] call on the upto proxy for a payload whose numeric strings
    read as the given integers. *)
Definition settle_call (payload : UptoPermit2Payload)
    (ceiling nonce deadline settle validAfter : Z) : signer_call :=
  let auth := permit2Authorization payload in
  WriteContract
    {| wc_address := X402_UPTO_PERMIT2_PROXY_ADDRESS;
       wc_functionName := "settle";
       wc_permit_token := token (permitted auth);
       wc_permit_amount := ceiling;
       wc_permit_nonce := nonce;
       wc_permit_deadline := deadline;
       wc_amount := settle;
       wc_owner := from auth;
       wc_witness_to := to (witness auth);
       wc_witness_validAfter := validAfter;
       wc_witness_extra := extra (witness auth);
       wc_signature := signature payload |}.

(** The integer that a time string counts as in its check: what
    [parseInt] reads, and for NaN a value with which the check passes,
    since every comparison with NaN is false. *)
Definition deadline_as (now : Z) (read : number) : Z :=
  match read with
  | Num z => z
  | NaN => now + 1
  end.

Definition validAfter_as (now : Z) (read : number) : Z :=
  match read with
  | Num z => z
  | NaN => now
  end.

(** A network id that holds a colon, as every CAIP-2 id does.  No
    inherited property of a JavaScript object has such a name, so that the
    lookup of the id in [USDC_ADDRESSES] finds one of the object's own
    keys or nothing. *)
Definition has_colon (network : string) : bool :=
  existsb (Ascii.eqb ":") (list_ascii_of_string network).

(** No character of [s] is white space for [BigInt]. *)
Fixpoint no_white_space (s : string) : bool :=
  match s with
  | String c s' => negb (is_white_space c) && no_white_space s'
  | EmptyString => true
  end.

End Shape.

(** ** The course of a gated request *)

Module Course.
Import Js Prog Constants Types Middleware.

(** The calls that reach the route: its handler, its meter and the headers
    of its response. *)
Definition reaches_route (c : mw_call) : bool :=
  match c with
  | Next | Meter _ _ | SetHeader _ _ => true
  | _ => false
  end.

(** The calls that belong to settlement. *)
Definition settles (c : mw_call) : bool :=
  match c with
  | JsonAsSettlement _ | ConsoleError _ => true
  | _ => false
  end.

Definition is_fetch (c : mw_call) : bool :=
  match c with
  | Fetch _ _ => true
  | _ => false
  end.





(** The route of the middleware as a route config of the server scheme. *)
Definition scheme_config (routeConfig : UptoRouteDefinition) : Server.UptoRouteConfig :=
  {| Server.maxPrice := maxPrice routeConfig;
     Server.network := network routeConfig;
     Server.payTo := payTo routeConfig;
     Server.asset := asset routeConfig;
     Server.maxTimeoutSeconds := maxTimeoutSeconds routeConfig |}.

End Course.

(** ** The facilitator server (POST /verify and POST /settle) *)

Module FacilitatorServer.
Import Js Prog Constants Types Facilitator.

(** [req.body] as the handlers destructure it: each key holds an object of
    its type, or is absent or falsy.  The statements of the audit database
    succeed, as in [Audit]. *)
Record Body : Type := {
  body_payload : option UptoPermit2Payload;
  body_requirements : option UptoPaymentRequirements
}.

(** [res.status(code).json(body)]; [res.json(body)] answers with 200. *)
Record Response (B : Type) : Type := {
  code : Z;
  json : B
}.
Arguments code {B} _.
Arguments json {B} _.

(** What a request leaves behind: the response, the exception given to
    [console.error], the audit database, the state of the signer and the
    calls made to it. *)
Record Served (B W : Type) : Type := {
  response : Response B;
  logged : option Thrown;
  audit : Audit.Db;
  signer_state : W;
  signer_calls : list signer_call
}.
Arguments response {B W} _.
Arguments logged {B W} _.
Arguments audit {B W} _.
Arguments signer_state {B W} _.
Arguments signer_calls {B W} _.

(** The audit record of a verified payload. *)
Definition verification_record (payload : UptoPermit2Payload)
    (requirements : UptoPaymentRequirements) : Audit.PaymentRecord :=
  {| Audit.r_payer := from (permit2Authorization payload);
     Audit.r_recipient := to (witness (permit2Authorization payload));
     Audit.r_token := token (permitted (permit2Authorization payload));
     Audit.r_authorized_amount := amount (permitted (permit2Authorization payload));
     Audit.r_settled_amount := None;
     Audit.r_nonce := nonce (permit2Authorization payload);
     Audit.r_tx_hash := None;
     Audit.r_status := Audit.verified;
     Audit.r_network := network requirements |}.

Section Handlers.
(** The signer of the server, the database [db] before the request and
    the database's datetime('now') during it. *)
Context {W : Type} (facilitatorSigner : world signer_call signer_answer W).

(** Verify an upto payment authorization. *)
Definition postVerify (body : Body) (db : Audit.Db) (stamp : string) (w : W)
  : Served VerifyResult W :=
  match body_payload body, body_requirements body with
  | Some payload, Some requirements =>
      match run facilitatorSigner (verifyUpto payload requirements) w with
      | (Returned result, w1, calls) =>
          {| response := {| code := 200; json := result |};
             logged := None;
             audit :=
               if isValid result
               then Audit.recordVerification db
                      (verification_record payload requirements) stamp
               else db;
             signer_state := w1;
             signer_calls := calls |}
      | (Threw err, w1, calls) =>
          {| response := {| code := 500; json := invalid "internal_error" |};
             logged := Some err;
             audit := db;
             signer_state := w1;
             signer_calls := calls |}
      end
  | _, _ =>
      {| response := {| code := 400;
                        json := invalid "missing_payload_or_requirements" |};
         logged := None;
         audit := db;
         signer_state := w;
         signer_calls := [] |}
  end.

(** Settle a metered payment on-chain. *)
Definition postSettle (body : Body) (db : Audit.Db) (stamp : string) (w : W)
  : Served SettleResult W :=
  match body_payload body, body_requirements body with
  | Some payload, Some requirements =>
      match run facilitatorSigner (settleUpto payload requirements) w with
      | (Returned result, w1, calls) =>
          {| response := {| code := 200; json := result |};
             logged := None;
             audit :=
               if success result && truthy (txHash result)
               then Audit.recordSettlement db
                      (nonce (permit2Authorization payload))
                      (match settledAmount result with
                       | Some settled => settled
                       | None => default "0" (settlementAmount payload)
                       end)
                      (default "" (txHash result))
                      stamp
               else Audit.recordFailure db
                      (nonce (permit2Authorization payload))
                      (default "unknown" (error result));
             signer_state := w1;
             signer_calls := calls |}
      | (Threw err, w1, calls) =>
          {| response := {| code := 500;
                            json := {| success := false; txHash := None;
                                       settledAmount := None;
                                       error := Some "internal_error" |} |};
             logged := Some err;
             audit := db;
             signer_state := w1;
             signer_calls := calls |}
      end
  | _, _ =>
      {| response := {| code := 400;
                        json := {| success := false; txHash := None;
                                   settledAmount := None;
                                   error := Some "missing_payload_or_requirements" |} |};
         logged := None;
         audit := db;
         signer_state := w;
         signer_calls := [] |}
  end.
End Handlers.

End FacilitatorServer.

(** ** client/permit2.ts: the Permit2 approval transaction *)

Module Approval.
Import Js Constants.

(** [s.slice(n)] for a start [n] that is not negative. *)
Fixpoint slice (n : nat) (s : string) : string :=
  match n, s with
  | O, _ => s
  | S n', String _ s' => slice n' s'
  | S _, EmptyString => EmptyString
  end.

(** [fill.repeat(n)] for a fill of one character. *)
Fixpoint repeat_char (fill : ascii) (n : nat) : string :=
  match n with
  | O => EmptyString
  | S n' => String fill (repeat_char fill n')
  end.

(** [s.padStart(targetLength, fill)] for a fill of one character: a string
    that is long enough is returned as it is. *)
Definition padStart (targetLength : nat) (fill : ascii) (s : string) : string :=
  repeat_char fill (targetLength - String.length s) ++ s.

(** The digit of a value below 16, in lower case. *)
Definition hex_digit (d : Z) : ascii :=
  if d <? 10 then ascii_of_N (Z.to_N (48 + d)) else ascii_of_N (Z.to_N (87 + d)).

(** The hexadecimal digits of [z], most significant first, put before
    [acc]; [fuel] bounds the number of digits. *)
Fixpoint hex_digits (fuel : nat) (z : Z) (acc : string) : string :=
  match fuel with
  | O => acc
  | S fuel' =>
      let acc' := String (hex_digit (z mod 16)) acc in
      if z / 16 =? 0 then acc' else hex_digits fuel' (z / 16) acc'
  end.

(** [z.toString(16)] on a bigint. *)
Definition toString16 (z : Z) : string :=
  if z <? 0
  then String "-" (hex_digits (S (Z.to_nat (Z.log2 (- z)))) (- z) EmptyString)
  else hex_digits (S (Z.to_nat (Z.log2 z))) z EmptyString.

(** Encode ERC-20 approve(spender, amount) calldata. *)
Definition encodeApproval (spender : string) (amount : Z) : string :=
  (* approve(address,uint256) selector = 0x095ea7b3 *)
  let spenderPadded := padStart 64 "0" (toLowerCase (slice 2 spender)) in
  let amountHex := padStart 64 "0" (toString16 amount) in
  "0x095ea7b3" ++ spenderPadded ++ amountHex.

Record ApprovalTx : Type := {
  tx_to : string;
  tx_data : string
}.

(** Builds an ERC-20 approve transaction for Permit2. *)
Definition createPermit2ApprovalTx (tokenAddress : string) : ApprovalTx :=
  {| tx_to := tokenAddress;
     tx_data := encodeApproval PERMIT2_ADDRESS (2 ^ 160 - 1) |}.

End Approval.

(** ** Further sample inputs *)

Module Samples.
Import Js Prog Constants Types.

(** The [settle] call that the tests' payload triggers for 43700 units. *)
Definition settleParams : WriteContractParams :=
  {| wc_address := X402_UPTO_PERMIT2_PROXY_ADDRESS;
     wc_functionName := "settle";
     wc_permit_token := "0x036CbD53842c5426634e7929541eC2318f3dCF7e";
     wc_permit_amount := 1000000;
     wc_permit_nonce := 12345;
     wc_permit_deadline := 1700000600;
     wc_amount := 43700;
     wc_owner := "0xf39Fd6e51aad88F6F4ce6aB8827279cffFb92266";
     wc_witness_to := "0x70997970C51812dc3A010C7d01b50e0d17dc79C8";
     wc_witness_validAfter := 1699999940;
     wc_witness_extra := "0x";
     wc_signature := "0xvalidsignature" |}.

(** The tests' payload with a nonce that is no integer literal. *)
Definition badNonce : UptoPermit2Payload :=
  {| signature := "0xvalidsignature";
     permit2Authorization :=
       {| from := "0xf39Fd6e51aad88F6F4ce6aB8827279cffFb92266";
          permitted := {| token := "0x036CbD53842c5426634e7929541eC2318f3dCF7e";
                          amount := "1000000" |};
          spender := X402_UPTO_PERMIT2_PROXY_ADDRESS;
          nonce := "abc";
          deadline := "1700000600";
          witness := {| to := "0x70997970C51812dc3A010C7d01b50e0d17dc79C8";
                        validAfter := "1699999940";
                        extra := "0x" |} |};
     settlementAmount := Some "43700" |}.

(** Requirements on a network that is not an EVM chain. *)
Definition solana : UptoPaymentRequirements :=
  {| scheme := "upto";
     network := "solana:mainnet";
     asset := "0x036CbD53842c5426634e7929541eC2318f3dCF7e";
     maxAmount := "1000000";
     payTo := "0x70997970C51812dc3A010C7d01b50e0d17dc79C8";
     maxTimeoutSeconds := 300 |}.

(** A request for the gated route with both payment headers. *)
Definition requestWith (xPayment paymentSignature : option string) : Middleware.Request :=
  {| Middleware.method := "POST";
     Middleware.pathname := "/v1/chat/completions";
     Middleware.header := fun name =>
       if String.eqb name "X-Payment" then xPayment
       else if String.eqb name "Payment-Signature" then paymentSignature
       else None |}.

(** A deployment of the middleware: the facilitator answers the k-th
    request with [fetches k] and its replies read as [verification] and
    [settlement]; the handler and the meter settle as given.  The state
    counts the requests to the facilitator. *)
Definition deployment (fetches : nat -> Settled nat)
    (verification : Settled Middleware.Verification)
    (handler : Settled unit) (meter : Settled string)
    (settlement : Settled Middleware.Settlement)
  : world Middleware.mw_call Middleware.mw_answer nat :=
  fun c w =>
    match c return Middleware.mw_answer c * nat with
    | Middleware.Next => (handler, w)
    | Middleware.Fetch _ _ => (fetches w, S w)
    | Middleware.JsonAsVerification _ => (verification, w)
    | Middleware.JsonAsSettlement _ => (settlement, w)
    | Middleware.Meter _ _ => (meter, w)
    | Middleware.SetHeader _ _ => (tt, w)
    | Middleware.ConsoleError _ => (tt, w)
    end.

Definition accepted : Middleware.Verification :=
  {| Middleware.v_isValid := true;
     Middleware.v_invalidReason := None;
     Middleware.v_payer := Some "0xf39Fd6e51aad88F6F4ce6aB8827279cffFb92266" |}.

Definition settledFor (units : string) : Middleware.Settlement :=
  {| Middleware.s_success := true;
     Middleware.s_txHash := Some "0xabc123";
     Middleware.s_settledAmount := Some units;
     Middleware.s_error := None |}.

(** A facilitator that is reached and accepts, a handler that succeeds and
    a meter that reads 43700 units. *)
Definition gateway : world Middleware.mw_call Middleware.mw_answer nat :=
  deployment (fun _ => Fulfilled 0%nat) (Fulfilled accepted) (Fulfilled tt)
             (Fulfilled "43700") (Fulfilled (settledFor "43700")).

(** The same with a handler that fails. *)
Definition brokenHandler : world Middleware.mw_call Middleware.mw_answer nat :=
  deployment (fun _ => Fulfilled 0%nat) (Fulfilled accepted)
             (Rejected (JsError "handler failed"))
             (Fulfilled "43700") (Fulfilled (settledFor "43700")).

(** A facilitator that cannot be reached. *)
Definition unreachable : world Middleware.mw_call Middleware.mw_answer nat :=
  deployment (fun _ => Rejected (JsError "fetch failed")) (Fulfilled accepted)
             (Fulfilled tt) (Fulfilled "43700") (Fulfilled (settledFor "43700")).

(** The middleware of the example server. *)
Definition middleware (network : string) (req : Middleware.Request)
  : Middleware.M Middleware.Reply :=
  Middleware.uptoPaymentMiddleware (Server.parseUsdcAmount Fixtures.usdc_units)
    Fixtures.decode (Fixtures.routes network) "http://localhost:4402" req.

(** A request to the facilitator for the tests' payload, and the audit
    database after its verification. *)
Definition settleRequest (settlementAmount : option string) : FacilitatorServer.Body :=
  {| FacilitatorServer.body_payload := Some (Fixtures.makePayload 1700000000 settlementAmount);
     FacilitatorServer.body_requirements := Some Fixtures.requirements |}.

Definition ledger : Audit.Db :=
  Audit.recordVerification Audit.initDb Fixtures.verified "2024-01-01 00:00:00".

End Samples.

(** * Properties *)

(** ** Running programs *)

Section RunLemmas.
Import Js Prog.
Context {C : Type} {R : C -> Type} {W : Type}.
Implicit Types h : world C R W.

Lemma run_bind {A B} h (p : prog C R A) (f : A -> prog C R B) w :
  run h (bind p f) w =
  match run h p w with
  | (Returned a, w1, c1) =>
      let '(o, w2, c2) := run h (f a) w1 in (o, w2, (c1 ++ c2)%list)
  | (Threw e, w1, c1) => (Threw e, w1, c1)
  end.
Proof.
  revert w. induction p as [a | e | c k IH]; intros w; simpl.
  - destruct (run h (f a) w) as [[o w2] c2]. reflexivity.
  - reflexivity.
  - destruct (h c w) as [r w1]. rewrite IH.
    destruct (run h (k r) w1) as [[[a | e] w2] c1]; [|reflexivity].
    destruct (run h (f a) w2) as [[o w3] c2]. reflexivity.
Qed.

Lemma run_try_catch {A} h (p : prog C R A) (g : Thrown -> prog C R A) w :
  run h (try_catch p g) w =
  match run h p w with
  | (Returned a, w1, c1) => (Returned a, w1, c1)
  | (Threw e, w1, c1) =>
      let '(o, w2, c2) := run h (g e) w1 in (o, w2, (c1 ++ c2)%list)
  end.
Proof.
  revert w. induction p as [a | e | c k IH]; intros w; simpl.
  - reflexivity.
  - destruct (run h (g e) w) as [[o w2] c2]. reflexivity.
  - destruct (h c w) as [r w1]. rewrite IH.
    destruct (run h (k r) w1) as [[[a | e] w2] c1]; [reflexivity|].
    destruct (run h (g e) w2) as [[o w3] c2]. reflexivity.
Qed.

Lemma run_bigint {A} h (s : string) (f : Z -> prog C R A) w :
  run h (bind (bigint s) f) w =
  match BigInt s with
  | Some z => run h (f z) w
  | None => (Threw (SyntaxError s), w, [])
  end.
Proof. unfold bigint. destruct (BigInt s); reflexivity. Qed.

End RunLemmas.

(** ** The embedding on the repository's tests *)

Section RepositoryTests.
Import Js Prog Constants Types Facilitator Fixtures.

(** How the primitives read strings. *)
Example parseInt_reads :
  parseInt "1700000600" 0 = Num 1700000600
  /\ parseInt "  -12abc" 0 = Num (-12)
  /\ parseInt "0x1F" 0 = Num 31
  /\ parseInt "1e+21" 0 = Num 1
  /\ parseInt "" 0 = NaN
  /\ parseInt "abc" 0 = NaN
  /\ parseInt "84532" 10 = Num 84532.
Proof. repeat split. Qed.

Example BigInt_reads :
  BigInt "1000000" = Some 1000000
  /\ BigInt "" = Some 0
  /\ BigInt " 0x10 " = Some 16
  /\ BigInt "-5" = Some (-5)
  /\ BigInt "12abc" = None
  /\ BigInt "1.5" = None
  /\ BigInt "abc" = None.
Proof. repeat split. Qed.

Example split_network :
  split ":" "eip155:84532" = ["eip155"; "84532"]
  /\ split ":" "base" = ["base"]
  /\ parseChainId "eip155:84532" = Num 84532
  /\ parseChainId "base" = NaN.
Proof. repeat split. Qed.

(** describe("verifyUpto") *)
Example verifyUpto_tests :
  verify true [] (makePayload testNow None)
  = Returned {| isValid := true; invalidReason := None;
                payer := Some "0xf39Fd6e51aad88F6F4ce6aB8827279cffFb92266" |}
  /\ verify true [] (withSpender "0x0000000000000000000000000000000000000001")
     = Returned (invalid "invalid_spender")
  /\ verify true [] (withRecipient "0x0000000000000000000000000000000000000001")
     = Returned (invalid "invalid_recipient")
  /\ verify true [] (payloadWith "1000" (toString (testNow - 60)) "1000000" None)
     = Returned (invalid "permit2_deadline_expired")
  /\ verify true [] (payloadWith (toString (testNow + 600)) (toString (testNow + 9999))
                                 "1000000" None)
     = Returned (invalid "permit2_not_yet_valid")
  /\ verify true [] (payloadWith (toString (testNow + 600)) (toString (testNow - 60)) "100" None)
     = Returned (invalid "insufficient_authorized_amount")
  /\ verify false [] (makePayload testNow None)
     = Returned (invalid "invalid_permit2_signature")
  /\ verify true [0; 10000000000] (makePayload testNow None)
     = Returned (invalid "permit2_allowance_required")
  /\ verify true [10000000000; 0] (makePayload testNow None)
     = Returned (invalid "insufficient_balance").
Proof. repeat split; vm_compute; reflexivity. Qed.

(** describe("settleUpto") *)
Example settleUpto_tests :
  result_of (settle StatusSuccess (makePayload testNow (Some "43700")))
  = Returned {| success := true; txHash := Some "0xtxhash";
                settledAmount := Some "43700"; error := None |}
  /\ result_of (settle StatusSuccess (makePayload testNow None))
     = Returned {| success := true; txHash := Some "0xtxhash";
                   settledAmount := Some "1000000"; error := None |}
  /\ result_of (settle StatusSuccess (makePayload testNow (Some "9999999")))
     = Returned {| success := false; txHash := None; settledAmount := None;
                   error := Some "settlement_exceeds_authorization" |}
  /\ settle StatusSuccess (makePayload testNow (Some "0"))
     = (Returned {| success := true; txHash := None; settledAmount := Some "0";
                    error := None |}, [], [])
  /\ result_of (settle StatusReverted (makePayload testNow (Some "43700")))
     = Returned {| success := false; txHash := Some "0xtxhash"; settledAmount := None;
                   error := Some "transaction_reverted" |}.
Proof. repeat split; vm_compute; reflexivity. Qed.

End RepositoryTests.

(** ** Decimal strings: what [toString] prints, [BigInt] and [parseInt] read *)

Section Decimals.
Import Js Spec.
Import Decimal DecimalString.

Lemma uint_acc_pos d : forall p, uint_acc d (Z.pos p) = Z.pos (Pos.of_uint_acc d p).
Proof.
  induction d; intros p; simpl; try reflexivity;
    rewrite <- IHd; f_equal; lia.
Qed.

Lemma uint_acc_zero d : uint_acc d 0 = Z.of_N (Pos.of_uint d).
Proof.
  induction d; simpl; try reflexivity; try exact IHd;
    apply (uint_acc_pos d).
Qed.

Lemma parse_all_digits d : forall acc,
  parse_all 10 (NilEmpty.string_of_uint d) (Some acc) = Some (uint_acc d acc).
Proof.
  induction d; intros acc; simpl; try reflexivity;
    unfold digit_in; simpl; rewrite IHd; f_equal; f_equal; lia.
Qed.

Lemma parse_prefix_digits d : forall acc,
  parse_prefix 10 (NilEmpty.string_of_uint d) (Some acc) = Some (uint_acc d acc).
Proof.
  induction d; intros acc; simpl; try reflexivity;
    unfold digit_in; simpl; rewrite IHd; f_equal; f_equal; lia.
Qed.

Lemma trim_end_digits d :
  trim_end (NilEmpty.string_of_uint d) = NilEmpty.string_of_uint d.
Proof.
  induction d; simpl; try reflexivity; rewrite IHd;
    destruct (NilEmpty.string_of_uint d); reflexivity.
Qed.

Lemma BigInt_digits d :
  d <> Nil -> BigInt (NilEmpty.string_of_uint d) = Some (uint_acc d 0).
Proof.
  intros Hd. unfold BigInt.
  assert (Ht : trim_start (NilEmpty.string_of_uint d) = NilEmpty.string_of_uint d)
    by (destruct d; reflexivity).
  rewrite Ht, trim_end_digits.
  destruct d as [|d|d|d|d|d|d|d|d|d|d]; try congruence;
    try (simpl; unfold digit_in; simpl; apply parse_all_digits).
  destruct d; simpl; unfold digit_in; simpl; try reflexivity;
    unfold digit_in; simpl; apply parse_all_digits.
Qed.

Lemma BigInt_minus_digits d :
  d <> Nil ->
  BigInt (String "-" (NilEmpty.string_of_uint d)) = Some (- uint_acc d 0).
Proof.
  intros Hd. unfold BigInt.
  change (trim_start (String "-" (NilEmpty.string_of_uint d)))
    with (String "-" (NilEmpty.string_of_uint d)).
  assert (Ht : trim_end (String "-" (NilEmpty.string_of_uint d))
               = String "-" (NilEmpty.string_of_uint d)).
  { simpl. rewrite trim_end_digits. destruct (NilEmpty.string_of_uint d); reflexivity. }
  rewrite Ht.
  destruct d; try congruence; simpl; unfold digit_in; simpl;
    rewrite parse_all_digits; reflexivity.
Qed.

Lemma parseInt_digits d :
  d <> Nil -> parseInt (NilEmpty.string_of_uint d) 0 = Num (uint_acc d 0).
Proof.
  intros Hd. unfold parseInt.
  assert (Ht : trim_start (NilEmpty.string_of_uint d) = NilEmpty.string_of_uint d)
    by (destruct d; reflexivity).
  rewrite Ht.
  destruct d as [|d|d|d|d|d|d|d|d|d|d]; try congruence;
    try (simpl; unfold digit_in; simpl; rewrite parse_prefix_digits;
         f_equal; destruct (uint_acc _ _); reflexivity).
  destruct d; simpl; unfold digit_in; simpl; try reflexivity;
    unfold digit_in; simpl; rewrite parse_prefix_digits;
    f_equal; destruct (uint_acc _ _); reflexivity.
Qed.

Lemma parseInt_minus_digits d :
  d <> Nil ->
  parseInt (String "-" (NilEmpty.string_of_uint d)) 0 = Num (- uint_acc d 0).
Proof.
  intros Hd. unfold parseInt.
  change (trim_start (String "-" (NilEmpty.string_of_uint d)))
    with (String "-" (NilEmpty.string_of_uint d)).
  cbv iota beta.
  destruct d as [|d|d|d|d|d|d|d|d|d|d]; try congruence;
    try (simpl; unfold digit_in; simpl; rewrite parse_prefix_digits;
         f_equal; destruct (uint_acc _ _); reflexivity).
  destruct d; simpl; unfold digit_in; simpl; try reflexivity;
    unfold digit_in; simpl; rewrite parse_prefix_digits;
    f_equal; destruct (uint_acc _ _); reflexivity.
Qed.

Lemma toString_pos p :
  toString (Z.pos p) = NilEmpty.string_of_uint (Pos.to_uint p).
Proof.
  unfold toString. simpl. unfold NilZero.string_of_uint.
  pose proof (DecimalPos.Unsigned.to_uint_nonnil p) as Hn.
  destruct (Pos.to_uint p); [congruence | reflexivity..].
Qed.

Lemma toString_neg p :
  toString (Z.neg p) = String "-" (NilEmpty.string_of_uint (Pos.to_uint p)).
Proof.
  unfold toString. simpl. unfold NilZero.string_of_uint.
  pose proof (DecimalPos.Unsigned.to_uint_nonnil p) as Hn.
  destruct (Pos.to_uint p); [congruence | reflexivity..].
Qed.

Lemma uint_acc_to_uint p : uint_acc (Pos.to_uint p) 0 = Z.pos p.
Proof. rewrite uint_acc_zero, DecimalPos.Unsigned.of_to. reflexivity. Qed.

(** What [toString] prints, [BigInt] and [parseInt] read back. *)
Lemma BigInt_toString z : BigInt (toString z) = Some z.
Proof.
  destruct z as [|p|p].
  - reflexivity.
  - rewrite toString_pos, BigInt_digits, uint_acc_to_uint;
      [reflexivity | apply DecimalPos.Unsigned.to_uint_nonnil].
  - rewrite toString_neg, BigInt_minus_digits, uint_acc_to_uint;
      [reflexivity | apply DecimalPos.Unsigned.to_uint_nonnil].
Qed.

Lemma parseInt_toString z : parseInt (toString z) 0 = Num z.
Proof.
  destruct z as [|p|p].
  - reflexivity.
  - rewrite toString_pos, parseInt_digits, uint_acc_to_uint;
      [reflexivity | apply DecimalPos.Unsigned.to_uint_nonnil].
  - rewrite toString_neg, parseInt_minus_digits, uint_acc_to_uint;
      [reflexivity | apply DecimalPos.Unsigned.to_uint_nonnil].
Qed.
End Decimals.

(** ** The settler *)

Section Settler.
Import Js Prog Constants Types Facilitator Spec.

(** C3. A payload whose effective settlement amount is strictly greater
    than [permitted.amount] is answered with
    [{ success: false, error: "settlement_exceeds_authorization" }] by a
    plain return: in every world the run makes no call at all (no clock
    read, no verification, no chain read, no [writeContract]) and leaves
    the world's state as it was. *)
Theorem settleUpto_exceeding_amount_rejected payload requirements s a :
  BigInt (effective_amount payload) = Some s ->
  BigInt (ceiling_of payload) = Some a ->
  a < s ->
  settleUpto payload requirements = Ret exceeds_authorization
  /\ forall W (h : world signer_call signer_answer W) (w : W),
       run h (settleUpto payload requirements) w
       = (Returned exceeds_authorization, w, []).
Proof.
  intros Hs Ha Hlt.
  assert (E : settleUpto payload requirements = Ret exceeds_authorization).
  { unfold settleUpto, effective_amount, ceiling_of, bigint in *.
    rewrite Hs, Ha. simpl.
    destruct (Z.ltb_spec a s) as [_ | Hge]; [reflexivity | lia]. }
  split; [exact E |]. intros W h w. rewrite E. reflexivity.
Qed.

(** C4. A payload whose effective settlement amount is zero and does not
    exceed [permitted.amount] is answered with
    [{ success: true, settledAmount: "0" }] by a plain return: no call is
    made, so neither [writeContract] nor the verifier runs. *)
Theorem settleUpto_zero_amount_elided payload requirements a :
  BigInt (effective_amount payload) = Some 0 ->
  BigInt (ceiling_of payload) = Some a ->
  0 <= a ->
  settleUpto payload requirements = Ret nothing_to_settle
  /\ forall W (h : world signer_call signer_answer W) (w : W),
       run h (settleUpto payload requirements) w
       = (Returned nothing_to_settle, w, []).
Proof.
  intros Hs Ha Hle.
  assert (E : settleUpto payload requirements = Ret nothing_to_settle).
  { unfold settleUpto, effective_amount, ceiling_of, bigint in *.
    rewrite Hs, Ha. simpl.
    destruct (Z.ltb_spec a 0) as [Hlt | _]; [lia | reflexivity]. }
  split; [exact E |]. intros W h w. rewrite E. reflexivity.
Qed.

(** C1, as amended.  Whenever [settleUpto] returns a result with
    [success: true], in any world, its [settledAmount] is present and is
    either the effective settlement amount of the payload (the metered
    [settlementAmount], or the ceiling when that is absent) or "0";
    [BigInt] reads it as an integer that is at most the integer of
    [permitted.amount]; and it is a string of decimal digits whenever the
    payload's effective amount is one. *)
Theorem settleUpto_settles_at_most_authorized {W : Type}
    (h : world signer_call signer_answer W) (w : W) payload requirements r :
  result_of (run h (settleUpto payload requirements) w) = Returned r ->
  success r = true ->
  exists s v a,
    settledAmount r = Some s
    /\ (s = effective_amount payload \/ s = "0")
    /\ BigInt s = Some v
    /\ BigInt (ceiling_of payload) = Some a
    /\ v <= a
    /\ (decimal_string (effective_amount payload) = true -> decimal_string s = true).
Proof.
  unfold result_of, settleUpto, effective_amount, ceiling_of. cbv zeta.
  set (eff := default _ (settlementAmount payload)).
  set (ceil := amount (permitted (permit2Authorization payload))).
  rewrite run_bigint. destruct (BigInt eff) as [s|] eqn:Hs; [|simpl; discriminate].
  rewrite run_bigint. destruct (BigInt ceil) as [a|] eqn:Ha; [|simpl; discriminate].
  destruct (Z.ltb_spec a s) as [Hlt|Hge].
  { simpl. intros [= <-]. discriminate. }
  rewrite run_bigint, Hs.
  destruct (Z.eqb_spec s 0) as [->|Hnz].
  { simpl. intros [= <-] _. exists "0", 0, a. repeat split; auto. }
  rewrite run_bind.
  destruct (run h (verifyUpto payload requirements) w) as [[[v|e] w1] c1];
    [|simpl; discriminate].
  destruct (isValid v); [|simpl; intros [= <-]; discriminate].
  simpl negb. cbv iota.
  rewrite run_try_catch, run_bigint, Ha.
  rewrite run_bigint. destruct (BigInt (nonce _)) as [n|];
    [|simpl; intros [= <-]; discriminate].
  rewrite run_bigint. destruct (BigInt (deadline _)) as [d|];
    [|simpl; intros [= <-]; discriminate].
  rewrite run_bigint, Hs.
  rewrite run_bigint. destruct (BigInt (validAfter _)) as [va|];
    [|simpl; intros [= <-]; discriminate].
  simpl.
  destruct (h (WriteContract _) w1) as [[hash|e] w2]; simpl;
    [|intros [= <-]; discriminate].
  destruct (h (WaitForTransactionReceipt hash) w2) as [[rc|e] w3]; simpl;
    [|intros [= <-]; discriminate].
  destruct (status rc); simpl; intros [= <-]; [|discriminate].
  intros _. exists eff, s, a. repeat split; auto.
Qed.

(** The metered settlement of the tests: 43700 of 1000000 units. *)
Lemma settleUpto_settles_at_most_authorized_witness :
  exists s v a,
    Some "43700" = Some s
    /\ (s = "43700" \/ s = "0")
    /\ BigInt s = Some v
    /\ BigInt "1000000" = Some a
    /\ v <= a
    /\ (decimal_string "43700" = true -> decimal_string s = true).
Proof.
  apply (settleUpto_settles_at_most_authorized
           (Fixtures.makeSigner 1700000000123 10000000000) tt
           (Fixtures.makePayload 1700000000 (Some "43700")) Fixtures.requirements
           {| success := true; txHash := Some "0xtxhash";
              settledAmount := Some "43700"; error := None |});
    vm_compute; reflexivity.
Defined.

(** C1 as stated fails on a metered amount written as a hexadecimal
    literal: the settlement of 16 units succeeds and the string is handed
    back as it came, which is no decimal string. *)
Lemma settleUpto_hex_amount_counterexample :
  result_of (run (Fixtures.makeSigner 1700000000123 10000000000)
                 (settleUpto (Fixtures.makePayload 1700000000 (Some "0x10"))
                             Fixtures.requirements) tt)
  = Returned {| success := true; txHash := Some "0xtxhash";
                settledAmount := Some "0x10"; error := None |}
  /\ BigInt "0x10" = Some 16
  /\ decimal_string "0x10" = false.
Proof.
  split; [|split]; vm_compute; reflexivity.
Qed.

Lemma settleUpto_exceeding_amount_rejected_witness :
  settleUpto (Fixtures.makePayload 1700000000 (Some "9999999")) Fixtures.requirements
  = Ret exceeds_authorization
  /\ forall W (h : world signer_call signer_answer W) (w : W),
       run h (settleUpto (Fixtures.makePayload 1700000000 (Some "9999999"))
                         Fixtures.requirements) w
       = (Returned exceeds_authorization, w, []).
Proof.
  apply (settleUpto_exceeding_amount_rejected
           (Fixtures.makePayload 1700000000 (Some "9999999")) Fixtures.requirements
           9999999 1000000); [reflexivity | reflexivity | lia].
Defined.

Lemma settleUpto_zero_amount_elided_witness :
  settleUpto (Fixtures.makePayload 1700000000 (Some "0")) Fixtures.requirements
  = Ret nothing_to_settle
  /\ forall W (h : world signer_call signer_answer W) (w : W),
       run h (settleUpto (Fixtures.makePayload 1700000000 (Some "0"))
                         Fixtures.requirements) w
       = (Returned nothing_to_settle, w, []).
Proof.
  apply (settleUpto_zero_amount_elided
           (Fixtures.makePayload 1700000000 (Some "0")) Fixtures.requirements
           1000000); [reflexivity | reflexivity | lia].
Defined.

End Settler.

(** ** The verifier *)

Section Verifier.
Import Js Prog Constants Types Facilitator Spec.
Context {W : Type} (h : world signer_call signer_answer W).

Ltac settle_case :=
  split; [reflexivity | solve [intros [=] | intros _; split; reflexivity]].

(** Case analysis along the verifier: one step opens the next branch. *)
Ltac verify_step :=
  match goal with
  | |- context [h ?c ?w] =>
      destruct (h c w) as [[[|]|?] ?] || destruct (h c w) as [[?|?] ?]
      || destruct (h c w) as [? ?]
  | |- context [BigInt ?s] => destruct (BigInt s)
  | |- context [if ?b then _ else _] => destruct b eqn:?
  end; simpl in *.

(** C2, as amended.  Take a payload and requirements whose numeric strings
    can be read: [parseInt] reads [deadline] and [witness.validAfter] as
    integers, and [BigInt] reads [permitted.amount], [maxAmount], [nonce],
    [deadline] and [witness.validAfter].  In every world, [verifyUpto]
    returns the verdict of the eight checks in their fixed order: the tag of
    the first failing check (a signer call that rejects fails its check with
    its own tag), or [{ isValid: true, payer: from }] when all pass.  The
    answers of the signer are those it gives when asked in that order.  A
    chain read is made only if the five local checks pass and the signer
    has answered that the signature is valid. *)
Theorem verifyUpto_first_failing_check payload requirements (w : W)
    dl va amt mx n dl' va' :
  let auth := permit2Authorization payload in
  parseInt (deadline auth) 0 = Num dl ->
  parseInt (validAfter (witness auth)) 0 = Num va ->
  BigInt (amount (permitted auth)) = Some amt ->
  BigInt (maxAmount requirements) = Some mx ->
  BigInt (nonce auth) = Some n ->
  BigInt (deadline auth) = Some dl' ->
  BigInt (validAfter (witness auth)) = Some va' ->
  let w1 := after h DateNow w in
  let ask_signature := signature_call payload requirements amt n dl' va' in
  let w2 := after h ask_signature w1 in
  let w3 := after h (ReadContract (allowance_params auth)) w2 in
  let readings :=
    {| now := answer h DateNow w / 1000;
       deadline_value := dl;
       validAfter_value := va;
       authorized := amt;
       required := mx;
       signature_answer := answer h ask_signature w1;
       allowance_answer := answer h (ReadContract (allowance_params auth)) w2;
       balance_answer := answer h (ReadContract (balance_params auth)) w3 |} in
  let r := run h (verifyUpto payload requirements) w in
  result_of r = Returned (verdict auth requirements readings)
  /\ (existsb is_chain_read (calls_of r) = true ->
      first_failure (local_checks auth requirements readings) = None
      /\ signature_answer readings = Fulfilled true).
Proof.
  intros auth Hdl Hva Hamt Hmx Hn Hdl' Hva' w1 ask_signature w2 w3 readings r.
  subst r readings w3 w2 ask_signature w1 auth.
  unfold verdict, ordered_checks, local_checks, signature_call, same_address,
    result_of, calls_of, answer, after.
  unfold verifyUpto. cbv zeta. simpl run.
  destruct (h DateNow w) as [ms w1]. simpl.
  destruct (String.eqb _ _); simpl; [|settle_case].
  destruct (String.eqb _ _); simpl; [|settle_case].
  rewrite Hdl, Hva. simpl.
  destruct (Z.leb_spec dl (ms / 1000)) as [H1|H1],
           (Z.ltb_spec (ms / 1000) dl) as [H1'|H1']; try lia; simpl;
    [settle_case|].
  destruct (Z.ltb_spec (ms / 1000) va) as [H2|H2],
           (Z.leb_spec va (ms / 1000)) as [H2'|H2']; try lia; simpl;
    [settle_case|].
  unfold bigint. rewrite ?Hamt, ?Hmx, ?Hn, ?Hdl', ?Hva'. simpl.
  destruct (Z.ltb_spec amt mx) as [H3|H3],
           (Z.leb_spec mx amt) as [H3'|H3']; try lia; simpl;
    [settle_case|].
  destruct (h (VerifyTypedData _) w1) as [[[|]|e] w2]; simpl;
    [|settle_case..].
  destruct (h (ReadContract (allowance_params _)) w2) as [[al|e] w3]; simpl;
    [|settle_case].
  destruct (Z.ltb_spec al amt) as [H4|H4],
           (Z.leb_spec amt al) as [H4'|H4']; try lia; simpl;
    [settle_case|].
  destruct (h (ReadContract (balance_params _)) w3) as [[bal|e] w4]; simpl;
    [|settle_case].
  destruct (Z.ltb_spec bal amt) as [H5|H5],
           (Z.leb_spec amt bal) as [H5'|H5']; try lia; simpl;
    settle_case.
Qed.

(** C8. At the time boundaries.  A payload whose deadline equals the
    current time is never valid, and once the spender and recipient checks
    have passed it is rejected with permit2_deadline_expired.  A payload
    whose validAfter equals the current time is never rejected with
    permit2_not_yet_valid. *)
Theorem verifyUpto_time_boundaries payload requirements (w : W) :
  let auth := permit2Authorization payload in
  let now := answer h DateNow w / 1000 in
  let r := result_of (run h (verifyUpto payload requirements) w) in
  (parseInt (deadline auth) 0 = Num now ->
     (exists v, r = Returned v /\ isValid v = false)
     /\ (same_address (spender auth) X402_UPTO_PERMIT2_PROXY_ADDRESS = true ->
         same_address (to (witness auth)) (payTo requirements) = true ->
         r = Returned (invalid "permit2_deadline_expired")))
  /\ (parseInt (validAfter (witness auth)) 0 = Num now ->
      forall v, r = Returned v -> invalidReason v <> Some "permit2_not_yet_valid").
Proof.
  intros auth now r. subst auth now r. unfold same_address. split.
  - intros Hd. unfold result_of, answer, verifyUpto in *. simpl.
    destruct (h DateNow w) as [ms w1]. simpl in *.
    rewrite Hd. simpl. rewrite Z.leb_refl.
    destruct (String.eqb _ _); simpl; [|split; [eauto|discriminate]].
    destruct (String.eqb _ _); simpl; [|split; [eauto|intros _; discriminate]].
    split; [eauto|reflexivity].
  - intros Hv. unfold result_of, answer, verifyUpto, bigint in *. simpl.
    destruct (h DateNow w) as [ms w1]. simpl in *.
    rewrite Hv. simpl. rewrite Z.ltb_irrefl.
    repeat verify_step; intros v [= <-]; discriminate.
Qed.

(** C10, as amended.  A deadline that [parseInt] cannot read (NaN) never
    yields permit2_deadline_expired, and a validAfter that it cannot read
    never yields permit2_not_yet_valid: the time check counts as passed.
    What follows is decided by the remaining checks and by [BigInt].  When
    [BigInt] reads the five numeric strings, the verifier returns the
    verdict of the eight checks in their order, as for a payload whose
    deadline lies ahead (whose validAfter lies behind), the signer being
    asked with what [BigInt] read.  Once the spender, recipient and time
    checks have passed, a ceiling below [maxAmount] is reported as
    insufficient_authorized_amount whatever the time strings are; with a
    sufficient ceiling and a readable nonce, a deadline (or, the deadline
    being readable, a validAfter) that [BigInt] cannot read makes the
    verifier throw the SyntaxError of that string, the clock being the
    only call made. *)
Theorem verifyUpto_unparseable_times_pass payload requirements (w : W) :
  let auth := permit2Authorization payload in
  let clock := answer h DateNow w / 1000 in
  let w1 := after h DateNow w in
  let r := run h (verifyUpto payload requirements) w in
  (parseInt (deadline auth) 0 = NaN ->
   forall v, result_of r = Returned v ->
             invalidReason v <> Some "permit2_deadline_expired")
  /\ (parseInt (validAfter (witness auth)) 0 = NaN ->
      forall v, result_of r = Returned v ->
                invalidReason v <> Some "permit2_not_yet_valid")
  /\ (forall amt mx n dl va,
        BigInt (amount (permitted auth)) = Some amt ->
        BigInt (maxAmount requirements) = Some mx ->
        BigInt (nonce auth) = Some n ->
        BigInt (deadline auth) = Some dl ->
        BigInt (validAfter (witness auth)) = Some va ->
        let ask_signature := signature_call payload requirements amt n dl va in
        let w2 := after h ask_signature w1 in
        let w3 := after h (ReadContract (allowance_params auth)) w2 in
        result_of r
        = Returned
            (verdict auth requirements
               {| now := clock;
                  deadline_value := Shape.deadline_as clock (parseInt (deadline auth) 0);
                  validAfter_value :=
                    Shape.validAfter_as clock (parseInt (validAfter (witness auth)) 0);
                  authorized := amt;
                  required := mx;
                  signature_answer := answer h ask_signature w1;
                  allowance_answer := answer h (ReadContract (allowance_params auth)) w2;
                  balance_answer := answer h (ReadContract (balance_params auth)) w3 |}))
  /\ (same_address (spender auth) X402_UPTO_PERMIT2_PROXY_ADDRESS = true ->
      same_address (to (witness auth)) (payTo requirements) = true ->
      num_le (parseInt (deadline auth) 0) (Num clock) = false ->
      num_gt (parseInt (validAfter (witness auth)) 0) (Num clock) = false ->
      forall amt mx,
        BigInt (amount (permitted auth)) = Some amt ->
        BigInt (maxAmount requirements) = Some mx ->
        (amt < mx ->
         r = (Returned (invalid "insufficient_authorized_amount"), w1, [DateNow]))
        /\ (mx <= amt ->
            forall n,
              BigInt (nonce auth) = Some n ->
              (BigInt (deadline auth) = None ->
               r = (Threw (SyntaxError (deadline auth)), w1, [DateNow]))
              /\ (forall dl,
                    BigInt (deadline auth) = Some dl ->
                    BigInt (validAfter (witness auth)) = None ->
                    r = (Threw (SyntaxError (validAfter (witness auth))), w1,
                         [DateNow])))).
Proof.
  intros auth clock w1 r. subst r w1 clock auth. unfold same_address.
  unfold result_of, answer, after, verifyUpto, bigint. simpl.
  destruct (h DateNow w) as [ms w1]. simpl.
  split; [|split; [|split]].
  - intros Hnan. rewrite Hnan. simpl.
    repeat verify_step; intros v [= <-]; discriminate.
  - intros Hnan. rewrite Hnan. simpl.
    repeat verify_step; intros v [= <-]; discriminate.
  - intros amt mx n dl va Hamt Hmx Hn Hdl Hva.
    unfold verdict, ordered_checks, local_checks, signature_call, same_address.
    destruct (String.eqb _ _); simpl; [|reflexivity].
    destruct (String.eqb _ _); simpl; [|reflexivity].
    assert (Hd : forall read,
              num_le read (Num (ms / 1000))
              = negb (ms / 1000 <? Shape.deadline_as (ms / 1000) read)).
    { intros [|z]; simpl.
      - destruct (Z.ltb_spec (ms / 1000) (ms / 1000 + 1)); [reflexivity | lia].
      - destruct (Z.leb_spec z (ms / 1000)), (Z.ltb_spec (ms / 1000) z);
          try reflexivity; lia. }
    assert (Hv : forall read,
              num_gt read (Num (ms / 1000))
              = negb (Shape.validAfter_as (ms / 1000) read <=? ms / 1000)).
    { intros [|z]; simpl.
      - destruct (Z.leb_spec (ms / 1000) (ms / 1000)); [reflexivity | lia].
      - destruct (Z.ltb_spec (ms / 1000) z), (Z.leb_spec z (ms / 1000));
          try reflexivity; lia. }
    rewrite Hd, Hv.
    destruct (_ <? Shape.deadline_as _ _); simpl; [|reflexivity].
    destruct (Shape.validAfter_as _ _ <=? _); simpl; [|reflexivity].
    rewrite ?Hamt, ?Hmx, ?Hn, ?Hdl, ?Hva. simpl.
    destruct (Z.ltb_spec amt mx) as [H3|H3],
             (Z.leb_spec mx amt) as [H3'|H3']; try lia; simpl; [reflexivity|].
    destruct (h (VerifyTypedData _) w1) as [[[|]|e] w2]; simpl; try reflexivity.
    destruct (h (ReadContract (allowance_params _)) w2) as [[al|e] w3]; simpl;
      [|reflexivity].
    destruct (Z.ltb_spec al amt) as [H4|H4],
             (Z.leb_spec amt al) as [H4'|H4']; try lia; simpl; [reflexivity|].
    destruct (h (ReadContract (balance_params _)) w3) as [[bal|e] w4]; simpl;
      [|reflexivity].
    destruct (Z.ltb_spec bal amt) as [H5|H5],
             (Z.leb_spec amt bal) as [H5'|H5']; try lia; simpl; reflexivity.
  - intros Hs Hr Hd Hv amt mx Hamt Hmx.
    rewrite Hs, Hr, Hd, Hv, Hamt, Hmx. simpl. split.
    + intros Hlt. destruct (Z.ltb_spec amt mx); [reflexivity | lia].
    + intros Hge n Hn. destruct (Z.ltb_spec amt mx); [lia|]. simpl.
      rewrite Hn. simpl. split.
      * intros ->. reflexivity.
      * intros dl -> ->. reflexivity.
Qed.

End Verifier.

Section VerifierExamples.
Import Js Prog Constants Types Facilitator Spec.

(** The payload of the tests at clock reading 1700000000 s: every check
    passes. *)
Lemma verifyUpto_first_failing_check_witness :
  result_of (run (Fixtures.makeSigner 1700000000123 10000000000)
                 (verifyUpto (Fixtures.makePayload 1700000000 None)
                             Fixtures.requirements) tt)
  = Returned {| isValid := true; invalidReason := None;
                payer := Some "0xf39Fd6e51aad88F6F4ce6aB8827279cffFb92266" |}.
Proof.
  apply (verifyUpto_first_failing_check
           (Fixtures.makeSigner 1700000000123 10000000000)
           (Fixtures.makePayload 1700000000 None) Fixtures.requirements tt
           1700000600 1699999940 1000000 1000000 12345 1700000600 1699999940);
    vm_compute; reflexivity.
Defined.

(** C2 as stated fails.  A ceiling that [BigInt] cannot read makes
    [verifyUpto] throw: it returns neither a tag nor a valid result.  A
    blank deadline, which is not later than the current time, passes the
    deadline check: the payload is reported valid.  And a signer whose
    signature check rejects yields a tag that is not among the eight of
    the claim. *)
Lemma verifyUpto_unreadable_strings_counterexample :
  (forall r,
     result_of (run (Fixtures.makeSigner 1700000000123 10000000000)
                    (verifyUpto (Fixtures.payloadWith "1700000600" "1699999940" "abc" None)
                                Fixtures.requirements) tt)
     <> Returned r)
  /\ (num_gt (parseInt "" 0) (Num 1700000000) = false
      /\ BigInt "" = Some 0
      /\ result_of (run (Fixtures.makeSigner 1700000000123 10000000000)
                        (verifyUpto (Fixtures.payloadWith "" "1699999940" "1000000" None)
                                    Fixtures.requirements) tt)
         = Returned {| isValid := true; invalidReason := None;
                       payer := Some "0xf39Fd6e51aad88F6F4ce6aB8827279cffFb92266" |})
  /\ result_of (run (Fixtures.rejectingSigner 1700000000123 "rpc unreachable")
                    (verifyUpto (Fixtures.makePayload 1700000000 None)
                                Fixtures.requirements) tt)
     = Returned (invalid "signature_verification_failed").
Proof.
  split; [intros r; vm_compute; discriminate | repeat split].
Qed.

Lemma verifyUpto_time_boundaries_witness :
  result_of (run (Fixtures.makeSigner 1700000000123 10000000000)
                 (verifyUpto (Fixtures.payloadWith "1700000000" "1699999940" "1000000" None)
                             Fixtures.requirements) tt)
  = Returned (invalid "permit2_deadline_expired")
  /\ forall v,
       result_of (run (Fixtures.makeSigner 1700000000123 10000000000)
                      (verifyUpto (Fixtures.payloadWith "1700000600" "1700000000" "1000000" None)
                                  Fixtures.requirements) tt)
       = Returned v -> invalidReason v <> Some "permit2_not_yet_valid".
Proof.
  split.
  - apply (verifyUpto_time_boundaries
             (Fixtures.makeSigner 1700000000123 10000000000)
             (Fixtures.payloadWith "1700000000" "1699999940" "1000000" None)
             Fixtures.requirements tt); reflexivity.
  - apply (verifyUpto_time_boundaries
             (Fixtures.makeSigner 1700000000123 10000000000)
             (Fixtures.payloadWith "1700000600" "1700000000" "1000000" None)
             Fixtures.requirements tt); reflexivity.
Defined.

(** A blank deadline with validAfter "soon": both time checks count as
    passed, [BigInt] cannot read "soon", and 100 units do not cover the
    required 1000000. *)
Lemma verifyUpto_unparseable_times_pass_witness :
  run (Fixtures.makeSigner 1700000000123 10000000000)
      (verifyUpto (Fixtures.payloadWith "" "soon" "100" None) Fixtures.requirements) tt
  = (Returned (invalid "insufficient_authorized_amount"), tt, [DateNow]).
Proof.
  destruct (verifyUpto_unparseable_times_pass
              (Fixtures.makeSigner 1700000000123 10000000000)
              (Fixtures.payloadWith "" "soon" "100" None)
              Fixtures.requirements tt) as (_ & _ & _ & Hceiling).
  destruct (Hceiling eq_refl eq_refl eq_refl eq_refl 100 1000000 eq_refl eq_refl)
    as [Hlow _].
  apply Hlow. lia.
Defined.

(** C10 as stated fails past the ceiling check: with a ceiling that covers
    [maxAmount], the deadline "never" is not rejected by the deadline
    check, and the verifier throws at [BigInt] before it asks the signer
    for anything, where the blank deadline goes on and is reported
    valid. *)
Lemma verifyUpto_unparseable_deadline_counterexample :
  parseInt "never" 0 = NaN
  /\ run (Fixtures.makeSigner 1700000000123 10000000000)
         (verifyUpto (Fixtures.payloadWith "never" "1699999940" "1000000" None)
                     Fixtures.requirements) tt
     = (Threw (SyntaxError "never"), tt, [DateNow])
  /\ parseInt "" 0 = NaN
  /\ result_of (run (Fixtures.makeSigner 1700000000123 10000000000)
                    (verifyUpto (Fixtures.payloadWith "" "1699999940" "1000000" None)
                                Fixtures.requirements) tt)
     = Returned {| isValid := true; invalidReason := None;
                   payer := Some "0xf39Fd6e51aad88F6F4ce6aB8827279cffFb92266" |}.
Proof.
  repeat split; vm_compute; reflexivity.
Qed.
End VerifierExamples.

(** ** The client builder against the verifier *)

Section Builder.
Import Js Prog Constants Types Facilitator Client Spec.
Context {Wc Wf : Type}
        (hc : world client_call client_answer Wc)
        (hf : world signer_call signer_answer Wf).

(** C6, as amended.  Let the requirements name an eip155 network, carry a
    [maxAmount] that [BigInt] reads, and a [maxTimeoutSeconds] that is a
    whole number of seconds, at least 1, with the deadline a safe integer
    (below 2^53, where the integers of this embedding are the doubles of
    the code).  Let the wallet sign, and let the facilitator's signer, read
    at the same clock time, report the signature valid and an allowance
    and a balance of at least [maxAmount].  Then the builder returns a
    payload whose spender is the upto proxy, whose [witness.to] is [payTo],
    whose ceiling is [maxAmount], whose deadline is now + maxTimeoutSeconds
    and whose validAfter is now - 60, and [verifyUpto] accepts it with
    [{ isValid: true, payer: address }]. *)
Theorem built_payload_verifies (wc : Wc) (wf : Wf) address requirements
    ms chain m :
  split ":" (network requirements) = ["eip155"; chain] ->
  BigInt (maxAmount requirements) = Some m ->
  1 <= maxTimeoutSeconds requirements ->
  ms / 1000 + maxTimeoutSeconds requirements < 2 ^ 53 ->
  (forall w, answer hc ClientDateNow w = ms) ->
  (forall params w, exists sig, answer hc (SignTypedData params) w = Fulfilled sig) ->
  (forall w, answer hf DateNow w = ms) ->
  (forall params w, answer hf (VerifyTypedData params) w = Fulfilled true) ->
  (forall params w, exists v, answer hf (ReadContract params) w = Fulfilled v /\ m <= v) ->
  exists payload,
    result_of (run hc (createUptoPermit2Payload address requirements) wc)
    = Returned payload
    /\ spender (permit2Authorization payload) = X402_UPTO_PERMIT2_PROXY_ADDRESS
    /\ to (witness (permit2Authorization payload)) = payTo requirements
    /\ amount (permitted (permit2Authorization payload)) = maxAmount requirements
    /\ deadline (permit2Authorization payload)
       = toString (ms / 1000 + maxTimeoutSeconds requirements)
    /\ validAfter (witness (permit2Authorization payload))
       = toString (ms / 1000 - 60)
    /\ settlementAmount payload = None
    /\ result_of (run hf (verifyUpto payload requirements) wf)
       = Returned {| isValid := true; invalidReason := None; payer := Some address |}.
Proof.
  intros Hnet Hm Ht Hsafe Hclock Hsign Hnow Hsig Hread.
  unfold createUptoPermit2Payload, parseChainId, result_of.
  rewrite Hnet. simpl.
  pose proof (Hclock wc) as Hc1. unfold answer in Hc1.
  destruct (hc ClientDateNow wc) as [ms1 w1]. simpl in Hc1. subst ms1.
  pose proof (Hclock w1) as Hc2. unfold answer in Hc2.
  destruct (hc ClientDateNow w1) as [ms2 w2]. simpl in Hc2. subst ms2.
  destruct (hc (MathRandomBelow _) w2) as [random w3].
  unfold bigint. rewrite BigInt_toString. simpl.
  match goal with |- context [hc (SignTypedData ?p) w3] =>
    destruct (Hsign p w3) as [sig Hs]; unfold answer in Hs;
    destruct (hc (SignTypedData p) w3) as [s4 w4]; simpl in Hs; subst s4
  end.
  simpl. eexists. split; [reflexivity|]. simpl.
  repeat (split; [reflexivity|]).
  pose proof (Hnow wf) as Hn1. unfold answer in Hn1.
  destruct (hf DateNow wf) as [ms' v1]. simpl in Hn1. subst ms'.
  rewrite String.eqb_refl, !parseInt_toString, !BigInt_toString, Hm. simpl.
  destruct (Z.leb_spec (ms / 1000 + maxTimeoutSeconds requirements) (ms / 1000));
    [lia|].
  destruct (Z.ltb_spec (ms / 1000) (ms / 1000 - 60)); [lia|].
  rewrite Z.ltb_irrefl. simpl.
  match goal with |- context [hf (VerifyTypedData ?p) v1] =>
    pose proof (Hsig p v1) as Hs1; unfold answer in Hs1;
    destruct (hf (VerifyTypedData p) v1) as [s2 v2]; simpl in Hs1; subst s2
  end.
  simpl.
  match goal with |- context [hf (ReadContract ?p) v2] =>
    destruct (Hread p v2) as [al [Ha Hal]]; unfold answer in Ha;
    destruct (hf (ReadContract p) v2) as [s3 v3]; simpl in Ha; subst s3
  end.
  simpl. destruct (Z.ltb_spec al m); [lia|]. simpl.
  match goal with |- context [hf (ReadContract ?p) v3] =>
    destruct (Hread p v3) as [bal [Hb Hbal]]; unfold answer in Hb;
    destruct (hf (ReadContract p) v3) as [s4 v4]; simpl in Hb; subst s4
  end.
  simpl. destruct (Z.ltb_spec bal m); [lia|]. reflexivity.
Qed.
End Builder.

Section BuilderExamples.
Import Js Prog Constants Types Facilitator Client Spec.

Lemma built_payload_verifies_witness :
  exists payload,
    result_of (run (Fixtures.clientSigner 1700000000123 12345)
                   (createUptoPermit2Payload "0xf39Fd6e51aad88F6F4ce6aB8827279cffFb92266"
                                             Fixtures.requirements) tt)
    = Returned payload
    /\ spender (permit2Authorization payload) = X402_UPTO_PERMIT2_PROXY_ADDRESS
    /\ to (witness (permit2Authorization payload)) = payTo Fixtures.requirements
    /\ amount (permitted (permit2Authorization payload)) = maxAmount Fixtures.requirements
    /\ deadline (permit2Authorization payload)
       = toString (1700000000123 / 1000 + maxTimeoutSeconds Fixtures.requirements)
    /\ validAfter (witness (permit2Authorization payload))
       = toString (1700000000123 / 1000 - 60)
    /\ settlementAmount payload = None
    /\ result_of (run (Fixtures.makeSigner 1700000000123 10000000000)
                      (verifyUpto payload Fixtures.requirements) tt)
       = Returned {| isValid := true; invalidReason := None;
                     payer := Some "0xf39Fd6e51aad88F6F4ce6aB8827279cffFb92266" |}.
Proof.
  apply (built_payload_verifies
           (Fixtures.clientSigner 1700000000123 12345)
           (Fixtures.makeSigner 1700000000123 10000000000) tt tt
           "0xf39Fd6e51aad88F6F4ce6aB8827279cffFb92266" Fixtures.requirements
           1700000000123 "84532" 1000000).
  - reflexivity.
  - reflexivity.
  - unfold Fixtures.requirements. simpl. lia.
  - vm_compute. reflexivity.
  - intros w. reflexivity.
  - intros params w. exists "0xsigned". reflexivity.
  - intros w. reflexivity.
  - intros params w. reflexivity.
  - intros params w. exists 10000000000. split; [reflexivity | lia].
Defined.

(** C6 as stated fails.  With [maxTimeoutSeconds = 0] the builder sets the
    deadline to the current second, and the verifier, asked at the same
    time by a signer that approves everything, rejects the payload.  With
    a [maxAmount] that is no integer string the verifier throws on the
    payload that the builder returns. *)
Lemma built_payload_zero_timeout_counterexample :
  let address := "0xf39Fd6e51aad88F6F4ce6aB8827279cffFb92266" in
  let zero_timeout := Fixtures.requirementsWith "1000000" 0 in
  let dollars := Fixtures.requirementsWith "1.00" 300 in
  (exists payload,
     result_of (run (Fixtures.clientSigner 1700000000123 12345)
                    (createUptoPermit2Payload address zero_timeout) tt)
     = Returned payload
     /\ result_of (run (Fixtures.makeSigner 1700000000123 10000000000)
                       (verifyUpto payload zero_timeout) tt)
        = Returned (invalid "permit2_deadline_expired"))
  /\ (exists payload,
        result_of (run (Fixtures.clientSigner 1700000000123 12345)
                       (createUptoPermit2Payload address dollars) tt)
        = Returned payload
        /\ result_of (run (Fixtures.makeSigner 1700000000123 10000000000)
                          (verifyUpto payload dollars) tt)
           = Threw (SyntaxError "1.00")).
Proof.
  split.
  - exists (Fixtures.built "1000000" "1700000000").
    split; vm_compute; reflexivity.
  - exists (Fixtures.built "1.00" "1700000300").
    split; vm_compute; reflexivity.
Qed.

End BuilderExamples.

(** ** The middleware *)

Section MiddlewareReplies.
Import Js Prog Constants Types Middleware.
Context {W : Type} (h : world mw_call mw_answer W).
Variable parseUsdcAmount : string -> outcome string.
Variable decode : string -> option UptoPermit2Payload.

(** C5. For a gated request that carries a payment header which decodes to
    a payload, when the facilitator is reached and its verify reply has
    [isValid: false], the middleware replies with the body
    [{ error: "Payment verification failed", reason, accepts: [requirements] }]
    and with status 412 exactly when the reason is
    "permit2_allowance_required", and 402 for every other reason (an absent
    reason included). *)
Theorem middleware_verification_failure_status routes facilitatorUrl req (w : W)
    routeConfig units headerValue payload response verification :
  routes !! (method req ++ " " ++ pathname req) = Some routeConfig ->
  parseUsdcAmount (maxPrice routeConfig) = Returned units ->
  paymentHeaderOf req = Some headerValue ->
  headerValue <> "" ->
  decode headerValue = Some payload ->
  let requirements := requirementsFor routeConfig units in
  let fetch := Fetch (facilitatorUrl ++ "/verify")
                     {| fb_payload := payload; fb_requirements := requirements |} in
  answer h fetch w = Fulfilled response ->
  answer h (JsonAsVerification response) (after h fetch w) = Fulfilled verification ->
  v_isValid verification = false ->
  exists status,
    result_of (run h (uptoPaymentMiddleware parseUsdcAmount decode routes
                                            facilitatorUrl req) w)
    = Returned (Json {| error := "Payment verification failed";
                        reason := v_invalidReason verification;
                        accepts := Some [requirements];
                        body_description := None;
                        body_mimeType := None |} status)
    /\ (status = 412 <-> v_invalidReason verification = Some "permit2_allowance_required")
    /\ (status = 402 <-> v_invalidReason verification <> Some "permit2_allowance_required").
Proof.
  intros Hroute Hprice Hheader Hnonempty Hdecode requirements fetch Hfetch Hjson Hinvalid.
  subst requirements fetch.
  unfold uptoPaymentMiddleware, price, result_of, answer, after in *.
  rewrite Hroute, Hprice. simpl. rewrite Hheader. simpl.
  destruct (String.eqb_spec headerValue "") as [He|_]; [contradiction|]. simpl.
  rewrite Hdecode. simpl.
  destruct (h (Fetch _ _) w) as [fetched w1]. simpl in Hfetch, Hjson. subst fetched.
  simpl.
  destruct (h (JsonAsVerification response) w1) as [parsed w2]. simpl in Hjson.
  subst parsed. simpl. rewrite Hinvalid. simpl.
  eexists. split; [reflexivity|].
  destruct (v_invalidReason verification) as [r|].
  - destruct (String.eqb_spec r "permit2_allowance_required") as [->|Hne].
    + split; split; intros; congruence || reflexivity.
    + split; split; intros; try congruence; try reflexivity; try lia.
  - split; split; intros; try congruence; try reflexivity; try lia.
Qed.

End MiddlewareReplies.

Section MiddlewareExamples.
Import Js Prog Constants Types Middleware.

Lemma middleware_verification_failure_status_witness :
  exists status,
    result_of (run (Fixtures.facilitatorRejecting (Some "permit2_allowance_required"))
                   (uptoPaymentMiddleware (Server.parseUsdcAmount Fixtures.usdc_units)
                      Fixtures.decode (Fixtures.routes "eip155:84532")
                      "http://localhost:4402" (Fixtures.request (Some "e30="))) tt)
    = Returned (Json {| error := "Payment verification failed";
                        reason := Some "permit2_allowance_required";
                        accepts := Some [requirementsFor (Fixtures.route "eip155:84532")
                                                         "1000000"];
                        body_description := None;
                        body_mimeType := None |} status)
    /\ (status = 412 <-> Some "permit2_allowance_required" = Some "permit2_allowance_required")
    /\ (status = 402 <-> Some "permit2_allowance_required" <> Some "permit2_allowance_required").
Proof.
  apply (middleware_verification_failure_status
           (Fixtures.facilitatorRejecting (Some "permit2_allowance_required"))
           (Server.parseUsdcAmount Fixtures.usdc_units) Fixtures.decode
           (Fixtures.routes "eip155:84532") "http://localhost:4402"
           (Fixtures.request (Some "e30=")) tt
           (Fixtures.route "eip155:84532") "1000000" "e30="
           (Fixtures.makePayload 1700000000 None) 0%nat
           {| v_isValid := false;
              v_invalidReason := Some "permit2_allowance_required";
              v_payer := None |}).
  - vm_compute. reflexivity.
  - reflexivity.
  - reflexivity.
  - discriminate.
  - reflexivity.
  - reflexivity.
  - reflexivity.
  - reflexivity.
Defined.

(** C7 on the code.  A route on Base mainnet that omits [asset] is
    advertised by the middleware with the USDC address of Base Sepolia,
    which is not the default token of its network, where the server
    scheme's [buildRequirements] takes the address of Base mainnet.  On a
    network with no known default token the middleware still answers 402
    with that address, where [buildRequirements] throws. *)
Theorem middleware_default_asset_ignores_network :
  let advertised (network : string) :=
    Returned (Json {| error := "Payment Required";
                      reason := None;
                      accepts := Some [ {| Types.scheme := "upto";
                                           Types.network := network;
                                           Types.asset := "0x036CbD53842c5426634e7929541eC2318f3dCF7e";
                                           Types.maxAmount := "1000000";
                                           Types.payTo := "0x70997970C51812dc3A010C7d01b50e0d17dc79C8";
                                           Types.maxTimeoutSeconds := 300 |} ];
                      body_description := None;
                      body_mimeType := None |} 402) in
  let middleware (network : string) :=
    result_of (run (Fixtures.facilitatorRejecting None)
                   (uptoPaymentMiddleware (Server.parseUsdcAmount Fixtures.usdc_units)
                      Fixtures.decode (Fixtures.routes network)
                      "http://localhost:4402" (Fixtures.request None)) tt) in
  let scheme (network : string) :=
    Server.buildRequirements Fixtures.usdc_units
      {| Server.maxPrice := "$1.00";
         Server.network := network;
         Server.payTo := "0x70997970C51812dc3A010C7d01b50e0d17dc79C8";
         Server.asset := None;
         Server.maxTimeoutSeconds := Some 300 |} in
  middleware "eip155:8453" = advertised "eip155:8453"
  /\ USDC_ADDRESSES !! "eip155:8453" = Some "0x833589fCD6eDb6E08f4c7C32D4f71b54bdA02913"
  /\ scheme "eip155:8453"
     = Returned {| Types.scheme := "upto";
                   Types.network := "eip155:8453";
                   Types.asset := "0x833589fCD6eDb6E08f4c7C32D4f71b54bdA02913";
                   Types.maxAmount := "1000000";
                   Types.payTo := "0x70997970C51812dc3A010C7d01b50e0d17dc79C8";
                   Types.maxTimeoutSeconds := 300 |}
  /\ middleware "eip155:1" = advertised "eip155:1"
  /\ USDC_ADDRESSES !! "eip155:1" = None
  /\ scheme "eip155:1"
     = Threw (JsError "No default token for network eip155:1. Provide asset explicitly.").
Proof.
  repeat split; vm_compute; reflexivity.
Qed.

End MiddlewareExamples.

(** ** The audit store *)

Section AuditStore.
Import Audit.

Lemma has_nonce_rows n rows :
  has_nonce n rows = false -> filter (fun row => nonce row = n) rows = [].
Proof.
  induction rows as [|row rows IH]; simpl; [reflexivity|].
  destruct (String.eqb_spec (nonce row) n) as [He|Hne]; simpl; [discriminate|].
  intros Hrest. rewrite filter_cons_False by exact Hne. apply IH, Hrest.
Qed.

Lemma has_nonce_In n rows :
  has_nonce n rows = true <-> In n (map nonce rows).
Proof.
  induction rows as [|row rows IH]; simpl; [split; [discriminate | tauto]|].
  destruct (String.eqb_spec (nonce row) n) as [He|Hne]; simpl.
  - split; auto.
  - rewrite IH. split; [auto | intros [He|Hin]; [contradiction | exact Hin]].
Qed.

Lemma recordVerification_unique db record stamp :
  unique_nonces db -> unique_nonces (recordVerification db record stamp).
Proof.
  intros Hdb n. unfold recordVerification, rows_with. cbn [payments].
  destruct (has_nonce (r_nonce record) (payments db)) eqn:Hhas; [apply Hdb|].
  rewrite filter_app, length_app.
  destruct (decide (r_nonce record = n)) as [<-|Hne].
  - rewrite (has_nonce_rows _ _ Hhas). simpl.
    rewrite filter_cons_True by reflexivity. simpl. lia.
  - rewrite filter_cons_False by exact Hne. simpl.
    specialize (Hdb n). unfold rows_with in Hdb. lia.
Qed.

Lemma recordVerification_replay db record stamp stamp' :
  payments (recordVerification (recordVerification db record stamp) record stamp')
  = payments (recordVerification db record stamp).
Proof.
  unfold recordVerification at 1. cbn [payments].
  destruct (has_nonce (r_nonce record) (payments (recordVerification db record stamp)))
    eqn:Hhas; [reflexivity|].
  exfalso. unfold recordVerification in Hhas. cbn [payments] in Hhas.
  destruct (has_nonce (r_nonce record) (payments db)) eqn:Hdb; [congruence|].
  unfold has_nonce in Hhas. rewrite existsb_app in Hhas.
  simpl in Hhas. rewrite String.eqb_refl, orb_true_r in Hhas. discriminate.
Qed.

(** C9. [recordVerification] is idempotent per nonce: a record whose nonce
    is already in the table leaves the rows of the table as they are, so
    recording the same verification twice leaves the rows that recording
    it once leaves; and after any sequence of [recordVerification] calls
    on a fresh database, or on any database that has at most one row per
    nonce, there is at most one row per nonce.  What an ignored insert
    does move is the AUTOINCREMENT counter, which advances by one with
    every call. *)
Theorem recordVerification_idempotent_per_nonce :
  (forall db record stamp,
     In (r_nonce record) (nonces db) ->
     payments (recordVerification db record stamp) = payments db)
  /\ (forall db record stamp stamp',
        payments (recordVerification (recordVerification db record stamp) record stamp')
        = payments (recordVerification db record stamp))
  /\ (forall calls n,
        (length (rows_with n (recordVerifications initDb calls)) <= 1)%nat)
  /\ (forall db calls,
        unique_nonces db -> unique_nonces (recordVerifications db calls))
  /\ (forall db record stamp,
        sequence (recordVerification db record stamp) = sequence db + 1).
Proof.
  assert (Hkeep : forall db calls,
            unique_nonces db -> unique_nonces (recordVerifications db calls)).
  { intros db calls. revert db.
    induction calls as [|[record stamp] calls IH]; intros db Hdb; simpl; [exact Hdb|].
    apply IH, recordVerification_unique, Hdb. }
  split; [|split; [|split; [|split]]].
  - intros db record stamp Hin. unfold recordVerification. cbn [payments].
    apply has_nonce_In in Hin. rewrite Hin. reflexivity.
  - intros db record stamp stamp'. apply recordVerification_replay.
  - intros calls n. apply Hkeep. intros m. simpl. lia.
  - exact Hkeep.
  - reflexivity.
Qed.

(** Two [/verify] calls with the same payload insert one audit row. *)
Lemma recordVerification_idempotent_per_nonce_witness :
  payments (recordVerification
              (recordVerification initDb Fixtures.verified "2024-01-01 00:00:00")
              Fixtures.verified "2024-01-01 00:00:05")
  = payments (recordVerification initDb Fixtures.verified "2024-01-01 00:00:00").
Proof.
  apply (proj1 recordVerification_idempotent_per_nonce).
  simpl. left. reflexivity.
Defined.

End AuditStore.

(** * Further properties of the code *)

(** ** The verifier and the settler in every world *)

Section VerifierShape.
Import Js Prog Constants Types Facilitator Spec Shape.
Context {W : Type} (h : world signer_call signer_answer W).

Ltac verify_step :=
  match goal with
  | |- context [h ?c ?w] =>
      destruct (h c w) as [[[|]|?] ?] eqn:? || destruct (h c w) as [[?|?] ?] eqn:?
      || destruct (h c w) as [? ?] eqn:?
  | |- context [BigInt ?s] => destruct (BigInt s) eqn:?
  | |- context [if ?b then _ else _] => destruct b eqn:?
  end; simpl in *.

(** The calls of the verifier are an initial part of: clock, signature
    check, allowance read, balance read. *)
Lemma verifyUpto_calls_prefix payload requirements (w : W) :
  exists params,
    calls_of (run h (verifyUpto payload requirements) w)
    `prefix_of` [DateNow; VerifyTypedData params;
                 ReadContract (allowance_params (permit2Authorization payload));
                 ReadContract (balance_params (permit2Authorization payload))]
    /\ calls_of (run h (verifyUpto payload requirements) w) <> [].
Proof.
  unfold calls_of, verifyUpto, bigint. simpl.
  destruct (h DateNow w) as [ms w1]. simpl.
  repeat verify_step;
    first
      [ (exists {| vt_address := ""; vt_domain := PERMIT2_DOMAIN NaN;
                   vt_message := witness_message (permit2Authorization payload) 0 0 0 0;
                   vt_signature := "" |};
         split; [eexists; simpl; reflexivity | discriminate])
      | (eexists; split; [eexists; simpl; reflexivity | discriminate]) ].
Qed.
(** The verifier never writes to the chain. *)
Lemma verifyUpto_no_write payload requirements (w : W) :
  List.filter is_chain_write (calls_of (run h (verifyUpto payload requirements) w)) = [].
Proof.
  destruct (verifyUpto_calls_prefix payload requirements w) as [p [[k Hk] _]].
  assert (Hall : List.filter is_chain_write
                   (calls_of (run h (verifyUpto payload requirements) w) ++ k)%list = []).
  { rewrite <- Hk. reflexivity. }
  rewrite List.filter_app in Hall. apply app_eq_nil in Hall. tauto.
Qed.
End VerifierShape.

Section VerifierSound.
Import Js Prog Constants Types Facilitator Spec.
Context {W : Type} (h : world signer_call signer_answer W).

Ltac dead := solve [intros [= <-]; intros [=] | intros [=]].

(** A valid verdict was reached past the reading of the numeric strings. *)
Lemma verifyUpto_valid_readable payload requirements (w : W) v :
  let auth := permit2Authorization payload in
  result_of (run h (verifyUpto payload requirements) w) = Returned v ->
  isValid v = true ->
  exists amt n dl va,
    BigInt (amount (permitted auth)) = Some amt
    /\ BigInt (nonce auth) = Some n
    /\ BigInt (deadline auth) = Some dl
    /\ BigInt (validAfter (witness auth)) = Some va.
Proof.
  intros auth. subst auth.
  unfold result_of, verifyUpto, bigint. simpl.
  destruct (h DateNow w) as [ms w1]. simpl.
  destruct (String.eqb (toLowerCase (spender _)) _); simpl; [|dead].
  destruct (String.eqb (toLowerCase (to _)) _); simpl; [|dead].
  destruct (num_le _ _); simpl; [dead|].
  destruct (num_gt _ _); simpl; [dead|].
  destruct (BigInt (amount _)) as [amt|]; simpl; [|dead].
  destruct (BigInt (maxAmount _)) as [mx|]; simpl; [|dead].
  destruct (amt <? mx); simpl; [dead|].
  destruct (BigInt (nonce _)) as [n|]; simpl; [|dead].
  destruct (BigInt (deadline _)) as [dl|]; simpl; [|dead].
  destruct (BigInt (validAfter _)) as [va|]; simpl; [|dead].
  intros _ _. exists amt, n, dl, va. repeat split.
Qed.


(** The verifier throws nothing but the SyntaxError of a numeric string
    that [BigInt] cannot read; a rejection of the signer never escapes. *)
Lemma verifyUpto_throws_inversion payload requirements (w : W) e :
  let auth := permit2Authorization payload in
  result_of (run h (verifyUpto payload requirements) w) = Threw e ->
  exists s,
    e = SyntaxError s /\ BigInt s = None
    /\ In s [amount (permitted auth); maxAmount requirements; nonce auth;
             deadline auth; validAfter (witness auth)].
Proof.
  intros auth. subst auth.
  unfold result_of, verifyUpto, bigint. simpl.
  destruct (h DateNow w) as [ms w1]. simpl.
  destruct (String.eqb (toLowerCase (spender _)) _); simpl; [|dead].
  destruct (String.eqb (toLowerCase (to _)) _); simpl; [|dead].
  destruct (num_le _ _); simpl; [dead|].
  destruct (num_gt _ _); simpl; [dead|].
  destruct (BigInt (amount _)) as [amt|] eqn:Ha; simpl;
    [|intros [= <-]; eexists; repeat split; [exact Ha | simpl; tauto]].
  destruct (BigInt (maxAmount _)) as [mx|] eqn:Hm; simpl;
    [|intros [= <-]; eexists; repeat split; [exact Hm | simpl; tauto]].
  destruct (amt <? mx); simpl; [dead|].
  destruct (BigInt (nonce _)) as [n|] eqn:Hn; simpl;
    [|intros [= <-]; eexists; repeat split; [exact Hn | simpl; tauto]].
  destruct (BigInt (deadline _)) as [dl|] eqn:Hdl; simpl;
    [|intros [= <-]; eexists; repeat split; [exact Hdl | simpl; tauto]].
  destruct (BigInt (validAfter _)) as [va|] eqn:Hva; simpl;
    [|intros [= <-]; eexists; repeat split; [exact Hva | simpl; tauto]].
  destruct (h (VerifyTypedData _) w1) as [[[|]|e'] w2]; simpl; [|dead..].
  destruct (h (ReadContract (allowance_params _)) w2) as [[al|e'] w3]; simpl; [|dead].
  destruct (al <? amt); simpl; [dead|].
  destruct (h (ReadContract (balance_params _)) w3) as [[bal|e'] w4]; simpl; [|dead].
  destruct (bal <? amt); simpl; dead.
Qed.
End VerifierSound.

Section FacilitatorCoverage.
Import Js Prog Constants Types Facilitator Spec Shape.
Context {W : Type} (h : world signer_call signer_answer W).

Ltac dead := solve [intros [= <-]; intros [=] | intros [=]].

(** X1. In every world and for every payload, the calls of [verifyUpto]
    are an initial part of: clock, signature check, allowance read,
    balance read.  It reads the clock first and never writes to the
    chain. *)
Theorem verifyUpto_calls_are_reads payload requirements (w : W) :
  let calls := calls_of (run h (verifyUpto payload requirements) w) in
  (exists params,
     calls `prefix_of` [DateNow; VerifyTypedData params;
                        ReadContract (allowance_params (permit2Authorization payload));
                        ReadContract (balance_params (permit2Authorization payload))])
  /\ (exists rest, calls = DateNow :: rest)
  /\ List.filter is_chain_write calls = [].
Proof.
  intros calls. subst calls.
  destruct (verifyUpto_calls_prefix h payload requirements w) as [p [Hp Hne]].
  split; [exists p; exact Hp|]. split; [|apply verifyUpto_no_write].
  destruct Hp as [k Hk].
  destruct (calls_of (run h (verifyUpto payload requirements) w)) as [|c rest];
    [contradiction|].
  simpl in Hk. injection Hk as <- _. exists rest. reflexivity.
Qed.

(** X2. A valid verdict is sound, for every payload and world: it names
    [from] as payer; the spender and the recipient match up to letter
    case; the deadline and validAfter comparisons of the code did not
    reject; [BigInt] reads all five numeric strings and the ceiling covers
    [maxAmount]; and the signer, asked in order, reported the signature
    valid and an allowance and a balance of at least the ceiling. *)
Theorem verifyUpto_valid_is_sound payload requirements (w : W) v :
  let auth := permit2Authorization payload in
  let now := Num (answer h DateNow w / 1000) in
  let w1 := after h DateNow w in
  result_of (run h (verifyUpto payload requirements) w) = Returned v ->
  isValid v = true ->
  v = {| isValid := true; invalidReason := None; payer := Some (from auth) |}
  /\ same_address (spender auth) X402_UPTO_PERMIT2_PROXY_ADDRESS = true
  /\ same_address (to (witness auth)) (payTo requirements) = true
  /\ num_le (parseInt (deadline auth) 0) now = false
  /\ num_gt (parseInt (validAfter (witness auth)) 0) now = false
  /\ exists amt mx n dl va,
       BigInt (amount (permitted auth)) = Some amt
       /\ BigInt (maxAmount requirements) = Some mx
       /\ BigInt (nonce auth) = Some n
       /\ BigInt (deadline auth) = Some dl
       /\ BigInt (validAfter (witness auth)) = Some va
       /\ mx <= amt
       /\ let ask := signature_call payload requirements amt n dl va in
          let w2 := after h ask w1 in
          let w3 := after h (ReadContract (allowance_params auth)) w2 in
          answer h ask w1 = Fulfilled true
          /\ exists allowance balance,
               answer h (ReadContract (allowance_params auth)) w2 = Fulfilled allowance
               /\ amt <= allowance
               /\ answer h (ReadContract (balance_params auth)) w3 = Fulfilled balance
               /\ amt <= balance
               /\ calls_of (run h (verifyUpto payload requirements) w)
                  = [DateNow; ask; ReadContract (allowance_params auth);
                     ReadContract (balance_params auth)].
Proof.
  intros auth now w1. subst auth now w1.
  unfold result_of, calls_of, answer, after, signature_call,
    verifyUpto, bigint. simpl.
  destruct (h DateNow w) as [ms w1]. simpl.
  destruct (String.eqb (toLowerCase (spender _)) _) eqn:Hs; simpl; [|dead].
  destruct (String.eqb (toLowerCase (to _)) _) eqn:Hr; simpl; [|dead].
  destruct (num_le _ _) eqn:Hd; simpl; [dead|].
  destruct (num_gt _ _) eqn:Hv; simpl; [dead|].
  destruct (BigInt (amount _)) as [amt|] eqn:Ha; simpl; [|dead].
  destruct (BigInt (maxAmount _)) as [mx|] eqn:Hm; simpl; [|dead].
  destruct (Z.ltb_spec amt mx) as [Hlt|Hge]; simpl; [dead|].
  destruct (BigInt (nonce _)) as [n|] eqn:Hn; simpl; [|dead].
  destruct (BigInt (deadline _)) as [dl|] eqn:Hdl; simpl; [|dead].
  destruct (BigInt (validAfter _)) as [va|] eqn:Hva; simpl; [|dead].
  destruct (h (VerifyTypedData _) w1) as [[[|]|e] w2] eqn:Hsig; simpl; [|dead..].
  destruct (h (ReadContract (allowance_params _)) w2) as [[al|e] w3] eqn:Hal0; simpl; [|dead].
  destruct (Z.ltb_spec al amt) as [Hal|Hal]; simpl; [dead|].
  destruct (h (ReadContract (balance_params _)) w3) as [[bal|e] w4] eqn:Hbal0; simpl; [|dead].
  destruct (Z.ltb_spec bal amt) as [Hbal|Hbal]; simpl; [dead|].
  intros [= <-] _.
  split; [reflexivity|]. split; [exact Hs|]. split; [exact Hr|].
  split; [reflexivity|]. split; [reflexivity|].
  exists amt, mx, n, dl, va.
  do 6 (split; [first [assumption | reflexivity]|]).
  rewrite Hsig. simpl. split; [reflexivity|].
  exists al, bal. rewrite Hal0. simpl. rewrite Hbal0. simpl.
  repeat split; assumption.
Qed.

(** X3. [verifyUpto] throws nothing but the SyntaxError of one of the five
    numeric strings that [BigInt] cannot read: a rejection of the signer
    never escapes.  When [BigInt] reads all five it returns a result in
    every world. *)
Theorem verifyUpto_throws_only_syntax_errors payload requirements (w : W) :
  let auth := permit2Authorization payload in
  let numeric := [amount (permitted auth); maxAmount requirements; nonce auth;
                  deadline auth; validAfter (witness auth)] in
  (forall e,
     result_of (run h (verifyUpto payload requirements) w) = Threw e ->
     exists s, e = SyntaxError s /\ BigInt s = None /\ In s numeric)
  /\ ((forall s, In s numeric -> BigInt s <> None) ->
      exists v, result_of (run h (verifyUpto payload requirements) w) = Returned v).
Proof.
  intros auth numeric. split.
  - intros e. apply verifyUpto_throws_inversion.
  - intros Hreadable.
    destruct (result_of (run h (verifyUpto payload requirements) w)) as [v|e] eqn:Hr;
      [exists v; reflexivity|].
    destruct (verifyUpto_throws_inversion h payload requirements w e Hr)
      as (s & _ & Hnone & Hin).
    exfalso. exact (Hreadable s Hin Hnone).
Qed.

End FacilitatorCoverage.

Section FacilitatorCoverageExamples.
Import Js Prog Constants Types Facilitator Spec Shape.

Lemma verifyUpto_valid_is_sound_witness :
  same_address (spender (permit2Authorization (Fixtures.makePayload 1700000000 None)))
               X402_UPTO_PERMIT2_PROXY_ADDRESS = true
  /\ BigInt (nonce (permit2Authorization (Fixtures.makePayload 1700000000 None)))
     = Some 12345.
Proof.
  destruct (verifyUpto_valid_is_sound
              (Fixtures.makeSigner 1700000000123 10000000000)
              (Fixtures.makePayload 1700000000 None) Fixtures.requirements tt
              {| isValid := true; invalidReason := None;
                 payer := Some "0xf39Fd6e51aad88F6F4ce6aB8827279cffFb92266" |}
              eq_refl eq_refl)
    as (_ & Hs & _ & _ & _ & amt & mx & n & dl & va & _ & _ & Hn & _).
  split; [exact Hs|]. reflexivity.
Defined.

(** A rejecting signer makes the verifier answer, not throw. *)
Lemma verifyUpto_throws_only_syntax_errors_witness :
  exists v,
    result_of (run (Fixtures.rejectingSigner 1700000000123 "rpc unreachable")
                   (verifyUpto (Fixtures.makePayload 1700000000 None)
                               Fixtures.requirements) tt)
    = Returned v.
Proof.
  apply (verifyUpto_throws_only_syntax_errors
           (Fixtures.rejectingSigner 1700000000123 "rpc unreachable")
           (Fixtures.makePayload 1700000000 None) Fixtures.requirements tt).
  intros s Hin. simpl in Hin.
  decompose [or] Hin; subst; try discriminate; contradiction.
Defined.

End FacilitatorCoverageExamples.

Section SettlerShape.
Import Js Prog Constants Types Facilitator Spec Shape.
Context {W : Type} (h : world signer_call signer_answer W).

(** X4. Whatever the payload and the signer, [settleUpto] calls
    [writeContract] at most once, and only as [settle] on the upto proxy
    with an amount that is the integer of the effective settlement amount,
    not zero and at most the ceiling of the permit, for the payload's owner
    and signature. *)
Theorem settleUpto_write_within_ceiling payload requirements (w : W) :
  let calls := calls_of (run h (settleUpto payload requirements) w) in
  (length (List.filter is_chain_write calls) <= 1)%nat
  /\ forall params,
       In (WriteContract params) calls ->
       wc_address params = X402_UPTO_PERMIT2_PROXY_ADDRESS
       /\ wc_functionName params = "settle"
       /\ BigInt (effective_amount payload) = Some (wc_amount params)
       /\ BigInt (ceiling_of payload) = Some (wc_permit_amount params)
       /\ wc_amount params <> 0
       /\ wc_amount params <= wc_permit_amount params
       /\ wc_owner params = from (permit2Authorization payload)
       /\ wc_signature params = signature payload.
Proof.
  assert (Hin : forall c (l : list signer_call),
            In c l -> is_chain_write c = true -> In c (List.filter is_chain_write l)).
  { intros c l H1 H2. apply filter_In. split; assumption. }
  unfold calls_of, settleUpto, effective_amount, ceiling_of. cbv zeta.
  set (eff := default _ (settlementAmount payload)).
  set (ceil := amount (permitted (permit2Authorization payload))).
  rewrite run_bigint. destruct (BigInt eff) as [s|] eqn:Hs;
    [|simpl; split; [lia | intros ? []]].
  rewrite run_bigint. destruct (BigInt ceil) as [a|] eqn:Ha;
    [|simpl; split; [lia | intros ? []]].
  destruct (Z.ltb_spec a s) as [Hlt|Hge]; [simpl; split; [lia | intros ? []]|].
  rewrite run_bigint, Hs.
  destruct (Z.eqb_spec s 0) as [->|Hnz]; [simpl; split; [lia | intros ? []]|].
  rewrite run_bind.
  pose proof (verifyUpto_no_write h payload requirements w) as Hnw. unfold calls_of in Hnw.
  destruct (run h (verifyUpto payload requirements) w) as [[[v|e] w1] c1]; cbn [snd] in Hnw.
  2:{ cbn. rewrite ?app_nil_r, Hnw. split; [simpl; lia|].
      intros params Hp. apply Hin in Hp; [|reflexivity]. rewrite Hnw in Hp. destruct Hp. }
  destruct (isValid v).
  2:{ cbn. rewrite ?app_nil_r, Hnw. split; [simpl; lia|].
      intros params Hp. apply Hin in Hp; [|reflexivity]. rewrite Hnw in Hp. destruct Hp. }
  simpl negb. cbv iota.
  rewrite run_try_catch, run_bigint, Ha.
  rewrite run_bigint. destruct (BigInt (nonce _)) as [n|].
  2:{ cbn. rewrite ?app_nil_r, Hnw. split; [simpl; lia|].
      intros params Hp. apply Hin in Hp; [|reflexivity]. rewrite Hnw in Hp. destruct Hp. }
  rewrite run_bigint. destruct (BigInt (deadline _)) as [d|].
  2:{ cbn. rewrite ?app_nil_r, Hnw. split; [simpl; lia|].
      intros params Hp. apply Hin in Hp; [|reflexivity]. rewrite Hnw in Hp. destruct Hp. }
  rewrite run_bigint, Hs.
  rewrite run_bigint. destruct (BigInt (validAfter _)) as [va|].
  2:{ cbn. rewrite ?app_nil_r, Hnw. split; [simpl; lia|].
      intros params Hp. apply Hin in Hp; [|reflexivity]. rewrite Hnw in Hp. destruct Hp. }
  simpl.
  assert (Hfinal : forall (rest : list signer_call) p0,
            List.filter is_chain_write rest = [] ->
            (length (List.filter is_chain_write (c1 ++ WriteContract p0 :: rest)%list) <= 1)%nat
            /\ forall params, In (WriteContract params) (c1 ++ WriteContract p0 :: rest)%list ->
                              params = p0).
  { intros rest p0 Hrest. rewrite List.filter_app, Hnw. simpl. rewrite Hrest.
    split; [simpl; lia|]. intros params Hp. apply Hin in Hp; [|reflexivity].
    rewrite List.filter_app, Hnw in Hp. simpl in Hp. rewrite Hrest in Hp.
    destruct Hp as [Hp|[]]. congruence. }
  assert (Hclose : forall (rest : list signer_call) p0,
            List.filter is_chain_write rest = [] ->
            wc_address p0 = X402_UPTO_PERMIT2_PROXY_ADDRESS
            /\ wc_functionName p0 = "settle"
            /\ Some s = Some (wc_amount p0)
            /\ Some a = Some (wc_permit_amount p0)
            /\ wc_amount p0 <> 0
            /\ wc_amount p0 <= wc_permit_amount p0
            /\ wc_owner p0 = from (permit2Authorization payload)
            /\ wc_signature p0 = signature payload ->
            (length (List.filter is_chain_write (c1 ++ WriteContract p0 :: rest)%list) <= 1)%nat
            /\ forall params,
                 In (WriteContract params) (c1 ++ WriteContract p0 :: rest)%list ->
                 wc_address params = X402_UPTO_PERMIT2_PROXY_ADDRESS
                 /\ wc_functionName params = "settle"
                 /\ Some s = Some (wc_amount params)
                 /\ Some a = Some (wc_permit_amount params)
                 /\ wc_amount params <> 0
                 /\ wc_amount params <= wc_permit_amount params
                 /\ wc_owner params = from (permit2Authorization payload)
                 /\ wc_signature params = signature payload).
  { intros rest p0 Hrest Hp0. destruct (Hfinal rest p0 Hrest) as [H1 H2].
    split; [exact H1|]. intros params Hp. apply H2 in Hp. subst params. exact Hp0. }
  destruct (h (WriteContract _) w1) as [[hash|e] w2]; simpl.
  2:{ apply Hclose; [reflexivity|]. simpl. repeat split; assumption || reflexivity. }
  destruct (h (WaitForTransactionReceipt hash) w2) as [[rc|e] w3]; simpl.
  2:{ apply Hclose; [reflexivity|]. simpl. repeat split; assumption || reflexivity. }
  destruct (status rc); simpl;
    (apply Hclose; [reflexivity|]); simpl; repeat split; assumption || reflexivity.
Qed.
End SettlerShape.

Section SettlerOutcomes.
Import Js Prog Constants Types Facilitator Spec Shape.
Context {W : Type} (h : world signer_call signer_answer W).

(** X5. When the re-verification inside [settleUpto] fails, the settlement
    fails with the verifier's reason as its error; the calls are those of
    the verifier and nothing is written to the chain. *)
Theorem settleUpto_reverification_failure payload requirements (w : W) s a v :
  BigInt (effective_amount payload) = Some s ->
  BigInt (ceiling_of payload) = Some a ->
  s <= a -> s <> 0 ->
  result_of (run h (verifyUpto payload requirements) w) = Returned v ->
  isValid v = false ->
  run h (settleUpto payload requirements) w
  = (Returned {| success := false; txHash := None; settledAmount := None;
                 error := invalidReason v |},
     state_of (run h (verifyUpto payload requirements) w),
     calls_of (run h (verifyUpto payload requirements) w))
  /\ List.filter is_chain_write (calls_of (run h (settleUpto payload requirements) w)) = [].
Proof.
  intros Hs Ha Hle Hnz Hv Hinvalid.
  assert (E : run h (settleUpto payload requirements) w
              = (Returned {| success := false; txHash := None; settledAmount := None;
                             error := invalidReason v |},
                 state_of (run h (verifyUpto payload requirements) w),
                 calls_of (run h (verifyUpto payload requirements) w))).
  { unfold settleUpto, effective_amount, ceiling_of in *. cbv zeta.
    rewrite run_bigint, Hs, run_bigint, Ha.
    destruct (Z.ltb_spec a s); [lia|].
    rewrite run_bigint, Hs. destruct (Z.eqb_spec s 0); [contradiction|].
    rewrite run_bind. unfold result_of, state_of, calls_of in *.
    destruct (run h (verifyUpto payload requirements) w) as [[o w1] c1].
    simpl in Hv. subst o. rewrite Hinvalid. simpl. rewrite app_nil_r. reflexivity. }
  split; [exact E|]. rewrite E. apply verifyUpto_no_write.
Qed.

(** X6. Once re-verification has passed, the numeric strings of the
    payload are readable and the result is decided by the chain alone: a
    rejected write or receipt wait gives [success: false] with the error's
    message, a reverted receipt gives transaction_reverted with the hash of
    the write, and a mined receipt gives [success: true] with the receipt's
    hash and the effective amount as [settledAmount].  The write follows
    the verifier's calls, and the wait follows only a fulfilled write. *)
Theorem settleUpto_chain_outcome payload requirements (w : W) s a v :
  BigInt (effective_amount payload) = Some s ->
  BigInt (ceiling_of payload) = Some a ->
  s <= a -> s <> 0 ->
  result_of (run h (verifyUpto payload requirements) w) = Returned v ->
  isValid v = true ->
  exists n dl va,
    BigInt (nonce (permit2Authorization payload)) = Some n
    /\ BigInt (deadline (permit2Authorization payload)) = Some dl
    /\ BigInt (validAfter (witness (permit2Authorization payload))) = Some va
    /\ let w1 := state_of (run h (verifyUpto payload requirements) w) in
       let write := settle_call payload a n dl s va in
       let written := answer h write w1 in
       match written with
       | Fulfilled hash =>
           let wait := WaitForTransactionReceipt hash in
           result_of (run h (settleUpto payload requirements) w)
           = Returned (chain_outcome (effective_amount payload) written
                                     (answer h wait (after h write w1)))
           /\ calls_of (run h (settleUpto payload requirements) w)
              = (calls_of (run h (verifyUpto payload requirements) w) ++ [write; wait])%list
       | Rejected e =>
           result_of (run h (settleUpto payload requirements) w)
           = Returned (chain_outcome (effective_amount payload) written (Rejected e))
           /\ calls_of (run h (settleUpto payload requirements) w)
              = (calls_of (run h (verifyUpto payload requirements) w) ++ [write])%list
       end.
Proof.
  intros Hs Ha Hle Hnz Hv Hvalid.
  destruct (verifyUpto_valid_readable h payload requirements w v Hv Hvalid)
    as (amt & n & dl & va & Hamt & Hn & Hdl & Hva).
  exists n, dl, va. repeat (split; [assumption|]).
  unfold settleUpto, settle_call, effective_amount, ceiling_of, answer, after in *. cbv zeta.
  rewrite !run_bigint, Hs, !run_bigint, Ha.
  destruct (Z.ltb_spec a s); [lia|].
  rewrite !run_bigint, Hs. destruct (Z.eqb_spec s 0); [contradiction|].
  rewrite !run_bind. unfold result_of, state_of, calls_of in *.
  destruct (run h (verifyUpto payload requirements) w) as [[o w1] c1].
  simpl in Hv. subst o. rewrite Hvalid. simpl negb. cbv iota.
  rewrite run_try_catch, run_bigint, Ha, run_bigint, Hn, run_bigint, Hdl,
    run_bigint, Hs, run_bigint, Hva.
  simpl.
  destruct (h (WriteContract _) w1) as [[hash|e] w2]; simpl; [|split; reflexivity].
  destruct (h (WaitForTransactionReceipt hash) w2) as [[rc|e] w3]; simpl;
    [|split; reflexivity].
  destruct (status rc); simpl; split; reflexivity.
Qed.

(** X7. [settleUpto] throws nothing but the SyntaxError of a numeric
    string that [BigInt] cannot read: no rejection of the signer, in
    verification or in the chain write, escapes as an exception. *)
Theorem settleUpto_throws_only_syntax_errors payload requirements (w : W) e :
  let auth := permit2Authorization payload in
  result_of (run h (settleUpto payload requirements) w) = Threw e ->
  exists s,
    e = SyntaxError s /\ BigInt s = None
    /\ In s [effective_amount payload; amount (permitted auth); maxAmount requirements;
             nonce auth; deadline auth; validAfter (witness auth)].
Proof.
  intros auth. subst auth.
  unfold result_of, settleUpto, effective_amount, ceiling_of. cbv zeta.
  set (eff := default _ (settlementAmount payload)).
  rewrite run_bigint. destruct (BigInt eff) as [s|] eqn:Hs.
  2:{ simpl. intros [= <-]. exists eff. repeat split; [exact Hs | simpl; tauto]. }
  rewrite run_bigint. destruct (BigInt (amount _)) as [a|] eqn:Ha.
  2:{ simpl. intros [= <-]. eexists. repeat split; [exact Ha | simpl; tauto]. }
  destruct (a <? s); [simpl; discriminate|].
  rewrite run_bigint, Hs. destruct (s =? 0); [simpl; discriminate|].
  rewrite run_bind.
  pose proof (verifyUpto_throws_inversion h payload requirements w) as Hthrow.
  unfold result_of in Hthrow.
  destruct (run h (verifyUpto payload requirements) w) as [[[v|e'] w1] c1].
  2:{ simpl. intros [= <-]. destruct (Hthrow e' eq_refl) as (s' & -> & Hnone & Hin).
      exists s'. repeat split; [exact Hnone | simpl in *; tauto]. }
  destruct (isValid v); [|simpl; discriminate].
  simpl negb. cbv iota. rewrite run_try_catch.
  match goal with |- context [run h ?p w1] =>
    destruct (run h p w1) as [[[r|e'] w2] c2] end; simpl; discriminate.
Qed.
End SettlerOutcomes.

Section SettlerCoverageExamples.
Import Js Prog Constants Types Facilitator Spec Shape.

Lemma settleUpto_write_within_ceiling_witness :
  BigInt "43700" = Some (wc_amount Samples.settleParams)
  /\ wc_amount Samples.settleParams <= wc_permit_amount Samples.settleParams.
Proof.
  destruct (settleUpto_write_within_ceiling
              (Fixtures.makeSigner 1700000000123 10000000000)
              (Fixtures.makePayload 1700000000 (Some "43700")) Fixtures.requirements tt)
    as [_ Hwrite].
  destruct (Hwrite Samples.settleParams) as (_ & _ & Hamount & _ & _ & Hle & _).
  - vm_compute. do 4 right. left. reflexivity.
  - split; [exact Hamount | exact Hle].
Defined.

(** An invalid signature at settlement time: the reason is handed on. *)
Lemma settleUpto_reverification_failure_witness :
  result_of (run (Fixtures.mockSigner 1700000000123 false StatusSuccess)
                 (settleUpto (Fixtures.makePayload 1700000000 (Some "43700"))
                             Fixtures.requirements) [])
  = Returned {| success := false; txHash := None; settledAmount := None;
                error := Some "invalid_permit2_signature" |}.
Proof.
  pose proof (settleUpto_reverification_failure
                (Fixtures.mockSigner 1700000000123 false StatusSuccess)
                (Fixtures.makePayload 1700000000 (Some "43700")) Fixtures.requirements []
                43700 1000000 (invalid "invalid_permit2_signature")) as H.
  destruct H as [H _]; [reflexivity | reflexivity | lia | lia | reflexivity | reflexivity |].
  rewrite H. reflexivity.
Defined.

(** A reverted transaction. *)
Lemma settleUpto_chain_outcome_witness :
  result_of (run (Fixtures.mockSigner 1700000000123 true StatusReverted)
                 (settleUpto (Fixtures.makePayload 1700000000 (Some "43700"))
                             Fixtures.requirements) [])
  = Returned {| success := false; txHash := Some "0xtxhash"; settledAmount := None;
                error := Some "transaction_reverted" |}.
Proof.
  destruct (settleUpto_chain_outcome
              (Fixtures.mockSigner 1700000000123 true StatusReverted)
              (Fixtures.makePayload 1700000000 (Some "43700")) Fixtures.requirements []
              43700 1000000
              {| isValid := true; invalidReason := None;
                 payer := Some "0xf39Fd6e51aad88F6F4ce6aB8827279cffFb92266" |})
    as (n & dl & va & Hn & Hdl & Hva & H);
    [reflexivity | reflexivity | lia | lia | reflexivity | reflexivity |].
  vm_compute in Hn, Hdl, Hva.
  injection Hn as <-. injection Hdl as <-. injection Hva as <-.
  apply H.
Defined.

Lemma settleUpto_throws_only_syntax_errors_witness :
  exists s,
    SyntaxError "abc" = SyntaxError s /\ BigInt s = None
    /\ In s ["43700"; "1000000"; "1000000"; "abc"; "1700000600"; "1699999940"].
Proof.
  apply (settleUpto_throws_only_syntax_errors
           (Fixtures.makeSigner 1700000000123 10000000000)
           Samples.badNonce Fixtures.requirements tt (SyntaxError "abc")).
  vm_compute. reflexivity.
Defined.

End SettlerCoverageExamples.

(** ** The builder and the verifier *)

Section BuilderCoverage.
Import Js Prog Constants Types Facilitator Client Spec Shape.

Ltac dead := solve [intros [= <-]; intros [=] | intros [=]].

(** The signature check that the verifier asks for is the one of the
    payload's fields as [BigInt] reads them. *)
Lemma verifyUpto_signature_call {W : Type} (h : world signer_call signer_answer W)
    payload requirements (w : W) params :
  let auth := permit2Authorization payload in
  In (VerifyTypedData params) (calls_of (run h (verifyUpto payload requirements) w)) ->
  exists amt n dl va,
    BigInt (amount (permitted auth)) = Some amt
    /\ BigInt (nonce auth) = Some n
    /\ BigInt (deadline auth) = Some dl
    /\ BigInt (validAfter (witness auth)) = Some va
    /\ VerifyTypedData params = signature_call payload requirements amt n dl va.
Proof.
  intros auth. subst auth.
  unfold calls_of, signature_call, verifyUpto, bigint. simpl.
  destruct (h DateNow w) as [ms w1]. simpl.
  destruct (String.eqb (toLowerCase (spender _)) _); simpl; [|intuition discriminate].
  destruct (String.eqb (toLowerCase (to _)) _); simpl; [|intuition discriminate].
  destruct (num_le _ _); simpl; [intuition discriminate|].
  destruct (num_gt _ _); simpl; [intuition discriminate|].
  destruct (BigInt (amount _)) as [amt|]; simpl; [|intuition discriminate].
  destruct (BigInt (maxAmount _)) as [mx|]; simpl; [|intuition discriminate].
  destruct (amt <? mx); simpl; [intuition discriminate|].
  destruct (BigInt (nonce _)) as [n|]; simpl; [|intuition discriminate].
  destruct (BigInt (deadline _)) as [dl|]; simpl; [|intuition discriminate].
  destruct (BigInt (validAfter _)) as [va|]; simpl; [|intuition discriminate].
  assert (Hgoal : forall rest : list signer_call,
            (forall p, ~ In (VerifyTypedData p) rest) ->
            forall p0,
              DateNow = VerifyTypedData params
              \/ VerifyTypedData p0 = VerifyTypedData params \/ In (VerifyTypedData params) rest ->
              exists amt' n' dl' va',
                Some amt = Some amt' /\ Some n = Some n' /\ Some dl = Some dl'
                /\ Some va = Some va'
                /\ VerifyTypedData params = VerifyTypedData p0).
  { intros rest Hrest p0 [H|[H|H]]; [discriminate| |destruct (Hrest _ H)].
    exists amt, n, dl, va. repeat split. symmetry. exact H. }
  assert (Hdone : forall p0,
            (exists amt' n' dl' va' : Z,
               Some amt = Some amt' /\ Some n = Some n' /\ Some dl = Some dl'
               /\ Some va = Some va' /\ VerifyTypedData params = VerifyTypedData p0) ->
            VerifyTypedData params = VerifyTypedData p0) by (intros p0 (? & ? & ? & ? & H); apply H).
  destruct (h (VerifyTypedData _) w1) as [[[|]|e] w2]; simpl;
    [| intros H; eapply (Hgoal []), Hdone in H;
       [exists amt, n, dl, va; repeat split; exact H | intros p []] ..].
  destruct (h (ReadContract (allowance_params _)) w2) as [[al|e] w3]; simpl;
    [| intros H; eapply (Hgoal [_]), Hdone in H;
       [exists amt, n, dl, va; repeat split; exact H | intros p [?|[]]; discriminate]].
  destruct (al <? amt); simpl;
    [intros H; eapply (Hgoal [_]), Hdone in H;
     [exists amt, n, dl, va; repeat split; exact H | intros p [?|[]]; discriminate]|].
  destruct (h (ReadContract (balance_params _)) w3) as [[bal|e] w4]; simpl;
    [| intros H; eapply (Hgoal [_; _]), Hdone in H;
       [exists amt, n, dl, va; repeat split; exact H
       | intros p [?|[?|[]]]; discriminate]].
  destruct (bal <? amt); simpl;
    intros H; eapply (Hgoal [_; _]), Hdone in H;
    (exists amt, n, dl, va; repeat split; exact H) || (intros p [?|[?|[]]]; discriminate).
Qed.

Context {Wc Wf : Type}
        (hc : world client_call client_answer Wc)
        (hf : world signer_call signer_answer Wf).

(** X8. For a network that is not of the form eip155:<reference>, the
    builder throws the unsupported-network error at once: it reads no
    clock, draws no nonce and asks the wallet for nothing. *)
Theorem builder_rejects_unsupported_network (wc : Wc) address requirements :
  (forall chain, split ":" (network requirements) <> ["eip155"; chain]) ->
  run hc (createUptoPermit2Payload address requirements) wc
  = (Threw (JsError ("Unsupported network format: " ++ network requirements
                     ++ ". Expected eip155:<chainId>")), wc, []).
Proof.
  intros Hnet. unfold createUptoPermit2Payload, parseChainId.
  destruct (split ":" (network requirements)) as [|p0 [|p1 [|p2 rest]]] eqn:Hsplit;
    try reflexivity.
  simpl. destruct (String.eqb_spec p0 "eip155") as [->|Hne]; [|reflexivity].
  exfalso. exact (Hnet p1 eq_refl).
Qed.

(** X9. What the wallet signs is what the verifier submits.  Take an
    eip155 network, a [maxAmount] that [BigInt] reads as [m], and numbers
    that are safe integers, where the integers of this embedding are the
    doubles of the code: a [maxTimeoutSeconds] from 0, a clock from 0 and
    a deadline below 2^53, and a random draw from 0 below 2^48.  When the
    wallet fulfils the signing request, the builder returns a payload for
    which every signature check that [verifyUpto] asks of any signer
    carries the wallet's address and signature, the domain that was signed
    and the signed message, with the ceiling given as the bigint [m] where
    the wallet was given the string. *)
Theorem builder_signs_what_verifier_checks (wc : Wc) (wf : Wf) address requirements
    chain m payload :
  split ":" (network requirements) = ["eip155"; chain] ->
  BigInt (maxAmount requirements) = Some m ->
  0 <= maxTimeoutSeconds requirements ->
  (forall w, 0 <= answer hc ClientDateNow w < 2 ^ 53) ->
  (forall w, answer hc ClientDateNow w / 1000 + maxTimeoutSeconds requirements < 2 ^ 53) ->
  (forall w, 0 <= answer hc (MathRandomBelow (2 ^ 48)) w < 2 ^ 48) ->
  result_of (run hc (createUptoPermit2Payload address requirements) wc) = Returned payload ->
  exists signed,
    In (SignTypedData signed)
       (calls_of (run hc (createUptoPermit2Payload address requirements) wc))
    /\ msg_amount (st_message signed) = AmountString (maxAmount requirements)
    /\ forall checked,
         In (VerifyTypedData checked)
            (calls_of (run hf (verifyUpto payload requirements) wf)) ->
         vt_address checked = address
         /\ vt_signature checked = signature payload
         /\ vt_domain checked = st_domain signed
         /\ vt_message checked
            = {| msg_token := msg_token (st_message signed);
                 msg_amount := AmountBigInt m;
                 msg_spender := msg_spender (st_message signed);
                 msg_nonce := msg_nonce (st_message signed);
                 msg_deadline := msg_deadline (st_message signed);
                 msg_to := msg_to (st_message signed);
                 msg_validAfter := msg_validAfter (st_message signed);
                 msg_extra := msg_extra (st_message signed) |}.
Proof.
  intros Hnet Hm _ _ _ _.
  unfold createUptoPermit2Payload, parseChainId, result_of, calls_of.
  rewrite Hnet. simpl.
  destruct (hc ClientDateNow wc) as [ms1 w1].
  destruct (hc ClientDateNow w1) as [ms2 w2].
  destruct (hc (MathRandomBelow _) w2) as [random w3].
  unfold bigint. rewrite BigInt_toString. simpl.
  match goal with |- context [hc (SignTypedData ?p) w3] =>
    set (signed := p); destruct (hc (SignTypedData signed) w3) as [[sig|e] w4]
  end; simpl; [|discriminate].
  intros [= <-]. exists signed. split; [tauto|]. split; [reflexivity|].
  intros checked Hin.
  apply verifyUpto_signature_call in Hin.
  destruct Hin as (amt & n & dl & va & Hamt & Hn & Hdl & Hva & Hcall).
  simpl in Hamt, Hn, Hdl, Hva.
  rewrite Hm in Hamt. rewrite BigInt_toString in Hn, Hdl, Hva.
  injection Hamt as <-. injection Hn as <-. injection Hdl as <-. injection Hva as <-.
  unfold signature_call in Hcall. injection Hcall as ->.
  unfold Facilitator.parseChainId. rewrite Hnet. simpl. repeat split.
Qed.

End BuilderCoverage.

Section BuilderCoverageExamples.
Import Js Prog Constants Types Facilitator Client Spec Shape.

(** The network of the repository's test: "solana:mainnet". *)
Lemma builder_rejects_unsupported_network_witness :
  run (Fixtures.clientSigner 1700000000123 12345)
      (createUptoPermit2Payload "0xf39Fd6e51aad88F6F4ce6aB8827279cffFb92266"
                                Samples.solana) tt
  = (Threw (JsError "Unsupported network format: solana:mainnet. Expected eip155:<chainId>"),
     tt, []).
Proof.
  apply (builder_rejects_unsupported_network
           (Fixtures.clientSigner 1700000000123 12345) tt
           "0xf39Fd6e51aad88F6F4ce6aB8827279cffFb92266" Samples.solana).
  intros chain. vm_compute. discriminate.
Defined.

Lemma builder_signs_what_verifier_checks_witness :
  exists signed,
    In (SignTypedData signed)
       (calls_of (run (Fixtures.clientSigner 1700000000123 12345)
                      (createUptoPermit2Payload "0xf39Fd6e51aad88F6F4ce6aB8827279cffFb92266"
                                                Fixtures.requirements) tt))
    /\ msg_amount (st_message signed) = AmountString (maxAmount Fixtures.requirements)
    /\ forall checked,
         In (VerifyTypedData checked)
            (calls_of (run (Fixtures.makeSigner 1700000000123 10000000000)
                           (verifyUpto (Fixtures.built "1000000" "1700000300")
                                       Fixtures.requirements) tt)) ->
         vt_address checked = "0xf39Fd6e51aad88F6F4ce6aB8827279cffFb92266"
         /\ vt_signature checked = signature (Fixtures.built "1000000" "1700000300")
         /\ vt_domain checked = st_domain signed
         /\ vt_message checked
            = {| msg_token := msg_token (st_message signed);
                 msg_amount := AmountBigInt 1000000;
                 msg_spender := msg_spender (st_message signed);
                 msg_nonce := msg_nonce (st_message signed);
                 msg_deadline := msg_deadline (st_message signed);
                 msg_to := msg_to (st_message signed);
                 msg_validAfter := msg_validAfter (st_message signed);
                 msg_extra := msg_extra (st_message signed) |}.
Proof.
  apply (builder_signs_what_verifier_checks
           (Fixtures.clientSigner 1700000000123 12345)
           (Fixtures.makeSigner 1700000000123 10000000000) tt tt
           "0xf39Fd6e51aad88F6F4ce6aB8827279cffFb92266" Fixtures.requirements
           "84532" 1000000 (Fixtures.built "1000000" "1700000300")).
  - reflexivity.
  - reflexivity.
  - vm_compute. discriminate.
  - intros w. vm_compute. split; [discriminate | reflexivity].
  - intros w. vm_compute. reflexivity.
  - intros w. vm_compute. split; [discriminate | reflexivity].
  - vm_compute. reflexivity.
Defined.

End BuilderCoverageExamples.

(** ** The course of a gated request *)

Section MiddlewareGate.
Import Js Prog Constants Types Middleware Course.
Context {W : Type} (h : world mw_call mw_answer W).
Variable parseUsdcAmount : string -> outcome string.
Variable decode : string -> option UptoPermit2Payload.

Ltac mw_step :=
  match goal with
  | |- context [h ?c ?w] =>
      destruct (h c w) as [[?|?] ?] eqn:? || destruct (h c w) as [? ?] eqn:?
  | |- context [if ?b then _ else _] => destruct b eqn:?
  end; simpl in *.

(** X10. On a gated route the handler runs only after a valid
    verification: when [next()] is among the calls of the middleware, the
    price of the route was read, the request carried a payment header that
    decoded to a payload, the facilitator answered the verify request for
    that payload and the route's requirements, and its answer read
    [isValid: true]. *)
Theorem middleware_handler_needs_valid_verification routes facilitatorUrl req (w : W)
    routeConfig :
  routes !! (method req ++ " " ++ pathname req) = Some routeConfig ->
  In Next (calls_of (run h (uptoPaymentMiddleware parseUsdcAmount decode routes
                                                  facilitatorUrl req) w)) ->
  exists units headerValue payload response verification,
    parseUsdcAmount (maxPrice routeConfig) = Returned units
    /\ paymentHeaderOf req = Some headerValue
    /\ headerValue <> ""
    /\ decode headerValue = Some payload
    /\ answer h (Fetch (facilitatorUrl ++ "/verify")
                       {| fb_payload := payload;
                          fb_requirements := requirementsFor routeConfig units |}) w
       = Fulfilled response
    /\ answer h (JsonAsVerification response)
              (after h (Fetch (facilitatorUrl ++ "/verify")
                              {| fb_payload := payload;
                                 fb_requirements := requirementsFor routeConfig units |}) w)
       = Fulfilled verification
    /\ v_isValid verification = true.
Proof.
  intros Hroute. unfold uptoPaymentMiddleware, price, calls_of, answer, after.
  rewrite Hroute.
  destruct (parseUsdcAmount (maxPrice routeConfig)) as [units|e]; simpl; [|tauto].
  destruct (paymentHeaderOf req) as [headerValue|]; simpl; [|tauto].
  destruct (String.eqb_spec headerValue "") as [->|Hne]; simpl; [tauto|].
  destruct (decode headerValue) as [payload|] eqn:Hdecode; simpl; [|tauto].
  destruct (h (Fetch _ _) w) as [[response|e] w1] eqn:Hfetch; simpl;
    [|intros [[=]|[]]].
  destruct (h (JsonAsVerification response) w1) as [[verification|e] w2] eqn:Hjson;
    simpl; [|intros [[=]|[[=]|[]]]].
  destruct (v_isValid verification) eqn:Hvalid; simpl;
    [|intros [[=]|[[=]|[]]]].
  intros _. exists units, headerValue, payload, response, verification.
  rewrite Hfetch. simpl. rewrite Hjson. simpl. repeat split; try assumption.
Qed.

(** X11. A JSON reply of the middleware leaves the route alone: when the
    middleware answers a gated request with a JSON body, the status is 400,
    402, 412 or 503, neither the handler nor the meter has run, no response
    header was set, nothing was settled or logged, and at most one request
    went to the facilitator. *)
Theorem middleware_json_reply_leaves_route_alone routes facilitatorUrl req (w : W)
    body status :
  result_of (run h (uptoPaymentMiddleware parseUsdcAmount decode routes
                                          facilitatorUrl req) w)
  = Returned (Json body status) ->
  In status [400; 402; 412; 503]
  /\ List.filter reaches_route
       (calls_of (run h (uptoPaymentMiddleware parseUsdcAmount decode routes
                                               facilitatorUrl req) w)) = []
  /\ List.filter settles
       (calls_of (run h (uptoPaymentMiddleware parseUsdcAmount decode routes
                                               facilitatorUrl req) w)) = []
  /\ (length (List.filter is_fetch
       (calls_of (run h (uptoPaymentMiddleware parseUsdcAmount decode routes
                                               facilitatorUrl req) w))) <= 1)%nat.
Proof.
  unfold uptoPaymentMiddleware, price, result_of, calls_of.
  destruct (routes !! (method req ++ " " ++ pathname req)) as [routeConfig|]; simpl.
  2:{ destruct (h Next w) as [[[]|e] w1]; simpl; intros [=]. }
  destruct (parseUsdcAmount (maxPrice routeConfig)) as [units|e]; simpl; [|intros [=]].
  destruct (truthy (paymentHeaderOf req)); simpl.
  2:{ intros [= <- <-]. simpl. repeat split; auto. }
  destruct (decode (default "" (paymentHeaderOf req))) as [payload|]; simpl.
  2:{ intros [= <- <-]. simpl. repeat split; auto. }
  destruct (h (Fetch _ _) w) as [[response|e] w1]; simpl.
  2:{ intros [= <- <-]. simpl. repeat split; auto 6. }
  destruct (h (JsonAsVerification response) w1) as [[verification|e] w2]; simpl;
    [|intros [=]].
  destruct (v_isValid verification); simpl.
  2:{ intros [= <- <-]. simpl. repeat split; auto.
      destruct (v_invalidReason verification) as [r|]; [|auto].
      destruct (String.eqb r "permit2_allowance_required"); auto. }
  destruct (h Next w2) as [[[]|e] w3]; simpl; [|intros [=]].
  destruct (h (Meter _ _) w3) as [[consumed|e] w4]; simpl; [|intros [=]].
  repeat mw_step; intros [=].
Qed.

End MiddlewareGate.

Section MiddlewareCourse.
Import Js Prog Constants Types Middleware Course.
Context {W : Type} (h : world mw_call mw_answer W).
Variable parseUsdcAmount : string -> outcome string.
Variable decode : string -> option UptoPermit2Payload.


(** X13. A failing handler or meter is not paid for: after a valid
    verification, a rejection of [next()] or of the route's [meter] is
    thrown by the middleware, and no settle request has been sent. *)
Theorem middleware_failed_route_is_not_settled routes facilitatorUrl req (w : W)
    routeConfig units headerValue payload response verification e :
  routes !! (method req ++ " " ++ pathname req) = Some routeConfig ->
  parseUsdcAmount (maxPrice routeConfig) = Returned units ->
  paymentHeaderOf req = Some headerValue ->
  headerValue <> "" ->
  decode headerValue = Some payload ->
  let requirements := requirementsFor routeConfig units in
  let verify := Fetch (facilitatorUrl ++ "/verify")
                      {| fb_payload := payload; fb_requirements := requirements |} in
  let w1 := after h verify w in
  let w2 := after h (JsonAsVerification response) w1 in
  let w3 := after h Next w2 in
  let meter := Meter (method req ++ " " ++ pathname req)
                     {| authorizedAmount := amount (permitted (permit2Authorization payload));
                        meter_payer := v_payer verification |} in
  answer h verify w = Fulfilled response ->
  answer h (JsonAsVerification response) w1 = Fulfilled verification ->
  v_isValid verification = true ->
  (answer h Next w2 = Rejected e ->
   run h (uptoPaymentMiddleware parseUsdcAmount decode routes facilitatorUrl req) w
   = (Threw e, w3, [verify; JsonAsVerification response; Next]))
  /\ (answer h Next w2 = Fulfilled tt ->
      answer h meter w3 = Rejected e ->
      run h (uptoPaymentMiddleware parseUsdcAmount decode routes facilitatorUrl req) w
      = (Threw e, after h meter w3,
         [verify; JsonAsVerification response; Next; meter])).
Proof.
  intros Hroute Hprice Hheader Hnonempty Hdecode requirements verify w1 w2 w3 meter
    Hverify Hjson Hvalid.
  subst requirements verify w1 w2 w3 meter.
  unfold uptoPaymentMiddleware, price, answer, after in *.
  rewrite Hroute, Hprice. simpl. rewrite Hheader. simpl.
  destruct (String.eqb_spec headerValue "") as [He|_]; [contradiction|]. simpl.
  rewrite Hdecode. simpl.
  destruct (h (Fetch _ _) w) as [fetched w1]. simpl in *. subst fetched. simpl.
  destruct (h (JsonAsVerification response) w1) as [parsed w2]. simpl in *.
  subst parsed. simpl. rewrite Hvalid. simpl.
  destruct (h Next w2) as [handled w3]. simpl. split.
  - intros ->. reflexivity.
  - intros ->. simpl. destruct (h (Meter _ _) w3) as [measured w4]. simpl.
    intros ->. reflexivity.
Qed.

(** X14. Before the handler: on a gated route whose price reads, a request
    whose payment header does not decode is answered 400 without any call;
    when the verify request is rejected the answer is 503 and nothing else
    is called; when the facilitator answers but its reply does not read as
    JSON, the rejection is thrown by the middleware. *)
Theorem middleware_failures_before_verification routes facilitatorUrl req (w : W)
    routeConfig units headerValue :
  routes !! (method req ++ " " ++ pathname req) = Some routeConfig ->
  parseUsdcAmount (maxPrice routeConfig) = Returned units ->
  paymentHeaderOf req = Some headerValue ->
  headerValue <> "" ->
  let plain (message : string) :=
    {| error := message; reason := None; accepts := None;
       body_description := None; body_mimeType := None |} in
  let verify payload :=
    Fetch (facilitatorUrl ++ "/verify")
          {| fb_payload := payload;
             fb_requirements := requirementsFor routeConfig units |} in
  (decode headerValue = None ->
   run h (uptoPaymentMiddleware parseUsdcAmount decode routes facilitatorUrl req) w
   = (Returned (Json (plain "Invalid payment payload") 400), w, []))
  /\ (forall payload e,
        decode headerValue = Some payload ->
        answer h (verify payload) w = Rejected e ->
        run h (uptoPaymentMiddleware parseUsdcAmount decode routes facilitatorUrl req) w
        = (Returned (Json (plain "Facilitator unavailable") 503),
           after h (verify payload) w, [verify payload]))
  /\ (forall payload response e,
        decode headerValue = Some payload ->
        answer h (verify payload) w = Fulfilled response ->
        answer h (JsonAsVerification response) (after h (verify payload) w) = Rejected e ->
        run h (uptoPaymentMiddleware parseUsdcAmount decode routes facilitatorUrl req) w
        = (Threw e,
           after h (JsonAsVerification response) (after h (verify payload) w),
           [verify payload; JsonAsVerification response])).
Proof.
  intros Hroute Hprice Hheader Hnonempty plain verify. subst plain verify.
  unfold uptoPaymentMiddleware, price, answer, after.
  rewrite Hroute, Hprice. simpl. rewrite Hheader. simpl.
  destruct (String.eqb_spec headerValue "") as [He|_]; [contradiction|]. simpl.
  split; [|split].
  - intros ->. reflexivity.
  - intros payload e ->. simpl.
    destruct (h (Fetch _ _) w) as [fetched w1]. simpl. intros ->. reflexivity.
  - intros payload response e ->. simpl.
    destruct (h (Fetch _ _) w) as [fetched w1]. simpl. intros ->. simpl.
    destruct (h (JsonAsVerification response) w1) as [parsed w2]. simpl.
    intros ->. reflexivity.
Qed.

(** X15. A gated request without a usable payment header is answered 402
    with the route's requirements, and nothing is called.  The header is
    unusable when [X-Payment] is the empty string, whatever
    [Payment-Signature] holds, or when [X-Payment] is absent and
    [Payment-Signature] is absent or empty. *)
Theorem middleware_missing_payment_is_402 routes facilitatorUrl req (w : W)
    routeConfig units :
  routes !! (method req ++ " " ++ pathname req) = Some routeConfig ->
  parseUsdcAmount (maxPrice routeConfig) = Returned units ->
  header req "X-Payment" = Some ""
  \/ (header req "X-Payment" = None /\ truthy (header req "Payment-Signature") = false) ->
  run h (uptoPaymentMiddleware parseUsdcAmount decode routes facilitatorUrl req) w
  = (Returned (Json {| error := "Payment Required";
                       reason := None;
                       accepts := Some [requirementsFor routeConfig units];
                       body_description := spread_if_truthy (description routeConfig);
                       body_mimeType := spread_if_truthy (mimeType routeConfig) |}
                    402),
     w, []).
Proof.
  intros Hroute Hprice Hheader.
  assert (Hfalsy : truthy (paymentHeaderOf req) = false).
  { unfold paymentHeaderOf. destruct Hheader as [->|[-> Hsig]]; [reflexivity | exact Hsig]. }
  unfold uptoPaymentMiddleware, price.
  rewrite Hroute, Hprice. simpl. rewrite Hfalsy. reflexivity.
Qed.

(** X16. A request for a route that is not in the table goes to the
    handler alone: [next()] is the only call, neither the price parser nor
    the header decoder nor the facilitator is consulted, and a rejection of
    the handler is thrown. *)
Theorem middleware_unknown_route_passes_through routes facilitatorUrl req (w : W) :
  routes !! (method req ++ " " ++ pathname req) = None ->
  run h (uptoPaymentMiddleware parseUsdcAmount decode routes facilitatorUrl req) w
  = (match answer h Next w with
     | Fulfilled _ => Returned PassedThrough
     | Rejected e => Threw e
     end, after h Next w, [Next]).
Proof.
  intros Hroute. unfold uptoPaymentMiddleware, answer, after. rewrite Hroute. simpl.
  destruct (h Next w) as [[[]|e] w1]; reflexivity.
Qed.

End MiddlewareCourse.

Section MiddlewareCourseExamples.
Import Js Prog Constants Types Middleware Course.

Lemma middleware_handler_needs_valid_verification_witness :
  exists units headerValue payload response verification,
    Server.parseUsdcAmount Fixtures.usdc_units
      (maxPrice (Fixtures.route "eip155:84532")) = Returned units
    /\ paymentHeaderOf (Fixtures.request (Some "e30=")) = Some headerValue
    /\ headerValue <> ""
    /\ Fixtures.decode headerValue = Some payload
    /\ answer Samples.gateway
         (Fetch ("http://localhost:4402" ++ "/verify")
                {| fb_payload := payload;
                   fb_requirements :=
                     requirementsFor (Fixtures.route "eip155:84532") units |}) 0%nat
       = Fulfilled response
    /\ answer Samples.gateway (JsonAsVerification response)
         (after Samples.gateway
            (Fetch ("http://localhost:4402" ++ "/verify")
                   {| fb_payload := payload;
                      fb_requirements :=
                        requirementsFor (Fixtures.route "eip155:84532") units |}) 0%nat)
       = Fulfilled verification
    /\ v_isValid verification = true.
Proof.
  apply (middleware_handler_needs_valid_verification Samples.gateway
           (Server.parseUsdcAmount Fixtures.usdc_units) Fixtures.decode
           (Fixtures.routes "eip155:84532") "http://localhost:4402"
           (Fixtures.request (Some "e30=")) 0%nat (Fixtures.route "eip155:84532")).
  - vm_compute. reflexivity.
  - vm_compute. right. right. left. reflexivity.
Defined.

(** The 503 of an unreachable facilitator. *)
Lemma middleware_json_reply_leaves_route_alone_witness :
  In 503 [400; 402; 412; 503]
  /\ List.filter reaches_route
       (calls_of (run Samples.unreachable
                      (Samples.middleware "eip155:84532" (Fixtures.request (Some "e30=")))
                      0%nat)) = []
  /\ List.filter settles
       (calls_of (run Samples.unreachable
                      (Samples.middleware "eip155:84532" (Fixtures.request (Some "e30=")))
                      0%nat)) = []
  /\ (length (List.filter is_fetch
       (calls_of (run Samples.unreachable
                      (Samples.middleware "eip155:84532" (Fixtures.request (Some "e30=")))
                      0%nat))) <= 1)%nat.
Proof.
  apply (middleware_json_reply_leaves_route_alone Samples.unreachable
           (Server.parseUsdcAmount Fixtures.usdc_units) Fixtures.decode
           (Fixtures.routes "eip155:84532") "http://localhost:4402"
           (Fixtures.request (Some "e30=")) 0%nat
           {| error := "Facilitator unavailable"; reason := None; accepts := None;
              body_description := None; body_mimeType := None |} 503).
  vm_compute. reflexivity.
Defined.


Lemma middleware_failed_route_is_not_settled_witness :
  run Samples.brokenHandler
      (Samples.middleware "eip155:84532" (Fixtures.request (Some "e30="))) 0%nat
  = (Threw (JsError "handler failed"), 1%nat,
     [Fetch "http://localhost:4402/verify"
        {| fb_payload := Fixtures.makePayload 1700000000 None;
           fb_requirements := requirementsFor (Fixtures.route "eip155:84532") "1000000" |};
      JsonAsVerification 0;
      Next]).
Proof.
  apply (proj1 (middleware_failed_route_is_not_settled Samples.brokenHandler
           (Server.parseUsdcAmount Fixtures.usdc_units) Fixtures.decode
           (Fixtures.routes "eip155:84532") "http://localhost:4402"
           (Fixtures.request (Some "e30=")) 0%nat
           (Fixtures.route "eip155:84532") "1000000" "e30="
           (Fixtures.makePayload 1700000000 None) 0%nat Samples.accepted
           (JsError "handler failed")
           ltac:(vm_compute; reflexivity) eq_refl eq_refl ltac:(discriminate) eq_refl
           eq_refl eq_refl eq_refl)).
  reflexivity.
Defined.

Lemma middleware_failures_before_verification_witness :
  run Samples.unreachable
      (Samples.middleware "eip155:84532" (Fixtures.request (Some "e30="))) 0%nat
  = (Returned (Json {| error := "Facilitator unavailable"; reason := None;
                       accepts := None; body_description := None;
                       body_mimeType := None |} 503),
     1%nat,
     [Fetch "http://localhost:4402/verify"
        {| fb_payload := Fixtures.makePayload 1700000000 None;
           fb_requirements := requirementsFor (Fixtures.route "eip155:84532") "1000000" |}]).
Proof.
  apply (proj1 (proj2 (middleware_failures_before_verification Samples.unreachable
           (Server.parseUsdcAmount Fixtures.usdc_units) Fixtures.decode
           (Fixtures.routes "eip155:84532") "http://localhost:4402"
           (Fixtures.request (Some "e30=")) 0%nat
           (Fixtures.route "eip155:84532") "1000000" "e30="
           ltac:(vm_compute; reflexivity) eq_refl eq_refl ltac:(discriminate)))
           (Fixtures.makePayload 1700000000 None) (JsError "fetch failed")).
  - reflexivity.
  - reflexivity.
Defined.

(** An empty [X-Payment] hides the payment carried by [Payment-Signature]. *)
Lemma middleware_missing_payment_is_402_witness :
  run Samples.gateway
      (Samples.middleware "eip155:84532" (Samples.requestWith (Some "") (Some "e30=")))
      0%nat
  = (Returned (Json {| error := "Payment Required";
                       reason := None;
                       accepts := Some [requirementsFor (Fixtures.route "eip155:84532")
                                                        "1000000"];
                       body_description := None;
                       body_mimeType := None |} 402),
     0%nat, []).
Proof.
  apply (middleware_missing_payment_is_402 Samples.gateway
           (Server.parseUsdcAmount Fixtures.usdc_units) Fixtures.decode
           (Fixtures.routes "eip155:84532") "http://localhost:4402"
           (Samples.requestWith (Some "") (Some "e30=")) 0%nat
           (Fixtures.route "eip155:84532") "1000000").
  - vm_compute. reflexivity.
  - reflexivity.
  - left. reflexivity.
Defined.

(** The health check of the example server is not gated. *)
Lemma middleware_unknown_route_passes_through_witness :
  run Samples.gateway
      (Samples.middleware "eip155:84532"
         {| method := "GET"; pathname := "/"; header := fun _ => None |}) 0%nat
  = (Returned PassedThrough, 0%nat, [Next]).
Proof.
  apply (middleware_unknown_route_passes_through Samples.gateway
           (Server.parseUsdcAmount Fixtures.usdc_units) Fixtures.decode
           (Fixtures.routes "eip155:84532") "http://localhost:4402"
           {| method := "GET"; pathname := "/"; header := fun _ => None |} 0%nat).
  vm_compute. reflexivity.
Defined.

End MiddlewareCourseExamples.

(** ** Updates of the audit store *)

Section AuditUpdates.
Import Audit.

Lemma update_rows_with m n f db :
  (forall row, nonce (f row) = nonce row) ->
  rows_with m (update_where_nonce n f db)
  = map (fun row => if String.eqb (nonce row) n then f row else row) (rows_with m db).
Proof.
  intros Hf. unfold rows_with, update_where_nonce. simpl.
  induction (payments db) as [|row rows IH]; [reflexivity|].
  cbn [map].
  assert (Hsame : nonce (if String.eqb (nonce row) n then f row else row) = nonce row).
  { destruct (String.eqb (nonce row) n); [apply Hf | reflexivity]. }
  destruct (decide (nonce row = m)) as [He|Hne].
  - rewrite (filter_cons_True _ row) by exact He.
    rewrite filter_cons_True by (rewrite Hsame; exact He).
    cbn [map]. rewrite IH. reflexivity.
  - rewrite (filter_cons_False _ row) by exact Hne.
    rewrite filter_cons_False by (rewrite Hsame; exact Hne).
    exact IH.
Qed.

Lemma update_nonces n f db :
  (forall row, nonce (f row) = nonce row) ->
  nonces (update_where_nonce n f db) = nonces db.
Proof.
  intros Hf. unfold nonces, update_where_nonce. simpl.
  rewrite map_map. apply map_ext. intros row.
  destruct (String.eqb (nonce row) n); [apply Hf | reflexivity].
Qed.

Lemma update_ids n f db :
  (forall row, id (f row) = id row) ->
  map id (payments (update_where_nonce n f db)) = map id (payments db).
Proof.
  intros Hf. unfold update_where_nonce. simpl.
  rewrite map_map. apply map_ext. intros row.
  destruct (String.eqb (nonce row) n); [apply Hf | reflexivity].
Qed.

Lemma update_unique n f db :
  (forall row, nonce (f row) = nonce row) ->
  unique_nonces db -> unique_nonces (update_where_nonce n f db).
Proof.
  intros Hf Hdb m. rewrite update_rows_with by exact Hf.
  rewrite length_map. apply Hdb.
Qed.

Lemma update_elsewhere m n f db :
  (forall row, nonce (f row) = nonce row) ->
  m <> n -> rows_with m (update_where_nonce n f db) = rows_with m db.
Proof.
  intros Hf Hne. rewrite update_rows_with by exact Hf.
  unfold rows_with. induction (payments db) as [|row rows IH]; [reflexivity|].
  destruct (decide (nonce row = m)) as [He|Hrow].
  - rewrite filter_cons_True by exact He. cbn [map]. rewrite IH.
    destruct (String.eqb_spec (nonce row) n) as [Hn|_]; [congruence | reflexivity].
  - rewrite filter_cons_False by exact Hrow. exact IH.
Qed.

Lemma update_absent n f db :
  ~ In n (nonces db) -> update_where_nonce n f db = db.
Proof.
  intros Habsent. unfold update_where_nonce. destruct db as [rows seq]. simpl.
  f_equal. unfold nonces in Habsent. simpl in Habsent.
  induction rows as [|row rows IH]; [reflexivity|].
  simpl in *. destruct (String.eqb_spec (nonce row) n) as [He|Hne]; [tauto|].
  f_equal. apply IH. tauto.
Qed.

(** X17. The two updates of the audit store change rows in place: after
    [recordSettlement] or [recordFailure] for a nonce, the table has the
    same nonces and ids in the same order and the same counter, it has at
    most one row per nonce if it had before, the rows of every other nonce
    are as they were, and an update for a nonce that is not in the table
    changes nothing. *)
Theorem audit_updates_change_rows_in_place db n settledAmount txHash stamp error :
  Forall (fun updated =>
            nonces updated = nonces db
            /\ map id (payments updated) = map id (payments db)
            /\ sequence updated = sequence db
            /\ (unique_nonces db -> unique_nonces updated)
            /\ (forall m, m <> n -> rows_with m updated = rows_with m db)
            /\ (~ In n (nonces db) -> updated = db))
         [recordSettlement db n settledAmount txHash stamp; recordFailure db n error].
Proof.
  unfold recordSettlement, recordFailure.
  constructor; [|constructor; [|constructor]].
  - split; [apply update_nonces; reflexivity|].
    split; [apply update_ids; reflexivity|].
    split; [reflexivity|].
    split; [apply update_unique; reflexivity|].
    split; [intros m Hne; apply update_elsewhere; [reflexivity | exact Hne]|].
    apply update_absent.
  - split; [apply update_nonces; reflexivity|].
    split; [apply update_ids; reflexivity|].
    split; [reflexivity|].
    split; [apply update_unique; reflexivity|].
    split; [intros m Hne; apply update_elsewhere; [reflexivity | exact Hne]|].
    apply update_absent.
Qed.

(** X18. The life of an audit row.  A verification with a nonce that is
    new to the table adds one row with status verified.  A settlement for
    that nonce then sets the amount, the transaction hash, the time and the
    status settled on it.  A failure recorded afterwards for the same
    nonce overrides the status and puts the error text in the
    [settled_amount] column; the hash and the time of the settlement
    stay. *)
Theorem audit_row_life db record created settledAmount txHash stamp error :
  ~ In (r_nonce record) (nonces db) ->
  let row (amount : option string) (hash : option string) (state : Status)
          (settledAt : option string) :=
    {| id := sequence db + 1;
       payer := r_payer record;
       recipient := r_recipient record;
       token := r_token record;
       authorized_amount := r_authorized_amount record;
       settled_amount := amount;
       nonce := r_nonce record;
       tx_hash := hash;
       status := state;
       network := r_network record;
       created_at := created;
       settled_at := settledAt |} in
  let db1 := recordVerification db record created in
  let db2 := recordSettlement db1 (r_nonce record) settledAmount txHash stamp in
  let db3 := recordFailure db2 (r_nonce record) error in
  rows_with (r_nonce record) db1 = [row None None verified None]
  /\ rows_with (r_nonce record) db2
     = [row (Some settledAmount) (Some txHash) settled (Some stamp)]
  /\ rows_with (r_nonce record) db3
     = [row (Some error) (Some txHash) failed (Some stamp)]
  /\ payments db2 = (payments db ++ [row (Some settledAmount) (Some txHash) settled
                                         (Some stamp)])%list
  /\ payments db3 = (payments db ++ [row (Some error) (Some txHash) failed
                                         (Some stamp)])%list.
Proof.
  intros Hnew row db1 db2 db3.
  assert (Hhas : has_nonce (r_nonce record) (payments db) = false).
  { destruct (has_nonce (r_nonce record) (payments db)) eqn:Hhas; [|reflexivity].
    apply has_nonce_In in Hhas. contradiction. }
  assert (E1 : payments db1 = (payments db ++ [row None None verified None])%list).
  { subst db1 row. unfold recordVerification. rewrite Hhas. reflexivity. }
  assert (Hkeep : forall f,
            map (fun r => if String.eqb (nonce r) (r_nonce record) then f r else r)
                (payments db) = payments db).
  { intros f. pose proof (update_absent (r_nonce record) f db Hnew) as E.
    unfold update_where_nonce in E. apply (f_equal payments) in E. exact E. }
  assert (E2 : payments db2
               = (payments db ++ [row (Some settledAmount) (Some txHash) settled
                                      (Some stamp)])%list).
  { subst db2. unfold recordSettlement, update_where_nonce. cbn [payments].
    rewrite E1, map_app, Hkeep. subst row. cbn. rewrite String.eqb_refl. reflexivity. }
  assert (E3 : payments db3
               = (payments db ++ [row (Some error) (Some txHash) failed
                                      (Some stamp)])%list).
  { subst db3. unfold recordFailure, update_where_nonce. cbn [payments].
    rewrite E2, map_app, Hkeep. subst row. cbn. rewrite String.eqb_refl. reflexivity. }
  assert (Hrows : forall r, nonce r = r_nonce record ->
            filter (fun x => nonce x = r_nonce record) (payments db ++ [r])%list = [r]).
  { intros r Hr. rewrite filter_app, (has_nonce_rows _ _ Hhas).
    rewrite filter_cons_True by exact Hr. reflexivity. }
  unfold rows_with. rewrite E1, E2, E3.
  repeat split; try reflexivity; apply Hrows; reflexivity.
Qed.

End AuditUpdates.

Section AuditUpdatesExamples.
Import Audit.

Lemma audit_row_life_witness :
  rows_with "12345"
    (recordFailure
       (recordSettlement
          (recordVerification initDb Fixtures.verified "2024-01-01 00:00:00")
          "12345" "43700" "0xabc123" "2024-01-01 00:00:09")
       "12345" "transaction_reverted")
  = [{| id := 1;
        payer := "0xf39Fd6e51aad88F6F4ce6aB8827279cffFb92266";
        recipient := "0x70997970C51812dc3A010C7d01b50e0d17dc79C8";
        token := "0x036CbD53842c5426634e7929541eC2318f3dCF7e";
        authorized_amount := "1000000";
        settled_amount := Some "transaction_reverted";
        nonce := "12345";
        tx_hash := Some "0xabc123";
        status := failed;
        network := "eip155:84532";
        created_at := "2024-01-01 00:00:00";
        settled_at := Some "2024-01-01 00:00:09" |}].
Proof.
  apply (proj1 (proj2 (proj2
           (audit_row_life initDb Fixtures.verified "2024-01-01 00:00:00" "43700"
              "0xabc123" "2024-01-01 00:00:09" "transaction_reverted"
              ltac:(simpl; tauto))))).
Defined.

End AuditUpdatesExamples.

(** ** The facilitator server *)

Section SettlerResults.
Import Js Prog Constants Types Facilitator Spec Shape.
Context {W : Type} (h : world signer_call signer_answer W).

Ltac dead := solve [intros [= <-]; intros [=] | intros [=]].
Ltac named := solve [intros [= <-] _; eexists; reflexivity].

(** An invalid verdict of the verifier names its reason. *)
Lemma verifyUpto_invalid_reason payload requirements (w : W) v :
  result_of (run h (verifyUpto payload requirements) w) = Returned v ->
  isValid v = false ->
  exists reason, invalidReason v = Some reason.
Proof.
  unfold result_of, verifyUpto, bigint. simpl.
  destruct (h DateNow w) as [ms w1]. simpl.
  destruct (String.eqb (toLowerCase (spender _)) _); simpl; [|named].
  destruct (String.eqb (toLowerCase (to _)) _); simpl; [|named].
  destruct (num_le _ _); simpl; [named|].
  destruct (num_gt _ _); simpl; [named|].
  destruct (BigInt (amount _)) as [amt|]; simpl; [|dead].
  destruct (BigInt (maxAmount _)) as [mx|]; simpl; [|dead].
  destruct (amt <? mx); simpl; [named|].
  destruct (BigInt (nonce _)) as [n|]; simpl; [|dead].
  destruct (BigInt (deadline _)) as [dl|]; simpl; [|dead].
  destruct (BigInt (validAfter _)) as [va|]; simpl; [|dead].
  destruct (h (VerifyTypedData _) w1) as [[[|]|e] w2]; simpl; [|named|named].
  destruct (h (ReadContract _) w2) as [[allowance|e] w3]; simpl; [|named].
  destruct (allowance <? amt); simpl; [named|].
  destruct (h (ReadContract _) w3) as [[balance|e] w4]; simpl; [|named].
  destruct (balance <? amt); simpl; [named|dead].
Qed.

(** The results of the settler: a failure names its error; a success has
    no error and a settled amount; a success with a transaction hash
    settled the effective amount through one chain write; a success
    without one is the elided settlement of zero. *)
Lemma settleUpto_results payload requirements (w : W) r :
  result_of (run h (settleUpto payload requirements) w) = Returned r ->
  (success r = false -> exists reason, error r = Some reason)
  /\ (success r = true ->
      error r = None
      /\ ((txHash r = None /\ settledAmount r = Some "0"
           /\ BigInt (effective_amount payload) = Some 0
           /\ calls_of (run h (settleUpto payload requirements) w) = [])
          \/ (exists hash, txHash r = Some hash)
             /\ settledAmount r = Some (effective_amount payload)
             /\ length (List.filter is_chain_write
                          (calls_of (run h (settleUpto payload requirements) w))) = 1%nat)).
Proof.
  unfold result_of, calls_of, settleUpto, effective_amount, ceiling_of. cbv zeta.
  set (eff := default _ (settlementAmount payload)).
  rewrite run_bigint. destruct (BigInt eff) as [s|] eqn:Hs; [|simpl; discriminate].
  rewrite run_bigint. destruct (BigInt (amount _)) as [a|] eqn:Ha; [|simpl; discriminate].
  destruct (a <? s).
  { simpl. intros [= <-]. simpl. split; [eauto | discriminate]. }
  rewrite run_bigint, Hs. destruct (Z.eqb_spec s 0) as [->|Hnz].
  { simpl. intros [= <-]. simpl. split; [discriminate|]. intros _. split; [reflexivity|].
    left. repeat split; reflexivity. }
  rewrite run_bind.
  pose proof (verifyUpto_invalid_reason payload requirements w) as Hreason.
  pose proof (verifyUpto_no_write h payload requirements w) as Hnw.
  unfold result_of, calls_of in Hreason, Hnw.
  destruct (run h (verifyUpto payload requirements) w) as [[[v|e] w1] c1];
    cbn [fst snd] in Hreason, Hnw; [|simpl; discriminate].
  destruct (isValid v) eqn:Hvalid.
  2:{ simpl. intros [= <-]. simpl. split; [|discriminate].
      intros _. apply (Hreason v); [reflexivity | exact Hvalid]. }
  simpl negb. cbv iota. rewrite run_try_catch, run_bigint, Ha.
  rewrite run_bigint. destruct (BigInt (nonce _)) as [n|].
  2:{ simpl. intros [= <-]. simpl. split; [eauto | discriminate]. }
  rewrite run_bigint. destruct (BigInt (deadline _)) as [d|].
  2:{ simpl. intros [= <-]. simpl. split; [eauto | discriminate]. }
  rewrite run_bigint, Hs.
  rewrite run_bigint. destruct (BigInt (validAfter _)) as [va|].
  2:{ simpl. intros [= <-]. simpl. split; [eauto | discriminate]. }
  simpl.
  destruct (h (WriteContract _) w1) as [[hash|e] w2]; simpl.
  2:{ intros [= <-]. simpl. split; [eauto | discriminate]. }
  destruct (h (WaitForTransactionReceipt hash) w2) as [[rc|e] w3]; simpl.
  2:{ intros [= <-]. simpl. split; [eauto | discriminate]. }
  destruct (status rc); simpl; intros [= <-]; simpl.
  - split; [discriminate|]. intros _. split; [reflexivity|]. right.
    split; [eauto|]. split; [reflexivity|].
    rewrite List.filter_app, Hnw. reflexivity.
  - split; [eauto | discriminate].
Qed.

End SettlerResults.

Section FacilitatorRoutes.
Import Js Prog Constants Types Facilitator Spec Shape Audit FacilitatorServer.
Context {W : Type} (facilitatorSigner : world signer_call signer_answer W).

Ltac untouched :=
  solve [simpl; repeat split; auto 6; try reflexivity; congruence].

(** X19. [POST /verify] answers 200, 400 or 500, never writes to the
    chain, and touches the audit database only for a verification that it
    answers as valid: the nonce of that payload is then in the table.  No
    row is ever removed, and a table with at most one row per nonce stays
    so. *)
Theorem postVerify_audits_valid_verifications body db stamp (w : W) :
  let served := postVerify facilitatorSigner body db stamp w in
  In (code (response served)) [200; 400; 500]
  /\ (audit served = db
      \/ code (response served) = 200 /\ isValid (json (response served)) = true)
  /\ (code (response served) = 200 ->
      isValid (json (response served)) = true ->
      exists payload,
        body_payload body = Some payload
        /\ In (Types.nonce (permit2Authorization payload)) (nonces (audit served)))
  /\ nonces db `prefix_of` nonces (audit served)
  /\ (unique_nonces db -> unique_nonces (audit served))
  /\ List.filter is_chain_write (signer_calls served) = [].
Proof.
  unfold postVerify.
  destruct (body_payload body) as [payload|]; [|untouched].
  destruct (body_requirements body) as [requirements|]; [|untouched].
  pose proof (verifyUpto_no_write facilitatorSigner payload requirements w) as Hnw.
  unfold calls_of in Hnw.
  destruct (run facilitatorSigner (verifyUpto payload requirements) w)
    as [[[result|err] w1] calls]; cbn [snd] in Hnw; simpl; [|untouched].
  destruct (isValid result) eqn:Hvalid; [|untouched].
  split; [auto|]. split; [auto|]. split.
  { intros _ _. exists payload. split; [reflexivity|].
    unfold recordVerification.
    destruct (has_nonce _ (payments db)) eqn:Hhas.
    - apply has_nonce_In in Hhas. exact Hhas.
    - unfold nonces. simpl. rewrite map_app. simpl. apply in_or_app. right. left.
      reflexivity. }
  split.
  { unfold recordVerification.
    destruct (has_nonce _ (payments db)); [reflexivity|].
    unfold nonces. simpl. rewrite map_app. eexists. reflexivity. }
  split; [apply recordVerification_unique | exact Hnw].
Qed.

(** X20. Replaying [POST /verify]: once a request was answered as valid,
    the same request, at any later time and in any state of the signer,
    leaves the rows of the audit table as the first one left them.  A
    replay that verifies again moves the AUTOINCREMENT counter on by one,
    as every insert does, ignored or not; any other replay leaves the
    counter too. *)
Theorem postVerify_replay_adds_no_row body db stamp stamp' (w w' : W) :
  let first := postVerify facilitatorSigner body db stamp w in
  let replay := postVerify facilitatorSigner body (audit first) stamp' w' in
  code (response first) = 200 ->
  isValid (json (response first)) = true ->
  payments (audit replay) = payments (audit first)
  /\ sequence (audit replay)
     = sequence (audit first) + (if isValid (json (response replay)) then 1 else 0).
Proof.
  unfold postVerify.
  destruct (body_payload body) as [payload|]; [|simpl; discriminate].
  destruct (body_requirements body) as [requirements|]; [|simpl; discriminate].
  destruct (run facilitatorSigner (verifyUpto payload requirements) w)
    as [[[result|err] w1] calls];
  destruct (run facilitatorSigner (verifyUpto payload requirements) w')
    as [[[result'|err'] w1'] calls'];
  cbn [response code json audit]; try discriminate; intros _ Hvalid;
  rewrite Hvalid; [|cbn [isValid invalid]; split; [reflexivity | lia]].
  destruct (isValid result'); [|split; [reflexivity | lia]].
  split; [apply recordVerification_replay | reflexivity].
Qed.

(** X21. The 500 of both routes, for a body whose keys hold objects of
    their types and a database whose statements succeed.  An exception is
    logged exactly when the route answers 500; the body is then the
    internal_error one, the audit database is as before the request, and
    the exception is the SyntaxError of a numeric string of the request
    that [BigInt] cannot read. *)
Theorem routes_internal_error body db stamp (w : W) :
  let verified := postVerify facilitatorSigner body db stamp w in
  let settled := postSettle facilitatorSigner body db stamp w in
  (logged verified = None <-> code (response verified) <> 500)
  /\ (logged settled = None <-> code (response settled) <> 500)
  /\ (code (response verified) = 500 ->
      json (response verified) = invalid "internal_error"
      /\ audit verified = db
      /\ exists s, logged verified = Some (SyntaxError s) /\ BigInt s = None)
  /\ (code (response settled) = 500 ->
      json (response settled)
      = {| success := false; txHash := None; settledAmount := None;
           error := Some "internal_error" |}
      /\ audit settled = db
      /\ exists s, logged settled = Some (SyntaxError s) /\ BigInt s = None).
Proof.
  unfold postVerify, postSettle.
  destruct (body_payload body) as [payload|];
    [|simpl; repeat split; intros; congruence].
  destruct (body_requirements body) as [requirements|];
    [|simpl; repeat split; intros; congruence].
  pose proof (verifyUpto_throws_inversion facilitatorSigner payload requirements w)
    as Hverify.
  assert (Hsettle : forall e,
            result_of (run facilitatorSigner (settleUpto payload requirements) w)
            = Threw e ->
            exists s, e = SyntaxError s /\ BigInt s = None).
  { unfold result_of, settleUpto. cbv zeta.
    set (eff := default _ (settlementAmount payload)).
    intros e. rewrite run_bigint. destruct (BigInt eff) as [s|] eqn:Hs.
    2:{ simpl. intros [= <-]. exists eff. split; [reflexivity | exact Hs]. }
    rewrite run_bigint. destruct (BigInt (amount _)) as [a|] eqn:Ha.
    2:{ simpl. intros [= <-]. eexists. split; [reflexivity | exact Ha]. }
    destruct (a <? s); [simpl; discriminate|].
    rewrite run_bigint, Hs. destruct (s =? 0); [simpl; discriminate|].
    rewrite run_bind. unfold result_of in Hverify.
    destruct (run facilitatorSigner (verifyUpto payload requirements) w)
      as [[[v|e'] w1] c1].
    2:{ simpl. intros [= <-]. destruct (Hverify e' eq_refl) as (s' & -> & Hnone & _).
        exists s'. split; [reflexivity | exact Hnone]. }
    destruct (isValid v); [|simpl; discriminate].
    simpl negb. cbv iota. rewrite run_try_catch.
    match goal with |- context [run facilitatorSigner ?p w1] =>
      destruct (run facilitatorSigner p w1) as [[[r|e'] w2] c2] end; simpl; discriminate. }
  unfold result_of in Hverify, Hsettle.
  destruct (run facilitatorSigner (verifyUpto payload requirements) w)
    as [[[result|err] w1] calls];
  destruct (run facilitatorSigner (settleUpto payload requirements) w)
    as [[[result'|err'] w1'] calls']; cbn [response code json audit logged fst] in *;
  try (destruct (Hverify err eq_refl) as (s & -> & Hs & _));
  try (destruct (Hsettle err' eq_refl) as (s' & -> & Hs'));
  (split; [split; intros H; congruence|]);
  (split; [split; intros H; congruence|]);
  split;
    first [ congruence
          | intros _; split; [reflexivity|]; split; [reflexivity|];
            eexists; split; [reflexivity | eassumption] ].
Qed.

(** X22. What [POST /settle] writes to the audit database when it answers
    200.  A success that carries a transaction hash is recorded with
    [recordSettlement], with the effective settlement amount and that hash,
    after exactly one chain write.  Every other answer is recorded with
    [recordFailure]: a failure with its error, and a success without a
    hash, which is the elided settlement of zero, with the text unknown. *)
Theorem postSettle_audit payload requirements db stamp (w : W) :
  let body := {| body_payload := Some payload;
                 body_requirements := Some requirements |} in
  let served := postSettle facilitatorSigner body db stamp w in
  let result := json (response served) in
  let n := Types.nonce (permit2Authorization payload) in
  code (response served) = 200 ->
  (success result = false ->
   exists reason, error result = Some reason /\ audit served = recordFailure db n reason)
  /\ (success result = true ->
      (forall hash, txHash result = Some hash -> hash <> "" ->
         audit served = recordSettlement db n (effective_amount payload) hash stamp
         /\ length (List.filter is_chain_write (signer_calls served)) = 1%nat)
      /\ (txHash result = None ->
          BigInt (effective_amount payload) = Some 0
          /\ signer_calls served = []
          /\ audit served = recordFailure db n "unknown")).
Proof.
  unfold postSettle. cbn [body_payload body_requirements].
  pose proof (settleUpto_results facilitatorSigner payload requirements w) as Hshape.
  unfold result_of, calls_of in Hshape.
  destruct (run facilitatorSigner (settleUpto payload requirements) w)
    as [[[result|err] w1] calls]; simpl; [|discriminate].
  intros _. destruct (Hshape result eq_refl) as [Hfail Hok]. cbn [snd] in Hok.
  split.
  - intros Hs. destruct (Hfail Hs) as [reason Hreason]. exists reason.
    split; [exact Hreason|]. rewrite Hs, Hreason. reflexivity.
  - intros Hs. destruct (Hok Hs) as [Herr [(Hnone & Hzero & Hbig & Hcalls)
                                          | ([hash Hhash] & Hamount & Hwrites)]].
    + split.
      * intros hash Hhash. congruence.
      * intros _. rewrite Hs, Hnone, Herr. simpl. repeat split; assumption.
    + split.
      * intros hash' Hhash' Hne. rewrite Hs, Hhash', Hamount. simpl.
        destruct (String.eqb_spec hash' "") as [He|_]; [contradiction|].
        simpl. split; [reflexivity | exact Hwrites].
      * intros Hnone. congruence.
Qed.

(** X23. A settlement that was never verified here leaves no trace: when
    the nonce of the payload is not in the audit database, [POST /settle]
    leaves the database as it was, whatever it answers, a settlement that
    went through on the chain included. *)
Theorem postSettle_unknown_nonce_leaves_no_trace body db stamp (w : W) :
  (forall payload,
     body_payload body = Some payload ->
     ~ In (Types.nonce (permit2Authorization payload)) (nonces db)) ->
  audit (postSettle facilitatorSigner body db stamp w) = db.
Proof.
  intros Hnew. unfold postSettle.
  destruct (body_payload body) as [payload|]; [|reflexivity].
  destruct (body_requirements body) as [requirements|]; [|reflexivity].
  specialize (Hnew payload eq_refl).
  destruct (run facilitatorSigner (settleUpto payload requirements) w)
    as [[[result|err] w1] calls]; simpl; [|reflexivity].
  destruct (success result && truthy (txHash result));
    [unfold recordSettlement | unfold recordFailure]; apply update_absent, Hnew.
Qed.

End FacilitatorRoutes.

Section FacilitatorRoutesExamples.
Import Js Prog Constants Types Facilitator Spec Shape Audit FacilitatorServer.

(** Two [/verify] requests for the tests' payload leave one audit row; the
    counter stands at 2. *)
Lemma postVerify_replay_adds_no_row_witness :
  payments (audit (postVerify (Fixtures.makeSigner 1700000000123 10000000000)
             (Samples.settleRequest None)
             (audit (postVerify (Fixtures.makeSigner 1700000000123 10000000000)
                       (Samples.settleRequest None) initDb "2024-01-01 00:00:00" tt))
             "2024-01-01 00:00:05" tt))
  = payments Samples.ledger
  /\ sequence (audit (postVerify (Fixtures.makeSigner 1700000000123 10000000000)
                (Samples.settleRequest None)
                (audit (postVerify (Fixtures.makeSigner 1700000000123 10000000000)
                          (Samples.settleRequest None) initDb "2024-01-01 00:00:00" tt))
                "2024-01-01 00:00:05" tt))
     = 2.
Proof.
  apply (postVerify_replay_adds_no_row (Fixtures.makeSigner 1700000000123 10000000000)
           (Samples.settleRequest None) initDb "2024-01-01 00:00:00"
           "2024-01-01 00:00:05" tt tt).
  - reflexivity.
  - reflexivity.
Defined.

(** A nonce that [BigInt] cannot read is answered 500 by [/verify]. *)
Lemma routes_internal_error_witness :
  json (response (postVerify (Fixtures.makeSigner 1700000000123 10000000000)
                    {| body_payload := Some Samples.badNonce;
                       body_requirements := Some Fixtures.requirements |}
                    Samples.ledger "2024-01-01 00:00:09" tt))
  = invalid "internal_error"
  /\ audit (postVerify (Fixtures.makeSigner 1700000000123 10000000000)
              {| body_payload := Some Samples.badNonce;
                 body_requirements := Some Fixtures.requirements |}
              Samples.ledger "2024-01-01 00:00:09" tt)
     = Samples.ledger
  /\ exists s,
       logged (postVerify (Fixtures.makeSigner 1700000000123 10000000000)
                 {| body_payload := Some Samples.badNonce;
                    body_requirements := Some Fixtures.requirements |}
                 Samples.ledger "2024-01-01 00:00:09" tt)
       = Some (SyntaxError s)
       /\ BigInt s = None.
Proof.
  apply (proj1 (proj2 (proj2
           (routes_internal_error (Fixtures.makeSigner 1700000000123 10000000000)
              {| body_payload := Some Samples.badNonce;
                 body_requirements := Some Fixtures.requirements |}
              Samples.ledger "2024-01-01 00:00:09" tt)))).
  reflexivity.
Defined.

(** The metered settlement of the tests, recorded as settled. *)
Lemma postSettle_audit_witness :
  audit (postSettle (Fixtures.makeSigner 1700000000123 10000000000)
           (Samples.settleRequest (Some "43700")) Samples.ledger
           "2024-01-01 00:00:09" tt)
  = recordSettlement Samples.ledger "12345" "43700" "0xtxhash" "2024-01-01 00:00:09"
  /\ length (List.filter is_chain_write
       (signer_calls (postSettle (Fixtures.makeSigner 1700000000123 10000000000)
                        (Samples.settleRequest (Some "43700")) Samples.ledger
                        "2024-01-01 00:00:09" tt))) = 1%nat.
Proof.
  destruct (postSettle_audit (Fixtures.makeSigner 1700000000123 10000000000)
              (Fixtures.makePayload 1700000000 (Some "43700")) Fixtures.requirements
              Samples.ledger "2024-01-01 00:00:09" tt) as [_ Hok].
  - reflexivity.
  - destruct Hok as [Hhash _]; [reflexivity|].
    apply (Hhash "0xtxhash"); [reflexivity | discriminate].
Defined.

(** The same settlement on a server that has not seen the verification. *)
Lemma postSettle_unknown_nonce_leaves_no_trace_witness :
  audit (postSettle (Fixtures.makeSigner 1700000000123 10000000000)
           (Samples.settleRequest (Some "43700")) initDb "2024-01-01 00:00:09" tt)
  = initDb.
Proof.
  apply (postSettle_unknown_nonce_leaves_no_trace
           (Fixtures.makeSigner 1700000000123 10000000000)
           (Samples.settleRequest (Some "43700")) initDb "2024-01-01 00:00:09" tt).
  intros payload [= <-]. simpl. tauto.
Defined.

End FacilitatorRoutesExamples.

(** ** The server scheme *)

Section SchemeCoverage.
Import Js Prog Constants Types Shape.
Variable usdc_units : string -> option string.

Lemma strip_price_app a b :
  Server.strip_price (a ++ b) = Server.strip_price a ++ Server.strip_price b.
Proof.
  induction a as [|c a IH]; simpl; [reflexivity|].
  destruct (Ascii.eqb c "$" || Ascii.eqb c ","); simpl; rewrite IH; reflexivity.
Qed.

Lemma USDC_ADDRESSES_known n a :
  USDC_ADDRESSES !! n = Some a ->
  (n = "eip155:8453" /\ a = "0x833589fCD6eDb6E08f4c7C32D4f71b54bdA02913")
  \/ (n = "eip155:84532" /\ a = "0x036CbD53842c5426634e7929541eC2318f3dCF7e").
Proof.
  unfold USDC_ADDRESSES. intros H.
  apply lookup_insert_Some in H. destruct H as [[<- <-]|[_ H]]; [left; split; reflexivity|].
  apply lookup_insert_Some in H. destruct H as [[<- <-]|[_ H]]; [right; split; reflexivity|].
  rewrite lookup_empty in H. discriminate.
Qed.

(** X24. [buildRequirements] settles the token before the price.  The
    network id holds a colon, as every CAIP-2 id does: [USDC_ADDRESSES] is
    then read at one of its own keys or at none.  Without an [asset] it
    needs one of the two networks with a known USDC address; an [asset]
    that is the empty string is refused like a missing one, on a known
    network as well; and in both cases the error is the one about the
    missing token even when the price is invalid too.  What it returns
    names a token that is not empty, taken from the config or else from
    the table of the network, and the amount that [parseUsdcAmount] gives
    for the price; what it throws is one of the two errors. *)
Theorem buildRequirements_token_before_price (config : Server.UptoRouteConfig) :
  has_colon (Server.network config) = true ->
  let missing :=
    JsError ("No default token for network " ++ Server.network config
             ++ ". Provide asset explicitly.") in
  let built := Server.buildRequirements usdc_units config in
  (Server.asset config = None ->
   Server.network config <> "eip155:8453" ->
   Server.network config <> "eip155:84532" ->
   built = Threw missing)
  /\ (Server.asset config = Some "" -> built = Threw missing)
  /\ (forall r,
        built = Returned r ->
        asset r <> ""
        /\ (Server.asset config = Some (asset r)
            \/ Server.asset config = None
               /\ USDC_ADDRESSES !! Server.network config = Some (asset r))
        /\ Server.parseUsdcAmount usdc_units (Server.maxPrice config)
           = Returned (maxAmount r)
        /\ scheme r = "upto"
        /\ network r = Server.network config
        /\ payTo r = Server.payTo config
        /\ maxTimeoutSeconds r = default 300 (Server.maxTimeoutSeconds config))
  /\ (forall e,
        built = Threw e ->
        e = missing \/ e = JsError ("Invalid price: " ++ Server.maxPrice config)).
Proof.
  intros _ missing built. subst missing built. unfold Server.buildRequirements.
  split; [|split; [|split]].
  - intros -> Hbase Hsepolia.
    destruct (USDC_ADDRESSES !! Server.network config) as [a|] eqn:Hknown; [|reflexivity].
    apply USDC_ADDRESSES_known in Hknown. tauto.
  - intros ->. reflexivity.
  - intros r.
    assert (Hchoice : forall a,
              match Server.asset config with
              | Some a' => Some a'
              | None => USDC_ADDRESSES !! Server.network config
              end = Some a ->
              Server.asset config = Some a
              \/ Server.asset config = None
                 /\ USDC_ADDRESSES !! Server.network config = Some a).
    { intros a. destruct (Server.asset config); [left | right; split]; auto. }
    destruct (match Server.asset config with
              | Some a' => Some a'
              | None => USDC_ADDRESSES !! Server.network config
              end) as [a|]; [|discriminate].
    specialize (Hchoice a eq_refl). simpl.
    destruct (String.eqb_spec a "") as [->|Hne]; simpl; [discriminate|].
    destruct (Server.parseUsdcAmount usdc_units (Server.maxPrice config)) as [units|e];
      [|discriminate].
    intros [= <-]. simpl. repeat split; assumption.
  - intros e.
    destruct (match Server.asset config with
              | Some a' => Some a'
              | None => USDC_ADDRESSES !! Server.network config
              end) as [a|]; [|intros [= <-]; left; reflexivity].
    destruct (negb (truthy (Some a))); [intros [= <-]; left; reflexivity|].
    unfold Server.parseUsdcAmount.
    destruct (usdc_units (Server.strip_price (Server.maxPrice config)));
      [discriminate | intros [= <-]; right; reflexivity].
Qed.

(** X25. [parseUsdcAmount] drops every dollar sign and comma of the price
    wherever it stands, before the number is read: inserting one anywhere
    in a price changes neither whether the price is accepted nor the token
    units it gives. *)
Theorem parseUsdcAmount_drops_separators (before after : string) (units : string) :
  let accepted price := Server.parseUsdcAmount usdc_units price = Returned units in
  (accepted (before ++ "$" ++ after) <-> accepted (before ++ after))
  /\ (accepted (before ++ "," ++ after) <-> accepted (before ++ after)).
Proof.
  intros accepted. subst accepted. unfold Server.parseUsdcAmount.
  rewrite !strip_price_app. simpl.
  change (String.append "" (Server.strip_price after)) with (Server.strip_price after).
  destruct (usdc_units (Server.strip_price before ++ Server.strip_price after));
    split; split; intros H; congruence.
Qed.

End SchemeCoverage.

Section SchemeAgreement.
Import Js Prog Constants Types Middleware Course.
Variable usdc_units : string -> option string.

(** X26. Where the middleware and the server scheme agree.  For a route
    whose price reads, the requirements that the middleware advertises are
    the ones of [buildRequirements] exactly when the route names a token
    that is not the empty string, or names none and is on Base Sepolia. *)
Theorem middleware_requirements_agree_with_scheme routeConfig units :
  Server.parseUsdcAmount usdc_units (maxPrice routeConfig) = Returned units ->
  Server.buildRequirements usdc_units (scheme_config routeConfig)
  = Returned (requirementsFor routeConfig units)
  <-> (exists a, asset routeConfig = Some a /\ a <> "")
      \/ (asset routeConfig = None /\ network routeConfig = "eip155:84532").
Proof.
  intros Hprice. unfold Server.buildRequirements, requirementsFor, scheme_config.
  cbn [Server.asset Server.network Server.maxPrice Server.payTo Server.maxTimeoutSeconds].
  rewrite Hprice. destruct (asset routeConfig) as [a|]; simpl.
  - destruct (String.eqb_spec a "") as [->|Hne]; simpl.
    + split; [discriminate|]. intros [(a & [= <-] & Hne)|[[=] _]]. contradiction.
    + split; [|reflexivity]. intros _. left. exists a. split; [reflexivity | exact Hne].
  - destruct (USDC_ADDRESSES !! network routeConfig) as [a|] eqn:Hknown.
    + apply USDC_ADDRESSES_known in Hknown.
      destruct Hknown as [[Hn ->]|[Hn ->]]; simpl.
      * split; [discriminate|]. intros [(a & [=] & _)|[_ Hs]]. rewrite Hn in Hs.
        discriminate.
      * split; [|reflexivity]. intros _. right. split; [reflexivity | exact Hn].
    + split; [discriminate|]. intros [(a & [=] & _)|[_ Hs]].
      rewrite Hs in Hknown. vm_compute in Hknown. discriminate.
Qed.

End SchemeAgreement.

Section SchemeExamples.
Import Js Prog Constants Types Middleware Course.

(** Ethereum mainnet has no default token. *)
Lemma buildRequirements_token_before_price_witness :
  Server.buildRequirements Fixtures.usdc_units (scheme_config (Fixtures.route "eip155:1"))
  = Threw (JsError "No default token for network eip155:1. Provide asset explicitly.").
Proof.
  apply (proj1 (buildRequirements_token_before_price Fixtures.usdc_units
                  (scheme_config (Fixtures.route "eip155:1")) eq_refl)).
  - reflexivity.
  - discriminate.
  - discriminate.
Defined.

Lemma middleware_requirements_agree_with_scheme_witness :
  Server.buildRequirements Fixtures.usdc_units (scheme_config (Fixtures.route "eip155:84532"))
  = Returned (requirementsFor (Fixtures.route "eip155:84532") "1000000")
  <-> (exists a, asset (Fixtures.route "eip155:84532") = Some a /\ a <> "")
      \/ (asset (Fixtures.route "eip155:84532") = None
          /\ network (Fixtures.route "eip155:84532") = "eip155:84532").
Proof.
  apply (middleware_requirements_agree_with_scheme Fixtures.usdc_units
           (Fixtures.route "eip155:84532") "1000000").
  reflexivity.
Defined.

End SchemeExamples.

(** ** The chain write and the verification before it *)

Section SettlerGate.
Import Js Prog Constants Types Facilitator Spec Shape.
Context {W : Type} (h : world signer_call signer_answer W).

(** X27. The settler writes to the chain only after a verification that
    passed in the same run: when [writeContract] is among the calls of
    [settleUpto], [verifyUpto] for the same payload and requirements, from
    the same state of the signer, returns a valid verdict; the calls of the
    settler are those of that verification, then the write, then at most
    the wait for its receipt. *)
Theorem settleUpto_write_needs_valid_verification payload requirements (w : W) params :
  In (WriteContract params) (calls_of (run h (settleUpto payload requirements) w)) ->
  exists v rest,
    result_of (run h (verifyUpto payload requirements) w) = Returned v
    /\ isValid v = true
    /\ calls_of (run h (settleUpto payload requirements) w)
       = (calls_of (run h (verifyUpto payload requirements) w)
          ++ WriteContract params :: rest)%list
    /\ (rest = [] \/ exists hash, rest = [WaitForTransactionReceipt hash]).
Proof.
  assert (Hnone : forall l : list signer_call,
            List.filter is_chain_write l = [] -> ~ In (WriteContract params) l).
  { intros l Hl Hp. assert (Hf : In (WriteContract params) (List.filter is_chain_write l))
      by (apply filter_In; split; [exact Hp | reflexivity]).
    rewrite Hl in Hf. destruct Hf. }
  unfold calls_of, result_of, settleUpto. cbv zeta.
  set (eff := default _ (settlementAmount payload)).
  rewrite run_bigint. destruct (BigInt eff) as [s|] eqn:Hs; [|intros []].
  rewrite run_bigint. destruct (BigInt (amount _)) as [a|] eqn:Ha; [|intros []].
  destruct (a <? s); [intros []|].
  rewrite run_bigint, Hs. destruct (s =? 0); [intros []|].
  rewrite run_bind.
  pose proof (verifyUpto_no_write h payload requirements w) as Hnw. unfold calls_of in Hnw.
  destruct (run h (verifyUpto payload requirements) w) as [[[v|e] w1] c1]; cbn [fst snd] in *.
  2:{ intros Hp. destruct (Hnone c1 Hnw Hp). }
  destruct (isValid v) eqn:Hvalid.
  2:{ cbn. rewrite app_nil_r. intros Hp. destruct (Hnone c1 Hnw Hp). }
  simpl negb. cbv iota. rewrite run_try_catch, run_bigint, Ha.
  assert (Hstop : In (WriteContract params) (c1 ++ [])%list ->
            exists v0 rest,
              Returned v = Returned v0 /\ isValid v0 = true
              /\ (c1 ++ [])%list = (c1 ++ WriteContract params :: rest)%list
              /\ (rest = [] \/ exists hash, rest = [WaitForTransactionReceipt hash])).
  { rewrite app_nil_r. intros Hp. destruct (Hnone c1 Hnw Hp). }
  rewrite run_bigint. destruct (BigInt (nonce _)) as [n|]; [|exact Hstop].
  rewrite run_bigint. destruct (BigInt (deadline _)) as [d|]; [|exact Hstop].
  rewrite run_bigint, Hs.
  rewrite run_bigint. destruct (BigInt (validAfter _)) as [va|]; [|exact Hstop].
  clear Hstop. simpl.
  assert (Hwrite : forall p0 (rest : list signer_call),
            List.filter is_chain_write rest = [] ->
            In (WriteContract params) (c1 ++ WriteContract p0 :: rest)%list ->
            params = p0).
  { intros p0 rest Hrest Hp. apply in_app_or in Hp.
    destruct Hp as [Hp|[Hp|Hp]]; [destruct (Hnone c1 Hnw Hp) | congruence
                                  | destruct (Hnone rest Hrest Hp)]. }
  destruct (h (WriteContract _) w1) as [[hash|e] w2]; simpl.
  2:{ intros Hp. apply (Hwrite _ []) in Hp; [|reflexivity]. subst params.
      exists v, []. repeat split; auto. }
  destruct (h (WaitForTransactionReceipt hash) w2) as [[rc|e] w3]; simpl.
  2:{ intros Hp. apply (Hwrite _ [_]) in Hp; [|reflexivity]. subst params.
      exists v, [WaitForTransactionReceipt hash]. repeat split; eauto. }
  destruct (status rc); simpl; intros Hp;
    (apply (Hwrite _ [_]) in Hp; [|reflexivity]); subst params;
    exists v, [WaitForTransactionReceipt hash]; repeat split; eauto.
Qed.

End SettlerGate.

Section SettlerGateExamples.
Import Js Prog Constants Types Facilitator Spec Shape.

Lemma settleUpto_write_needs_valid_verification_witness :
  exists v rest,
    result_of (run (Fixtures.makeSigner 1700000000123 10000000000)
                   (verifyUpto (Fixtures.makePayload 1700000000 (Some "43700"))
                               Fixtures.requirements) tt) = Returned v
    /\ isValid v = true
    /\ calls_of (run (Fixtures.makeSigner 1700000000123 10000000000)
                     (settleUpto (Fixtures.makePayload 1700000000 (Some "43700"))
                                 Fixtures.requirements) tt)
       = (calls_of (run (Fixtures.makeSigner 1700000000123 10000000000)
                        (verifyUpto (Fixtures.makePayload 1700000000 (Some "43700"))
                                    Fixtures.requirements) tt)
          ++ WriteContract Samples.settleParams :: rest)%list
    /\ (rest = [] \/ exists hash, rest = [WaitForTransactionReceipt hash]).
Proof.
  apply (settleUpto_write_needs_valid_verification
           (Fixtures.makeSigner 1700000000123 10000000000)
           (Fixtures.makePayload 1700000000 (Some "43700")) Fixtures.requirements tt
           Samples.settleParams).
  vm_compute. do 4 right. left. reflexivity.
Defined.

End SettlerGateExamples.

(** ** The Permit2 approval *)

Section ApprovalCalldata.
Import Js Constants Approval Shape.

Lemma append_length (s t : string) :
  String.length (s ++ t) = (String.length s + String.length t)%nat.
Proof.
  induction s as [|c s IH]; [reflexivity|].
  change (String c s ++ t) with (String c (s ++ t)). simpl. rewrite IH. reflexivity.
Qed.

Lemma append_assoc (s t u : string) : (s ++ t) ++ u = s ++ (t ++ u).
Proof.
  induction s as [|c s IH]; [reflexivity|].
  change (String c s ++ t) with (String c (s ++ t)).
  change (String c (s ++ t) ++ u) with (String c ((s ++ t) ++ u)).
  rewrite IH. reflexivity.
Qed.

Lemma repeat_char_length c n : String.length (repeat_char c n) = n.
Proof. induction n as [|n IH]; simpl; [reflexivity | rewrite IH; reflexivity]. Qed.

Lemma toLowerCase_length s : String.length (toLowerCase s) = String.length s.
Proof. induction s as [|c s IH]; simpl; [reflexivity | rewrite IH; reflexivity]. Qed.

Lemma slice_length n s : String.length (slice n s) = (String.length s - n)%nat.
Proof.
  revert s. induction n as [|n IH]; intros s; simpl; [lia|].
  destruct s as [|c s]; simpl; [reflexivity | apply IH].
Qed.

Lemma padStart_length n c s :
  (String.length s <= n)%nat -> String.length (padStart n c s) = n.
Proof. intros Hs. unfold padStart. rewrite append_length, repeat_char_length. lia. Qed.

(** A digit is read back as its value, and is no white space. *)
Lemma hex_digit_read d :
  0 <= d < 16 ->
  digit_in 16 (hex_digit d) = Some d /\ is_white_space (hex_digit d) = false.
Proof.
  intros Hd.
  assert (Hcases : d = 0 \/ d = 1 \/ d = 2 \/ d = 3 \/ d = 4 \/ d = 5 \/ d = 6 \/ d = 7
                   \/ d = 8 \/ d = 9 \/ d = 10 \/ d = 11 \/ d = 12 \/ d = 13 \/ d = 14
                   \/ d = 15) by lia.
  decompose [or] Hcases; subst d; split; reflexivity.
Qed.

Lemma no_white_space_app s t :
  no_white_space (s ++ t) = no_white_space s && no_white_space t.
Proof.
  induction s as [|c s IH]; [reflexivity|].
  change (String c s ++ t) with (String c (s ++ t)). simpl. rewrite IH.
  rewrite andb_assoc. reflexivity.
Qed.

Lemma trim_end_no_white_space s : no_white_space s = true -> trim_end s = s.
Proof.
  induction s as [|c s IH]; simpl; [reflexivity|].
  intros H. apply andb_prop in H. destruct H as [Hc Hs]. rewrite (IH Hs).
  destruct s; [|reflexivity]. apply negb_true_iff in Hc. rewrite Hc. reflexivity.
Qed.

(** The digits that [hex_digits] puts before [acc]: at least one, at most
    [n] for a value below 16^n, none of them white space, and read back
    by [parse_all] as the value. *)
Lemma hex_digits_read fuel : forall z acc,
  (1 <= fuel)%nat -> 0 <= z < 16 ^ Z.of_nat fuel ->
  exists digits,
    hex_digits fuel z acc = digits ++ acc
    /\ (1 <= String.length digits)%nat
    /\ (forall n, (1 <= n)%nat -> z < 16 ^ Z.of_nat n -> (String.length digits <= n)%nat)
    /\ no_white_space digits = true
    /\ forall a rest,
         parse_all 16 (digits ++ rest) (Some a)
         = parse_all 16 rest (Some (a * 16 ^ Z.of_nat (String.length digits) + z)).
Proof.
  induction fuel as [|fuel IH]; intros z acc Hfuel Hz; [lia|].
  assert (Hmod : 0 <= z mod 16 < 16) by (apply Z.mod_pos_bound; lia).
  destruct (hex_digit_read (z mod 16) Hmod) as [Hread Hspace].
  cbn [hex_digits]. cbv zeta.
  destruct (Z.eqb_spec (z / 16) 0) as [Hq|Hq].
  - exists (String (hex_digit (z mod 16)) EmptyString).
    split; [reflexivity|]. split; [simpl; lia|]. split; [intros n Hn _; simpl; lia|].
    split; [simpl; rewrite Hspace; reflexivity|].
    intros a rest.
    change (String (hex_digit (z mod 16)) "" ++ rest)
      with (String (hex_digit (z mod 16)) rest).
    cbn [parse_all]. rewrite Hread. f_equal. f_equal. simpl.
    pose proof (Z.div_mod z 16). lia.
  - assert (Hquot : 0 < z / 16) by (pose proof (Z.div_pos z 16); lia).
    assert (Hbound : z / 16 < 16 ^ Z.of_nat fuel).
    { apply Z.div_lt_upper_bound; [lia|].
      replace (16 * 16 ^ Z.of_nat fuel) with (16 ^ Z.of_nat (S fuel)); [lia|].
      rewrite Nat2Z.inj_succ, Z.pow_succ_r by lia. reflexivity. }
    assert (Hpos : (1 <= fuel)%nat).
    { destruct fuel; [simpl in Hbound; lia | lia]. }
    destruct (IH (z / 16) (String (hex_digit (z mod 16)) acc) Hpos (conj (Z.lt_le_incl _ _ Hquot) Hbound))
      as (digits & Hdigits & Hlen & Hshort & Hclean & Hparse).
    exists (digits ++ String (hex_digit (z mod 16)) EmptyString).
    split; [rewrite Hdigits, append_assoc; reflexivity|].
    split; [rewrite append_length; simpl; lia|].
    split.
    { intros n Hn Hzn. rewrite append_length. simpl.
      destruct n as [|[|n]]; [lia| |].
      - exfalso. change (16 ^ Z.of_nat 1) with 16 in Hzn.
        pose proof (Z.div_small z 16). lia.
      - assert (Hle : (String.length digits <= S n)%nat); [|lia].
        apply Hshort; [lia|]. apply Z.div_lt_upper_bound; [lia|].
        replace (16 * 16 ^ Z.of_nat (S n)) with (16 ^ Z.of_nat (S (S n))); [lia|].
        rewrite (Nat2Z.inj_succ (S n)), Z.pow_succ_r by lia. reflexivity. }
    split; [rewrite no_white_space_app, Hclean; simpl; rewrite Hspace; reflexivity|].
    intros a rest. rewrite append_assoc.
    change (String (hex_digit (z mod 16)) "" ++ rest)
      with (String (hex_digit (z mod 16)) rest).
    rewrite Hparse. cbn [parse_all]. rewrite Hread. f_equal. f_equal.
    rewrite append_length. simpl String.length.
    replace (Z.of_nat (String.length digits + 1)) with (Z.succ (Z.of_nat (String.length digits)))
      by lia.
    rewrite Z.pow_succ_r by lia. cbn [from_option id].
    pose proof (Z.div_mod z 16). lia.
Qed.

Lemma toString16_read z :
  0 <= z ->
  exists digits,
    toString16 z = digits
    /\ (1 <= String.length digits)%nat
    /\ (forall n, (1 <= n)%nat -> z < 16 ^ Z.of_nat n -> (String.length digits <= n)%nat)
    /\ no_white_space digits = true
    /\ forall a rest,
         parse_all 16 (digits ++ rest) (Some a)
         = parse_all 16 rest (Some (a * 16 ^ Z.of_nat (String.length digits) + z)).
Proof.
  intros Hz. unfold toString16. destruct (Z.ltb_spec z 0) as [Hneg|_]; [lia|].
  assert (Hfuel : 0 <= z < 16 ^ Z.of_nat (S (Z.to_nat (Z.log2 z)))).
  { split; [exact Hz|]. rewrite Nat2Z.inj_succ, Z2Nat.id by apply Z.log2_nonneg.
    destruct (Z.eq_dec z 0) as [->|Hne]; [reflexivity|].
    pose proof (Z.log2_spec z ltac:(lia)) as [_ Hup].
    assert (2 ^ Z.succ (Z.log2 z) <= 16 ^ Z.succ (Z.log2 z)); [|lia].
    apply Z.pow_le_mono_l. lia. }
  destruct (hex_digits_read (S (Z.to_nat (Z.log2 z))) z EmptyString ltac:(lia) Hfuel)
    as (digits & Hdigits & Hrest).
  exists digits. split; [|exact Hrest].
  rewrite Hdigits. clear. induction digits as [|c s IH]; [reflexivity|].
  change (String c s ++ "") with (String c (s ++ "")). rewrite IH. reflexivity.
Qed.

Lemma parse_all_zeros k : forall s,
  parse_all 16 (repeat_char "0" k ++ s) (Some 0) = parse_all 16 s (Some 0).
Proof.
  induction k as [|k IH]; intros s; [reflexivity|].
  change (repeat_char "0" (S k) ++ s) with (String "0" (repeat_char "0" k ++ s)).
  cbn [parse_all]. change (digit_in 16 "0") with (Some 0). cbn [from_option id].
  apply IH.
Qed.

Lemma no_white_space_zeros k : no_white_space (repeat_char "0" k) = true.
Proof. induction k as [|k IH]; [reflexivity | simpl; exact IH]. Qed.

(** X28. The layout of the approve calldata.  For a spender of 42
    characters and an amount from 0 to 2^256 - 1, [encodeApproval] gives
    the selector 0x095ea7b3 followed by two fields of 64 characters, 138
    characters in all: the spender without its first two characters, in
    lower case, after 24 zeros; and the amount in hexadecimal, which
    [BigInt] reads back from the field as a 0x literal. *)
Theorem encodeApproval_layout spender amount :
  String.length spender = 42%nat ->
  0 <= amount < 2 ^ 256 ->
  exists spenderField amountField,
    encodeApproval spender amount = "0x095ea7b3" ++ spenderField ++ amountField
    /\ String.length (encodeApproval spender amount) = 138%nat
    /\ String.length spenderField = 64%nat
    /\ String.length amountField = 64%nat
    /\ spenderField = repeat_char "0" 24 ++ toLowerCase (slice 2 spender)
    /\ BigInt ("0x" ++ amountField) = Some amount.
Proof.
  intros Hspender Hamount.
  destruct (toString16_read amount ltac:(lia))
    as (digits & Hdigits & Hlen & Hshort & Hclean & Hparse).
  assert (Hfits : (String.length digits <= 64)%nat).
  { apply Hshort; [lia|]. change (16 ^ Z.of_nat 64) with (2 ^ 256). lia. }
  assert (Haddr : String.length (toLowerCase (slice 2 spender)) = 40%nat).
  { rewrite toLowerCase_length, slice_length, Hspender. reflexivity. }
  exists (padStart 64 "0" (toLowerCase (slice 2 spender))),
         (padStart 64 "0" (toString16 amount)).
  rewrite Hdigits.
  assert (L1 : String.length (padStart 64 "0" (toLowerCase (slice 2 spender))) = 64%nat)
    by (apply padStart_length; lia).
  assert (L2 : String.length (padStart 64 "0" digits) = 64%nat)
    by (apply padStart_length; exact Hfits).
  split; [unfold encodeApproval; rewrite Hdigits; reflexivity|].
  split.
  { unfold encodeApproval. rewrite Hdigits, !append_length, L1, L2. reflexivity. }
  split; [exact L1|]. split; [exact L2|].
  split; [unfold padStart; rewrite Haddr; reflexivity|].
  unfold padStart.
  set (zeros := repeat_char "0" (64 - String.length digits)).
  change ("0x" ++ zeros ++ digits) with (String "0" (String "x" (zeros ++ digits))).
  unfold BigInt.
  change (trim_start (String "0" (String "x" (zeros ++ digits))))
    with (String "0" (String "x" (zeros ++ digits))).
  rewrite trim_end_no_white_space.
  2:{ simpl. rewrite no_white_space_app. subst zeros.
      rewrite no_white_space_zeros, Hclean. reflexivity. }
  cbv beta iota. change (Ascii.eqb "x" "x") with true. cbn [orb].
  assert (Hnone : forall s, (1 <= String.length s)%nat ->
            parse_all 16 s None = parse_all 16 s (Some 0)).
  { intros [|c s] Hs; [simpl in Hs; lia | reflexivity]. }
  rewrite Hnone by (rewrite append_length; lia).
  subst zeros. rewrite parse_all_zeros.
  specialize (Hparse 0 EmptyString).
  assert (Hnil : digits ++ "" = digits).
  { clear. induction digits as [|c s IH]; [reflexivity|].
    change (String c s ++ "") with (String c (s ++ "")). rewrite IH. reflexivity. }
  rewrite Hnil in Hparse. rewrite Hparse. simpl. reflexivity.
Qed.

End ApprovalCalldata.

Section ApprovalExamples.
Import Js Constants Approval.

(** The calldata of [createPermit2ApprovalTx]: Permit2 as spender and
    2^160 - 1 as amount. *)
Lemma encodeApproval_layout_witness :
  exists spenderField amountField,
    tx_data (createPermit2ApprovalTx "0x036CbD53842c5426634e7929541eC2318f3dCF7e")
    = "0x095ea7b3" ++ spenderField ++ amountField
    /\ String.length
         (tx_data (createPermit2ApprovalTx "0x036CbD53842c5426634e7929541eC2318f3dCF7e"))
       = 138%nat
    /\ String.length spenderField = 64%nat
    /\ String.length amountField = 64%nat
    /\ spenderField = repeat_char "0" 24 ++ toLowerCase (slice 2 PERMIT2_ADDRESS)
    /\ BigInt ("0x" ++ amountField) = Some (2 ^ 160 - 1).
Proof.
  apply (encodeApproval_layout PERMIT2_ADDRESS (2 ^ 160 - 1)).
  - reflexivity.
  - split; [vm_compute; discriminate | vm_compute; reflexivity].
Defined.

End ApprovalExamples.
